(** * Kalshi hourly BTC signal generator: edge calculator, decision gate,
      order-book summary, VWAP cross counter and candle transform.

    A shallow embedding of the pure parts of

      - [src/engines/edge-kalshi.js]  ([computeEdge], [decide]),
      - [src/data/kalshi.js]          ([toNumber], [summarizeOrderBook],
                                       the choice of the market in
                                       [fetchCurrentKxbtcMarket], the snapshot
                                       of [fetchKalshiSnapshot], the payload of
                                       [placeOrder]),
      - [src/index-kalshi.js]         ([countVwapCrosses], [fmtTimeLeft],
                                       [stripAnsi], [padLabel], [centerText],
                                       [executeTradeIfNeeded] and the values
                                       of one round of the main loop),
      - [src/data/coinbase.js]        (the granularity, the time range and the
                                       candle transform of [fetchKlines]).

    Network calls are not modelled: a function that awaits one takes what
    the call produced, a value or a thrown error, as an argument.

    Numbers.  The probabilities, edges, quotes and minutes that reach
    [computeEdge] and [decide] are finite (quotes and candle fields go
    through [toNumber], which turns every non-finite value into [null]);
    they are modelled as rationals [Q], a decimal literal of the source
    denoting itself, and [null] is [None].  Where a value that is not finite
    can arise, in the argument of [toNumber] and in the array reads of
    [countVwapCrosses], the type [Js.number] adds [NaN] and the infinities.
    Timestamps, counts and array indices are integers [Z].

    Where the rounding of the arithmetic bears on the result, in the cents
    of an order, in the volumes of a round and in [fmtTimeLeft], the
    numbers are the doubles of the machine, [PrimFloat.float], with their
    own operations. *)

From Stdlib Require Import ZArith QArith Qminmax List String Ascii Bool Lia.
From Stdlib Require Import DecimalString DecimalNat Sorted Lqa Qround Qabs.
From Stdlib Require Floats.
Import ListNotations.

Local Open Scope Z_scope.
Local Open Scope Q_scope.

(** ** JavaScript comparison operators on finite numbers *)

Module Js.

(** [x < y] *)
Definition lt (x y : Q) : bool := negb (Qle_bool y x).
(** [x > y] *)
Definition gt (x y : Q) : bool := lt y x.
(** [x >= y] *)
Definition ge (x y : Q) : bool := Qle_bool y x.

Definition digitChar (d : Z) : ascii := ascii_of_nat (48 + Z.to_nat d).

Fixpoint fracDigits (fuel : nat) (r d : Z) : string :=
  match fuel with
  | O => EmptyString
  | S fuel' =>
      if (r =? 0)%Z then EmptyString
      else String (digitChar (r * 10 / d)) (fracDigits fuel' ((r * 10) mod d) d)
  end.

(** The string a template literal interpolates for a number, [`${x}`], for
    the numbers of this model: sign, integer part and the decimal digits of
    the fraction (at most 17 of them). *)
Definition numberToString (x : Q) : string :=
  let n := Qnum x in
  let d := Zpos (Qden x) in
  let a := Z.abs n in
  ((if (n <? 0)%Z then "-" else "")
   ++ NilZero.string_of_uint (N.to_uint (Z.to_N (a / d)))
   ++ (if (a mod d =? 0)%Z then "" else "." ++ fracDigits 17 (a mod d) d))%string.

(** A number, with the values that are not finite. *)
Inductive number : Type :=
  | NaN
  | Inf (negative : bool)
  | Fin (q : Q).

(** What reading an element of an array of numbers can yield. *)
Inductive value : Type :=
  | Undefined
  | Null
  | Number (n : number).

(** The coercion applied to the operands of an arithmetic operator. *)
Definition ToNumber (v : value) : number :=
  match v with
  | Undefined => NaN
  | Null => Fin 0
  | Number n => n
  end.

(** [a - b] *)
Definition sub (a b : value) : number :=
  match ToNumber a, ToNumber b with
  | NaN, _ | _, NaN => NaN
  | Fin x, Fin y => Fin (x - y)
  | Fin _, Inf s => Inf (negb s)
  | Inf s, Fin _ => Inf s
  | Inf s, Inf t => if Bool.eqb s t then NaN else Inf s
  end.

(** [n === 0], [n > 0] and [n < 0] *)
Definition isZero (n : number) : bool :=
  match n with Fin q => Qeq_bool q 0 | _ => false end.
Definition isPos (n : number) : bool :=
  match n with Fin q => gt q 0 | Inf s => negb s | NaN => false end.
Definition isNeg (n : number) : bool :=
  match n with Fin q => lt q 0 | Inf s => s | NaN => false end.

(** [Number.isFinite(n) ? n : null] *)
Definition finiteOrNull (n : number) : option Q :=
  match n with Fin q => Some q | _ => None end.

(** [a[i]] *)
Definition index (a : list value) (i : Z) : value :=
  if (i <? 0)%Z then Undefined else nth (Z.to_nat i) a Undefined.

(** [a.length] *)
Definition length {A : Type} (a : list A) : Z := Z.of_nat (List.length a).

End Js.

(** ** src/utils.js *)

Module Utils.

(** Modelled from the spec: [clamp] of [src/utils.js], which is not among the
    source files.  Section 4.5 says the quotes "are clamped to [0,1] and pass
    through unchanged in magnitude": a value below the lower bound becomes
    the lower bound, a value above the upper bound becomes the upper bound,
    and a value in between is returned as it is. *)
Definition clamp (x lo hi : Q) : Q :=
  if Js.lt x lo then lo else if Js.gt x hi then hi else x.

End Utils.

(** ** src/engines/edge-kalshi.js *)

Module EdgeKalshi.

Import Utils.

(** The object returned by [computeEdge]. *)
Module Edge.
Record t : Type := mk {
  marketUp : option Q;
  marketDown : option Q;
  edgeUp : option Q;
  edgeDown : option Q
}.
End Edge.

Definition computeEdge (modelUp modelDown : Q) (marketYes marketNo : option Q)
  : Edge.t :=
  match marketYes, marketNo with
  | Some yes, Some no =>
      let marketUp := yes in
      let marketDown := no in
      let edgeUp := modelUp - marketUp in
      let edgeDown := modelDown - marketDown in
      {| Edge.marketUp := Some (clamp marketUp 0 1);
         Edge.marketDown := Some (clamp marketDown 0 1);
         Edge.edgeUp := Some edgeUp;
         Edge.edgeDown := Some edgeDown |}
  | _, _ =>
      {| Edge.marketUp := None; Edge.marketDown := None;
         Edge.edgeUp := None; Edge.edgeDown := None |}
  end.

Inductive Phase : Type := EARLY | MID | LATE.
Inductive Action : Type := ENTER | NO_TRADE.
Inductive Side : Type := UP | DOWN.
Inductive Strength : Type := STRONG | GOOD | OPTIONAL.

(** The object returned by [decide].  A key that the returned object does
    not have ([reason] of an ENTER, [strength] and [edge] of a NO_TRADE) is
    [None], as is a key whose value is [null]. *)
Module Decision.
Record t : Type := mk {
  action : Action;
  side : option Side;
  phase : Phase;
  reason : option string;
  strength : option Strength;
  edge : option Q;
  edgeUp : option Q;
  edgeDown : option Q
}.
End Decision.

(** Line 40. *)
Definition phaseOf (remainingMinutes : Q) : Phase :=
  if Js.gt remainingMinutes 40 then EARLY
  else if Js.gt remainingMinutes 20 then MID
  else LATE.

(** Line 46. *)
Definition thresholdOf (phase : Phase) : Q :=
  match phase with EARLY => 0.05 | MID => 0.1 | LATE => 0.2 end.

(** Line 49. *)
Definition minProbOf (phase : Phase) : Q :=
  match phase with EARLY => 0.55 | MID => 0.6 | LATE => 0.65 end.

(** Lines 55 to 57. *)
Definition bestSideOf (edgeUp edgeDown : Q) : Side :=
  if Js.gt edgeUp edgeDown then UP else DOWN.

Definition pick {A : Type} (s : Side) (up down : A) : A :=
  match s with UP => up | DOWN => down end.

(** Line 84. *)
Definition strengthOf (bestEdge : Q) : Strength :=
  if Js.ge bestEdge 0.2 then STRONG
  else if Js.ge bestEdge 0.1 then GOOD
  else OPTIONAL.

Definition decide (remainingMinutes : Q) (edgeUp edgeDown : option Q)
    (modelUp modelDown : option Q) : Decision.t :=
  let phase := phaseOf remainingMinutes in
  let threshold := thresholdOf phase in
  let minProb := minProbOf phase in
  match edgeUp, edgeDown with
  | Some eUp, Some eDown =>
      let bestSide := bestSideOf eUp eDown in
      let bestEdge := pick bestSide eUp eDown in
      let bestModel := pick bestSide modelUp modelDown in
      if Js.lt bestEdge threshold then
        {| Decision.action := NO_TRADE; Decision.side := None;
           Decision.phase := phase;
           Decision.reason :=
             Some ("edge_below_" ++ Js.numberToString threshold)%string;
           Decision.strength := None; Decision.edge := None;
           Decision.edgeUp := Some eUp; Decision.edgeDown := Some eDown |}
      else if match bestModel with
              | Some m => Js.lt m minProb
              | None => false
              end then
        {| Decision.action := NO_TRADE; Decision.side := None;
           Decision.phase := phase;
           Decision.reason :=
             Some ("prob_below_" ++ Js.numberToString minProb)%string;
           Decision.strength := None; Decision.edge := None;
           Decision.edgeUp := Some eUp; Decision.edgeDown := Some eDown |}
      else
        let strength := strengthOf bestEdge in
        {| Decision.action := ENTER; Decision.side := Some bestSide;
           Decision.phase := phase;
           Decision.reason := None;
           Decision.strength := Some strength; Decision.edge := Some bestEdge;
           Decision.edgeUp := Some eUp; Decision.edgeDown := Some eDown |}
  | _, _ =>
      {| Decision.action := NO_TRADE; Decision.side := None;
         Decision.phase := phase;
         Decision.reason := Some "missing_market_data"%string;
         Decision.strength := None; Decision.edge := None;
         Decision.edgeUp := None; Decision.edgeDown := None |}
  end.

End EdgeKalshi.

(** ** src/data/kalshi.js *)

Module Kalshi.

(** [toNumber(x)]; the argument is given by the number that [Number(x)]
    coerces it to. *)
Definition toNumber (x : Js.number) : option Q := Js.finiteOrNull x.

(** One level of a side of the book, [[price, size]]. *)
Record Level : Type := mkLevel { price : Js.number; size : Js.number }.

(** The order book; a key that is missing or is not an array is [None]. *)
Record Book : Type := mkBook {
  yes : option (list Level);
  no : option (list Level)
}.

Module Side.
Record t : Type := mk {
  bestBid : option Q;
  bestAsk : option Q;
  spread : option Q;
  bidLiquidity : Q;
  askLiquidity : Q
}.
End Side.

Module Summary.
Record t : Type := mk { yes : Side.t; no : Side.t }.
End Summary.

(** [Array.isArray(book?.k) ? book.k : []] *)
Definition bidsOf (book : option Book) (k : Book -> option (list Level))
  : list Level :=
  match book with
  | Some b => match k b with Some l => l | None => [] end
  | None => []
  end.

(** [bids.length > n ? toNumber(bids[n][0]) : null] *)
Definition priceAt (bids : list Level) (n : nat) : option Q :=
  match nth_error bids n with
  | Some x => toNumber (price x)
  | None => None
  end.

Definition spreadOf (bestBid bestAsk : option Q) : option Q :=
  match bestBid, bestAsk with
  | Some b, Some a => Some (a - b)
  | _, _ => None
  end.

(** [bids.slice(0, depthLevels).reduce((acc, x) => acc + (toNumber(x[1]) ?? 0), 0)] *)
Definition liquidity (bids : list Level) (depthLevels : nat) : Q :=
  fold_left
    (fun acc x => acc + match toNumber (size x) with Some v => v | None => 0 end)
    (firstn depthLevels bids) 0.

(** [depthLevels], a number of levels, defaults to 5 at the call site. *)
Definition summarizeOrderBook (book : option Book) (depthLevels : nat)
  : Summary.t :=
  let yesBids := bidsOf book yes in
  let noBids := bidsOf book no in
  let bestYesBid := priceAt yesBids 0 in
  let bestNoBid := priceAt noBids 0 in
  let bestYesAsk := priceAt yesBids 1 in
  let bestNoAsk := priceAt noBids 1 in
  let yesSpread := spreadOf bestYesBid bestYesAsk in
  let noSpread := spreadOf bestNoBid bestNoAsk in
  let yesLiquidity := liquidity yesBids depthLevels in
  let noLiquidity := liquidity noBids depthLevels in
  {| Summary.yes :=
       {| Side.bestBid := bestYesBid;
          Side.bestAsk := bestYesAsk;
          Side.spread := yesSpread;
          Side.bidLiquidity := yesLiquidity;
          Side.askLiquidity := yesLiquidity |};
     Summary.no :=
       {| Side.bestBid := bestNoBid;
          Side.bestAsk := bestNoAsk;
          Side.spread := noSpread;
          Side.bidLiquidity := noLiquidity;
          Side.askLiquidity := noLiquidity |} |}.

(** The sum of the sizes of a list of levels, in the words of the
    specification: a size that is not a number counts as 0. *)
Fixpoint sumOfSizes (levels : list Level) : Q :=
  match levels with
  | [] => 0
  | x :: rest =>
      match toNumber (size x) with Some v => v | None => 0 end + sumOfSizes rest
  end.

End Kalshi.

(** ** src/index-kalshi.js *)

Module IndexKalshi.

(** The two arrays [countVwapCrosses] reads. *)
Inductive Arr : Type := Closes | VwapSeries.

(** An element read: which array and at which index. *)
Definition Access : Type := (Arr * Z)%type.

(** A computation that records the element reads it makes, in order. *)
Definition Traced (A : Type) : Type := (A * list Access)%type.

Definition ret {A : Type} (a : A) : Traced A := (a, []).

Definition bind {A B : Type} (m : Traced A) (k : A -> Traced B) : Traced B :=
  let (a, t1) := m in
  let (b, t2) := k a in
  (b, t1 ++ t2).

Notation "x <- m ;; k" := (bind m (fun x => k))
  (at level 61, m at next level, right associativity).

Definition read (which : Arr) (a : list Js.value) (i : Z) : Traced Js.value :=
  (Js.index a i, [(which, i)]).

Section Loop.

Variables closes vwapSeries : list Js.value.

(** The body of the loop at index [i]: the new value of [crosses]. *)
Definition body (crosses i : Z) : Traced Z :=
  c0 <- read Closes closes (i - 1) ;;
  v0 <- read VwapSeries vwapSeries (i - 1) ;;
  let prev := Js.sub c0 v0 in
  c1 <- read Closes closes i ;;
  v1 <- read VwapSeries vwapSeries i ;;
  let cur := Js.sub c1 v1 in
  if Js.isZero prev then ret crosses
  else if (Js.isPos prev && Js.isNeg cur) || (Js.isNeg prev && Js.isPos cur)
       then ret (crosses + 1)%Z
       else ret crosses.

(** [n] more rounds of [for (...; i < closes.length; i += 1)] from [i]. *)
Fixpoint loop (n : nat) (i crosses : Z) : Traced Z :=
  match n with
  | O => ret crosses
  | S n' => c <- body crosses i ;; loop n' (i + 1)%Z c
  end.

(** [countVwapCrosses] with the reads it makes; [None] is [null].  The loop
    runs from [closes.length - lookback + 1] while [i < closes.length], that
    is [closes.length - start] times when that is positive and not at all
    otherwise. *)
Definition countVwapCrossesTraced (lookback : Z) : Traced (option Z) :=
  if (Js.length closes <? lookback)%Z || (Js.length vwapSeries <? lookback)%Z
  then ret None
  else
    let start := (Js.length closes - lookback + 1)%Z in
    c <- loop (Z.to_nat (Js.length closes - start)) start 0%Z ;;
    ret (Some c).

Definition countVwapCrosses (lookback : Z) : option Z :=
  fst (countVwapCrossesTraced lookback).

(** The reads of a call, and whether a read is within the bounds of its
    array. *)
Definition readsOf (lookback : Z) : list Access :=
  snd (countVwapCrossesTraced lookback).

Definition inBounds (a : Access) : Prop :=
  let (which, i) := a in
  (0 <= i < Js.length match which with
                      | Closes => closes
                      | VwapSeries => vwapSeries
                      end)%Z.

End Loop.

End IndexKalshi.

(** ** src/data/coinbase.js *)

Module Coinbase.

Definition toNumber (x : Js.number) : option Q := Js.finiteOrNull x.

(** A row of the response, [[timestamp, low, high, open, close, volume]].
    The timestamp is a whole number of seconds; the other fields are given
    by the numbers [Number] coerces them to. *)
Record Row : Type := mkRow {
  timestamp : Z;
  price_low : Js.number;
  price_high : Js.number;
  price_open : Js.number;
  price_close : Js.number;
  row_volume : Js.number
}.

Record Candle : Type := mkCandle {
  openTime : Z;
  open : option Q;
  high : option Q;
  low : option Q;
  close : option Q;
  volume : option Q;
  closeTime : Z
}.

(** [granularityMap[interval]], [None] for a key the map does not have. *)
Definition granularityMap (interval : string) : option Z :=
  if String.eqb interval "1m" then Some 60%Z
  else if String.eqb interval "3m" then Some 180%Z
  else if String.eqb interval "5m" then Some 300%Z
  else if String.eqb interval "15m" then Some 900%Z
  else if String.eqb interval "1h" then Some 3600%Z
  else if String.eqb interval "1d" then Some 86400%Z
  else None.

Definition validGranularities : list Z :=
  [60; 300; 900; 3600; 21600; 86400]%Z.

(** [validGranularities.includes(g)] *)
Definition includes (l : list Z) (g : Z) : bool := existsb (Z.eqb g) l.

(** Lines 26 to 32. *)
Definition granularityOf (interval : string) : Z :=
  let granularity :=
    match granularityMap interval with
    | Some g => if (g =? 0)%Z then 60%Z else g
    | None => 60%Z
    end in
  if includes validGranularities granularity then granularity else 60%Z.

(** The function mapped over the response, lines 53 to 61. *)
Definition toCandle (granularity : Z) (candle : Row) : Candle :=
  {| openTime := (timestamp candle * 1000)%Z;
     open := toNumber (price_open candle);
     high := toNumber (price_high candle);
     low := toNumber (price_low candle);
     close := toNumber (price_close candle);
     volume := toNumber (row_volume candle);
     closeTime := ((timestamp candle + granularity) * 1000)%Z |}.

(** What [fetchKlines] returns for the response [data]. *)
Definition fetchKlines (interval : string) (data : list Row) : list Candle :=
  rev (map (toCandle (granularityOf interval)) data).

End Coinbase.

(** ** src/data/kalshi.js: the market snapshot and the order payload *)

Module KalshiApi.

Import Kalshi.

(** The outcome of an awaited call: it threw, or it returned a value. *)
Inductive Fetched (A : Type) : Type :=
  | Threw (message : string)
  | Got (a : A).
Arguments Threw {A} message.
Arguments Got {A} a.

(** A market as [fetchCurrentKxbtcMarket] returns it.  [close_time] is the
    value of [new Date(m.close_time).getTime()], [None] when the date is
    not valid; [strikePrice], [distance] and [closeTime] are the keys the
    function adds when it is given a price, [None] when it adds none. *)
Record Market : Type := mkMarket {
  ticker : option string;
  close_time : option Z;
  yes_bid : Js.value;
  no_bid : Js.value;
  strikePrice : option Q;
  distance : option Q;
  closeTime : option Z
}.

(** Whether [x ? a : b] takes its first branch, for a number or a missing
    value. *)
Definition truthy (x : Js.value) : bool :=
  match x with
  | Js.Number (Js.Fin q) => negb (Qeq_bool q 0)
  | Js.Number (Js.Inf _) => true
  | Js.Number Js.NaN => false
  | Js.Null => false
  | Js.Undefined => false
  end.

(** [bid ? toNumber(bid) / 100 : null]; a [null] from [toNumber] divides
    as 0. *)
Definition priceOfBid (bid : Js.value) : option Q :=
  if truthy bid then
    Some (match toNumber (Js.ToNumber bid) with Some n => n | None => 0 end / 100)
  else None.

Module Prices.
Record t : Type := mk { up : option Q; down : option Q }.
End Prices.

Module Orderbook.
Record t : Type := mk { up : Side.t; down : Side.t }.
End Orderbook.

Module Snapshot.
Record ok : Type := mk {
  market : Market;
  ticker : option string;
  strikePrice : option Q;
  prices : Prices.t;
  orderbook : Orderbook.t
}.
Inductive t : Type :=
  | NotOk (reason : string) (error : option string)
  | Ok (s : ok).
End Snapshot.

(** [data.orderbook || { yes: [], no: [] }] *)
Definition orderBookOf (orderbook : option Book) : Book :=
  match orderbook with
  | Some b => b
  | None => {| yes := Some []; no := Some [] |}
  end.

(** [market.strikePrice || null] *)
Definition strikeOrNull (strike : option Q) : option Q :=
  match strike with
  | Some k => if Qeq_bool k 0 then None else Some k
  | None => None
  end.

(** [fetchKalshiSnapshot], given what the two awaited calls produce:
    [fetchCurrentKxbtcMarket] and, for the ticker of the market,
    [fetchOrderBook] ([data.orderbook] of its response). *)
Definition fetchKalshiSnapshot
    (fetchedMarket : Fetched (option Market))
    (fetchedOrderbook : option string -> Fetched (option Book)) : Snapshot.t :=
  match fetchedMarket with
  | Threw message => Snapshot.NotOk "fetch_error" (Some message)
  | Got None => Snapshot.NotOk "market_not_found" None
  | Got (Some market) =>
      let ticker := ticker market in
      match fetchedOrderbook ticker with
      | Threw message => Snapshot.NotOk "fetch_error" (Some message)
      | Got data =>
          let orderbook := orderBookOf data in
          let summary := summarizeOrderBook (Some orderbook) 5 in
          let yesPrice := priceOfBid (yes_bid market) in
          let noPrice := priceOfBid (no_bid market) in
          Snapshot.Ok
            {| Snapshot.market := market;
               Snapshot.ticker := ticker;
               Snapshot.strikePrice := strikeOrNull (strikePrice market);
               Snapshot.prices := {| Prices.up := yesPrice; Prices.down := noPrice |};
               Snapshot.orderbook :=
                 {| Orderbook.up := Summary.yes summary;
                    Orderbook.down := Summary.no summary |} |}
      end
  end.

(** The body of an order. *)
Inductive ContractSide : Type := yes_side | no_side.

Module Order.
Record t : Type := mk {
  ticker : option string;
  side : ContractSide;
  action : string;
  count : Q;
  type : string;
  yes_price : option Z
}.
End Order.

(** The payload [placeOrder] builds: the price goes under [yes_price] when
    the type is "limit", and the key is absent otherwise. *)
Definition orderPayload (ticker : option string) (side : ContractSide)
    (action : string) (count : Q) (price : Z) (type : string) : Order.t :=
  {| Order.ticker := ticker; Order.side := side; Order.action := action;
     Order.count := count; Order.type := type;
     Order.yes_price := if String.eqb type "limit" then Some price else None |}.

End KalshiApi.

(** ** src/index-kalshi.js: one round of the main loop *)

Module Main.

Import EdgeKalshi KalshiApi.

(** The part of [CONFIG.kalshi] the trade path reads. *)
Record Config : Type := mkConfig {
  autoTrade : bool;
  maxPositionSize : Q;
  privateKey : string
}.

Record Position : Type := mkPosition {
  side : ContractSide;
  count : Q;
  entryPrice : option Q;
  entryTime : Z;
  entrySpotPrice : option Q
}.

(** The module-level variables [lastTradeTimestamp] and [currentPosition]. *)
Record TradeState : Type := mkTradeState {
  lastTradeTimestamp : Z;
  currentPosition : option Position
}.

Definition initialState : TradeState :=
  {| lastTradeTimestamp := 0%Z; currentPosition := None |}.

Section Trade.

(** What the exchange answers to an order. *)
Variable OrderResult : Type.

(** Signing and sending the request of [placeOrder], once the private key
    is known to be configured. *)
Variable send : Order.t -> Fetched OrderResult.

Variable CONFIG : Config.

(** What [executeTradeIfNeeded] returns besides [null]. *)
Inductive TradeResult : Type :=
  | Success (order : OrderResult) (position : Position)
  | Failure (error : string).

(** The outcome of a call with the state it leaves and the orders it has
    sent to the exchange. *)
Record Outcome : Type := mkOutcome {
  returned : option TradeResult;
  state : TradeState;
  sent : list Order.t
}.

(** [Math.round(x)] *)
Definition round (x : Q) : Z := Qfloor (x + (1 # 2)).

(** [x * 100] for a price or [null] *)
Definition times100 (x : option Q) : Q :=
  match x with Some q => q | None => 0 end * 100.

(** [placeOrder]: [generateKalshiAuthHeaders] throws before anything is
    sent when no private key is configured. *)
Definition placeOrder (ticker : option string) (side : ContractSide)
    (action : string) (count : Q) (price : Z) (type : string)
  : Fetched OrderResult * list Order.t :=
  let orderPayload := orderPayload ticker side action count price type in
  if String.eqb (privateKey CONFIG) "" then
    (Threw "Kalshi private key not configured"%string, [])
  else (send orderPayload, [orderPayload]).

(** The message of the TypeError of reading [kalshi.prices.up] or
    [kalshi.prices.down] on a snapshot that has no [prices]. *)
Definition noPricesMessage (side : ContractSide) : string :=
  match side with
  | yes_side => "Cannot read properties of undefined (reading 'up')"
  | no_side => "Cannot read properties of undefined (reading 'down')"
  end.

Definition executeTradeIfNeeded (now : Z) (recommendation : Decision.t)
    (kalshi : Snapshot.t) (spotPrice : option Q) (st : TradeState) : Outcome :=
  if negb (autoTrade CONFIG) then
    {| returned := None; state := st; sent := [] |}
  else
    match Decision.action recommendation with
    | NO_TRADE => {| returned := None; state := st; sent := [] |}
    | ENTER =>
        let side :=
          match Decision.side recommendation with
          | Some UP => yes_side
          | _ => no_side
          end in
        match kalshi with
        | Snapshot.NotOk _ _ =>
            {| returned := Some (Failure (noPricesMessage side));
               state := st; sent := [] |}
        | Snapshot.Ok k =>
            let quote :=
              match side with
              | yes_side => Prices.up (Snapshot.prices k)
              | no_side => Prices.down (Snapshot.prices k)
              end in
            let priceDecimal := quote in
            let priceCents := round (times100 priceDecimal) in
            let (orderResult, orders) :=
              placeOrder (Snapshot.ticker k) side "buy"
                         (maxPositionSize CONFIG) priceCents "limit" in
            match orderResult with
            | Threw message =>
                {| returned := Some (Failure message); state := st;
                   sent := orders |}
            | Got order =>
                let position :=
                  {| side := side; count := maxPositionSize CONFIG;
                     entryPrice := quote; entryTime := now;
                     entrySpotPrice := spotPrice |} in
                {| returned := Some (Success order position);
                   state := {| lastTradeTimestamp := now;
                               currentPosition := Some position |};
                   sent := orders |}
            end
        end
    end.

(** Lines 313 to 320: the quotes of the snapshot, the edge, the decision
    and the trade of one round. *)
Definition marketUpOf (kalshi : Snapshot.t) : option Q :=
  match kalshi with
  | Snapshot.Ok k => Prices.up (Snapshot.prices k)
  | Snapshot.NotOk _ _ => None
  end.

Definition marketDownOf (kalshi : Snapshot.t) : option Q :=
  match kalshi with
  | Snapshot.Ok k => Prices.down (Snapshot.prices k)
  | Snapshot.NotOk _ _ => None
  end.

Record Round : Type := mkRound {
  edge : Edge.t;
  rec : Decision.t;
  trade : Outcome
}.

Definition round_ (now : Z) (timeLeftMin adjustedUp adjustedDown : Q)
    (kalshi : Snapshot.t) (lastPrice : option Q) (st : TradeState) : Round :=
  let marketUp := marketUpOf kalshi in
  let marketDown := marketDownOf kalshi in
  let edge := computeEdge adjustedUp adjustedDown marketUp marketDown in
  let rec :=
    decide timeLeftMin (Edge.edgeUp edge) (Edge.edgeDown edge)
           (Some adjustedUp) (Some adjustedDown) in
  let tradeResult := executeTradeIfNeeded now rec kalshi lastPrice st in
  {| edge := edge; rec := rec; trade := tradeResult |}.

End Trade.

(** Line 365, the signal of the screen and of the CSV row. *)
Definition signal (rec : Decision.t) : string :=
  match Decision.action rec with
  | ENTER =>
      match Decision.side rec with Some UP => "BUY YES" | _ => "BUY NO" end
  | NO_TRADE => "NO TRADE"
  end.

(** Lines 447 and 453, the [signal] and [best_edge] keys of the JSON
    signal. *)
Definition jsonSignal_signal (rec : Decision.t) : string :=
  match Decision.action rec with
  | ENTER =>
      match Decision.side rec with Some UP => "BUY_YES" | _ => "BUY_NO" end
  | NO_TRADE => "NO_TRADE"
  end.

Definition jsonSignal_best_edge (rec : Decision.t) (edge : Edge.t) : option Q :=
  match Decision.action rec with
  | ENTER =>
      match Decision.side rec with
      | Some UP => Edge.edgeUp edge
      | _ => Edge.edgeDown edge
      end
  | NO_TRADE => None
  end.

(** Lines 374 to 380, the colour of the time left. *)
Inductive Colour : Type := green | yellow | red | reset.

Definition timeColor (timeLeftMin : Q) : Colour :=
  if Js.ge timeLeftMin 40 && Qle_bool timeLeftMin 60 then green
  else if Js.ge timeLeftMin 20 && Js.lt timeLeftMin 40 then yellow
  else if Js.ge timeLeftMin 0 && Js.lt timeLeftMin 20 then red
  else reset.

End Main.

(** ** More of the runtime: division, decimal digits, slices, sorting *)

Module JsLib.

(** [a / d] for a finite divisor [d]; a zero divisor is [+0]. *)
Definition div (a : Js.number) (d : Q) : Js.number :=
  match a with
  | Js.NaN => Js.NaN
  | Js.Inf s => Js.Inf (xorb s (Js.lt d 0))
  | Js.Fin x =>
      if Qeq_bool d 0 then
        (if Qeq_bool x 0 then Js.NaN else Js.Inf (Js.lt x 0))
      else Js.Fin (x / d)
  end.

(** [String(n)] for an integer [n >= 0]. *)
Definition decimal (n : Z) : string :=
  NilZero.string_of_uint (N.to_uint (Z.to_N n)).

(** [s.padStart(2, "0")] *)
Definition padStart2 (s : string) : string :=
  match String.length s with
  | O => ("00" ++ s)%string
  | S O => ("0" ++ s)%string
  | _ => s
  end.

(** [a.slice(-n)] for [n >= 0]: the last [n] elements, or all of them. *)
Definition lastN {A : Type} (n : nat) (a : list A) : list A :=
  skipn (List.length a - n) a.

(** [a.sort(compare)], which is stable: an element goes before the first
    element of the sorted rest that it does not compare greater than.  A
    comparison that yields NaN, here [None], counts as 0. *)
Section Sort.
Variable A : Type.
Variable compare : A -> A -> option Q.

Definition greater (x y : A) : bool :=
  match compare x y with Some c => Js.gt c 0 | None => false end.

Fixpoint insert (x : A) (sorted : list A) : list A :=
  match sorted with
  | [] => [x]
  | y :: rest => if greater x y then y :: insert x rest else x :: sorted
  end.

Definition sort (a : list A) : list A := fold_right insert [] a.
End Sort.

End JsLib.

(** ** src/data/coinbase.js: the time range of a request *)

Module CoinbaseRequest.

Import Coinbase.

Record Range : Type := mkRange {
  startTime : Z;
  endTime : Z
}.

(** Lines 35 to 37; [nowMs] is [Date.now()]. *)
Definition timeRange (nowMs : Z) (interval : string) (limit : Z) : Range :=
  let granularity := granularityOf interval in
  let actualLimit := Z.min limit 300 in
  let endTime := (nowMs / 1000)%Z in
  let startTime := (endTime - granularity * actualLimit)%Z in
  {| startTime := startTime; endTime := endTime |}.

End CoinbaseRequest.

(** ** src/data/kalshi.js: the choice of the market *)

Module KalshiMarkets.

Import KalshiApi.

Definition isDigit (c : ascii) : bool :=
  (48 <=? nat_of_ascii c)%nat && (nat_of_ascii c <=? 57)%nat.

(** The longest run of digits at the head of a string, and what follows. *)
Fixpoint digits (s : string) : string * string :=
  match s with
  | String c rest =>
      if isDigit c then let (ds, after) := digits rest in (String c ds, after)
      else (EmptyString, s)
  | EmptyString => (EmptyString, EmptyString)
  end.

(** A match of [-([TB])(\d+(?:\.\d+)?)] at the head of a string: the text
    of its second group. *)
Definition matchHere (s : string) : option string :=
  match s with
  | String "-" (String letter rest) =>
      if Ascii.eqb letter "T" || Ascii.eqb letter "B" then
        match digits rest with
        | (EmptyString, _) => None
        | (whole, String "." after) =>
            match digits after with
            | (EmptyString, _) => Some whole
            | (fraction, _) => Some (whole ++ "." ++ fraction)%string
            end
        | (whole, _) => Some whole
        end
      else None
  | _ => None
  end.

(** [ticker.match(...)]: the first position that matches. *)
Fixpoint matchStrike (ticker : string) : option string :=
  match matchHere ticker with
  | Some group => Some group
  | None =>
      match ticker with
      | String _ rest => matchStrike rest
      | EmptyString => None
      end
  end.

(** The value of a run of digits after [acc]. *)
Fixpoint digitsValue (acc : Z) (s : string) : Z :=
  match s with
  | String c rest => digitsValue (acc * 10 + (Z.of_nat (nat_of_ascii c) - 48)) rest
  | EmptyString => acc
  end.

(** [parseFloat] on the text of the group: digits, then possibly a point
    and digits. *)
Definition parseFloat (group : string) : Q :=
  let (whole, after) := digits group in
  match after with
  | String "." fraction =>
      inject_Z (digitsValue 0 whole)
      + inject_Z (digitsValue 0 fraction) / inject_Z (10 ^ Z.of_nat (String.length fraction))
  | _ => inject_Z (digitsValue 0 whole)
  end.

(** Lines 99 to 102. *)
Definition strikeOf (m : Market) : Q :=
  let ticker := match ticker m with Some t => t | None => EmptyString end in
  match matchStrike ticker with
  | Some group => parseFloat group
  | None => 0
  end.

(** [Math.abs] *)
Definition abs (x : Q) : Q := if Js.lt x 0 then - x else x.

(** Lines 83 to 86. *)
Definition closesSoon (now : Z) (m : Market) : bool :=
  let twoHoursLater := (now + 2 * 60 * 60 * 1000)%Z in
  match close_time m with
  | Some closeTime => (now <? closeTime)%Z && (closeTime <=? twoHoursLater)%Z
  | None => false
  end.

(** Lines 92 to 94, the comparison by close time. *)
Definition byCloseTime (a b : Market) : option Q :=
  match close_time a, close_time b with
  | Some ta, Some tb => Some (inject_Z (ta - tb))
  | _, _ => None
  end.

(** Lines 98 to 106. *)
Definition withStrike (currentBtcPrice : Q) (m : Market) : Market :=
  let strikePrice := strikeOf m in
  let distance := abs (strikePrice - currentBtcPrice) in
  {| ticker := ticker m; close_time := close_time m;
     yes_bid := yes_bid m; no_bid := no_bid m;
     strikePrice := Some strikePrice; distance := Some distance;
     closeTime := close_time m |}.

(** Lines 109 to 114, the comparison by close time and then by distance. *)
Definition byCloseTimeThenDistance (a b : Market) : option Q :=
  match closeTime a, closeTime b with
  | Some ta, Some tb =>
      if negb (ta =? tb)%Z then Some (inject_Z (ta - tb))
      else
        match distance a, distance b with
        | Some da, Some db => Some (da - db)
        | _, _ => None
        end
  | _, _ => None
  end.

(** [!currentBtcPrice] for a price or [null] *)
Definition noPrice (currentBtcPrice : option Q) : bool :=
  match currentBtcPrice with
  | Some p => Qeq_bool p 0
  | None => true
  end.

(** [fetchCurrentKxbtcMarket], given what the request produces: it threw
    (also on a response that is not ok), or it returned [data.markets],
    [None] when that is not an array. *)
Definition fetchCurrentKxbtcMarket (response : Fetched (option (list Market)))
    (now : Z) (currentBtcPrice : option Q) : Fetched (option Market) :=
  match response with
  | Threw message => Threw message
  | Got data =>
      let markets := match data with Some l => l | None => [] end in
      match markets with
      | [] => Got None
      | _ =>
          let soonMarkets := filter (closesSoon now) markets in
          match soonMarkets with
          | [] => Got None
          | _ =>
              if noPrice currentBtcPrice then
                Got (hd_error (JsLib.sort _ byCloseTime soonMarkets))
              else
                let price := match currentBtcPrice with Some p => p | None => 0 end in
                let marketsWithStrikes := map (withStrike price) soonMarkets in
                Got (hd_error
                       (JsLib.sort _ byCloseTimeThenDistance marketsWithStrikes))
          end
      end
  end.

End KalshiMarkets.

(** ** Doubles *)

Module Double.

Import PrimFloat SpecFloat FloatOps.

(** The exact value of a double that is finite. *)
Definition value (x : float) : option Q :=
  match Prim2SF x with
  | S754_zero _ => Some 0
  | S754_finite negative m e =>
      Some (inject_Z (if negative then Z.neg m else Z.pos m) * 2 ^ e)
  | S754_infinity _ => None
  | S754_nan => None
  end.

(** The double nearest to an integer; it is the integer itself up to 2^53
    in absolute value. *)
Definition ofZ (n : Z) : float :=
  SF2Prim (binary_normalize prec emax n 0 false).

(** A whole number, or what [Math.floor] and [Math.round] return of a
    number that is not finite.  The sign of a zero is not kept. *)
Inductive integral : Type :=
  | Int (n : Z)
  | NaN
  | Infinity (negative : bool).

(** A whole number as an operand of the arithmetic on doubles. *)
Definition toDouble (i : integral) : float :=
  match i with
  | Int n => ofZ n
  | NaN => nan
  | Infinity negative => if negative then neg_infinity else infinity
  end.

(** The whole number that [f] makes of the exact value of a finite
    double; what is not finite stays as it is. *)
Definition integralOf (f : Q -> Z) (x : float) : integral :=
  match Prim2SF x with
  | S754_zero _ => Int 0
  | S754_finite negative m e =>
      Int (f (inject_Z (if negative then Z.neg m else Z.pos m) * 2 ^ e))
  | S754_infinity negative => Infinity negative
  | S754_nan => NaN
  end.

(** [Math.floor(x)] *)
Definition floor (x : float) : integral := integralOf Qfloor x.

(** [Math.round(x)]: the nearest integer, a half going up. *)
Definition round (x : float) : integral :=
  integralOf (fun q => Qfloor (q + (1 # 2))) x.

(** [Math.max(a, b)] *)
Definition max (a b : integral) : integral :=
  match a, b with
  | NaN, _ => NaN
  | _, NaN => NaN
  | Infinity false, _ => Infinity false
  | _, Infinity false => Infinity false
  | Infinity true, _ => b
  | _, Infinity true => a
  | Int n, Int k => Int (Z.max n k)
  end.

(** [a % b] for a divisor [b] that is a whole number other than 0; the
    result has the sign of [a]. *)
Definition rem (a : integral) (b : Z) : integral :=
  match a with
  | Int n => Int (Z.rem n b)
  | NaN => NaN
  | Infinity _ => NaN
  end.

(** [String(i)].  Up to 2^53 in absolute value a whole number is written
    with all its decimal digits.  Beyond, the digits are the shortest that
    denote the double, which is not modelled: the result is [None] then. *)
Definition toString (i : integral) : option string :=
  match i with
  | Int n =>
      if (Z.abs n <=? 2 ^ 53)%Z then
        Some ((if (n <? 0)%Z then "-" else "") ++ JsLib.decimal (Z.abs n))%string
      else None
  | NaN => Some "NaN"%string
  | Infinity negative => Some (if negative then "-Infinity" else "Infinity")%string
  end.

End Double.

(** ** src/data/kalshi.js and src/index-kalshi.js: the cents of a quote, in doubles *)

Module KalshiCents.

Import PrimFloat Double.

(** [toNumber(x)] for a number [x] *)
Definition toNumber (x : float) : option float :=
  if is_finite x then Some x else None.

(** The truth value of a bid that is a number; [None] is a bid that is
    missing or null. *)
Definition truthy (bid : option float) : bool :=
  match bid with
  | Some x => negb (is_nan x || is_zero x)
  | None => false
  end.

(** [bid ? toNumber(bid) / 100 : null], lines 241 and 242 of
    [data/kalshi.js]; under [/], null is 0. *)
Definition priceOfBid (bid : option float) : option float :=
  if truthy bid then
    Some (match bid with
          | Some x => match toNumber x with Some n => n | None => 0 end
          | None => 0
          end / 100)%float
  else None.

(** [Math.round(priceDecimal * 100)], line 182 of [index-kalshi.js]; under
    [*], null is 0. *)
Definition priceCents (priceDecimal : option float) : integral :=
  round (match priceDecimal with Some p => p | None => 0 end * 100)%float.

End KalshiCents.

(** ** src/index-kalshi.js: the volumes of a round and the time left, in doubles *)

Module MainDoubles.

Import PrimFloat Double.

(** A candle of [fetchKlines] with its numbers as doubles. *)
Record Candle : Type := mkCandle {
  openTime : float;
  open : option float;
  high : option float;
  low : option float;
  close : option float;
  volume : option float;
  closeTime : float
}.

(** [(a, c) => a + c.volume]; under [+], a null volume is 0. *)
Definition addVolume (a : float) (c : Candle) : float :=
  (a + match volume c with Some v => v | None => 0 end)%float.

(** Lines 282 and 283. *)
Definition volumeRecentOf (candles : list Candle) : float :=
  fold_left addVolume (JsLib.lastN 20 candles) 0%float.

Definition volumeAvgOf (candles : list Candle) : float :=
  (fold_left addVolume (JsLib.lastN 120 candles) 0 / 6)%float.

(** [fmtTimeLeft]; [None] where [String] is not modelled. *)
Definition fmtTimeLeft (mins : float) : option string :=
  let totalSeconds := max (Int 0) (floor (mins * 60)%float) in
  let m := floor (toDouble totalSeconds / 60)%float in
  let s := rem totalSeconds 60 in
  match toString m, toString s with
  | Some m', Some s' =>
      Some (JsLib.padStart2 m' ++ ":" ++ JsLib.padStart2 s')%string
  | _, _ => None
  end.

End MainDoubles.

(** ** src/index-kalshi.js: the VWAP slope of a round *)

Module MainValues.

(** [CONFIG.vwapSlopeLookbackMinutes] of [src/config.js]. *)
Definition vwapSlopeLookbackMinutes : Z := 10.

(** Lines 261 and 264; [None] is [null]. *)
Definition vwapNowOf (vwapSeries : list Js.value) : Js.value :=
  Js.index vwapSeries (Js.length vwapSeries - 1).

Definition vwapSlopeOf (lookback : Z) (vwapSeries : list Js.value)
  : option Js.number :=
  let vwapNow := vwapNowOf vwapSeries in
  if (lookback <=? Js.length vwapSeries)%Z then
    Some (JsLib.div
            (Js.sub vwapNow (Js.index vwapSeries (Js.length vwapSeries - lookback)))
            (inject_Z lookback))
  else None.

End MainValues.

(** ** src/index-kalshi.js: the MACD label and the padding of the screen *)

Module MainDisplay.

(** The keys of the MACD object that the round reads; [macd] itself is
    [null] while there are too few closes. *)
Record Macd : Type := mkMacd {
  hist : Q;
  histDelta : option Q
}.

(** Lines 323 to 327, the label on the screen. *)
Definition macdLabel (macd : option Macd) : string :=
  match macd with
  | None => "-"
  | Some m =>
      if Js.lt (hist m) 0 then
        (if match histDelta m with Some d => Js.lt d 0 | None => false end
         then "bearish (expanding)" else "bearish")
      else
        (if match histDelta m with Some d => Js.gt d 0 | None => false end
         then "bullish (expanding)" else "bullish")
  end.

(** Line 461, [macd?.hist < 0 ? "bearish" : "bullish"]: the comparison of
    [undefined] with 0 is false. *)
Definition jsonSignal_macd_signal (macd : option Macd) : string :=
  if match macd with Some m => Js.lt (hist m) 0 | None => false end
  then "bearish" else "bullish".

(** A string as the sequence of its code units. *)
Definition text : Type := list N.

Definition ESC : N := 27.
Definition space : N := 32.

(** [" ".repeat(n)] *)
Definition spaces (n : Z) : text := repeat space (Z.to_nat n).

(** A code unit of the class [[0-9;]]. *)
Definition isParameter (c : N) : bool :=
  ((48 <=? c) && (c <=? 57) || (c =? 59))%N.

(** What follows the longest run of [[0-9;]] at the head. *)
Fixpoint afterParameters (s : text) : text :=
  match s with
  | c :: rest => if isParameter c then afterParameters rest else s
  | [] => []
  end.

(** A match of [\x1b\[[0-9;]*m] at the head: what follows it. *)
Definition afterEscape (s : text) : option text :=
  match s with
  | c0 :: c1 :: rest =>
      if ((c0 =? ESC) && (c1 =? 91))%N then
        match afterParameters rest with
        | c :: after => if (c =? 109)%N then Some after else None
        | [] => None
        end
      else None
  | _ => None
  end.

(** [s.replace(/\x1b\[[0-9;]*m/g, "")]: at each position, from the left,
    a match is dropped and the search goes on after it; [fuel] bounds the
    number of positions. *)
Fixpoint strip (fuel : nat) (s : text) : text :=
  match fuel with
  | O => s
  | S fuel' =>
      match afterEscape s with
      | Some after => strip fuel' after
      | None =>
          match s with
          | c :: rest => c :: strip fuel' rest
          | [] => []
          end
      end
  end.

Definition stripAnsi (s : text) : text := strip (List.length s) s.

(** [padLabel] *)
Definition padLabel (label : text) (width : Z) : text :=
  let visible := Js.length (stripAnsi label) in
  if (width <=? visible)%Z then label
  else label ++ spaces (width - visible).

(** [centerText] *)
Definition centerText (txt : text) (width : Z) : text :=
  let visible := Js.length (stripAnsi txt) in
  if (width <=? visible)%Z then txt
  else
    let left := ((width - visible) / 2)%Z in
    let right := (width - visible - left)%Z in
    spaces left ++ txt ++ spaces right.

End MainDisplay.

(** ** Vocabulary of the statements *)

Module Stated.

Import EdgeKalshi Coinbase.

(** The object [computeEdge] returns when a quote is missing. *)
Definition allNull : Edge.t :=
  {| Edge.marketUp := None; Edge.marketDown := None;
     Edge.edgeUp := None; Edge.edgeDown := None |}.

(** The text of the two reasons that carry a number, per phase. *)
Definition edgeReason (p : Phase) : string :=
  match p with
  | EARLY => "edge_below_0.05"
  | MID => "edge_below_0.1"
  | LATE => "edge_below_0.2"
  end.

Definition probReason (p : Phase) : string :=
  match p with
  | EARLY => "prob_below_0.55"
  | MID => "prob_below_0.6"
  | LATE => "prob_below_0.65"
  end.

(** The strength that goes with the edge of the best side: STRONG from
    0.20, GOOD from 0.10, OPTIONAL below. *)
Definition strengthFor (bestEdge : Q) (strength : option Strength) : Prop :=
  (0.2 <= bestEdge -> strength = Some STRONG) /\
  (bestEdge < 0.2 -> 0.1 <= bestEdge -> strength = Some GOOD) /\
  (bestEdge < 0.1 -> strength = Some OPTIONAL).

(** The size of a level as a number, 0 when it is not a finite number, and
    the sum of the sizes of a list of levels, added up from the first level
    on, starting from 0. *)
Definition sizeOrZero (x : Kalshi.Level) : Q :=
  match Kalshi.size x with
  | Js.Fin q => q
  | Js.NaN => 0
  | Js.Inf _ => 0
  end.

Definition totalSize (levels : list Kalshi.Level) : Q :=
  fold_left (fun total x => total + sizeOrZero x) levels 0.

(** The order of the rows of a response sorted newest first, and of a
    series of candles sorted oldest first. *)
Definition newerFirst (a b : Row) : Prop := (timestamp b <= timestamp a)%Z.
Definition olderFirst (a b : Candle) : Prop := (openTime a <= openTime b)%Z.

End Stated.

(** ** Vocabulary of the further properties *)

Module StatedMore.

Import EdgeKalshi.

(** The other side. *)
Definition flipSide (s : Side) : Side :=
  match s with UP => DOWN | DOWN => UP end.

Section OfKalshi.
Import Kalshi.

(** The two sides of the summary are computed alike: [sideOf bids] is the
    summary of a side whose bids are [bids]. *)
Definition sideOf (bids : list Level) (depthLevels : nat) : Side.t :=
  {| Side.bestBid := priceAt bids 0;
     Side.bestAsk := priceAt bids 1;
     Side.spread := spreadOf (priceAt bids 0) (priceAt bids 1);
     Side.bidLiquidity := liquidity bids depthLevels;
     Side.askLiquidity := liquidity bids depthLevels |}.

Definition sizeIsNotNegative (x : Level) : Prop :=
  forall v, toNumber (size x) = Some v -> 0 <= v.

(** A number of the book when it is finite, null otherwise. *)
Definition finiteValue (x : Js.number) : option Q :=
  match x with
  | Js.Fin q => Some q
  | Js.NaN => None
  | Js.Inf _ => None
  end.

(** What the summary of a side says of the prices of the array [levels] of
    the book: the best bid is the price of its first level, the best ask
    the price of its second level, and the spread is known exactly when
    both are finite numbers, as the second price minus the first. *)
Definition pricesOfLevels (levels : list Level) (side : Side.t) : Prop :=
  (Side.bestBid side = match levels with
                       | first :: _ => finiteValue (price first)
                       | [] => None
                       end) /\
  (Side.bestAsk side = match levels with
                       | _ :: second :: _ => finiteValue (price second)
                       | _ => None
                       end) /\
  ((List.length levels <= 1)%nat ->
     Side.bestAsk side = None /\ Side.spread side = None) /\
  (forall spread, Side.spread side = Some spread <->
     exists first second rest b a,
       levels = first :: second :: rest /\
       price first = Js.Fin b /\ price second = Js.Fin a /\ spread = a - b).
End OfKalshi.

Section OfMain.
Import KalshiApi Main.

(** A configuration, an exchange that accepts every order and a snapshot
    with bids of 47 and 51 cents, for the examples. *)
Definition exampleConfig : Config :=
  {| autoTrade := true; maxPositionSize := 10; privateKey := "key" |}.

Definition exampleSend (o : Order.t) : Fetched string := Got "accepted"%string.

Definition exampleSnapshot : Snapshot.t :=
  fetchKalshiSnapshot
    (Got (Some (mkMarket (Some "KXBTCD-26FEB0201-T75000"%string)
                         (Some 1770000000000%Z)
                         (Js.Number (Js.Fin 47)) (Js.Number (Js.Fin 51))
                         (Some 75000) (Some 120) (Some 1770000000000%Z))))
    (fun _ => Got None).
(** A market with a close time that is a valid date, and a market with
    the keys that [fetchCurrentKxbtcMarket] adds. *)
Definition hasCloseTime (m : Market) : Prop := exists t, close_time m = Some t.

Definition hasStrike (m : Market) : Prop :=
  exists t d, closeTime m = Some t /\ distance m = Some d.

(** A market that closes after [now] and within the next two hours, which
    are 7 200 000 milliseconds; a close time that is not a valid date is
    [None]. *)
Definition closesWithinTwoHours (now : Z) (m : Market) : Prop :=
  exists t, close_time m = Some t /\ (now < t)%Z /\ (t <= now + 7200000)%Z.

(** No price was passed, or a price of 0. *)
Definition withoutPrice (currentBtcPrice : option Q) : Prop :=
  match currentBtcPrice with
  | Some p => p == 0
  | None => True
  end.
End OfMain.

(** A finite number as an element of an array. *)
Definition finite (q : Q) : Js.value := Js.Number (Js.Fin q).

(** A crossing between two consecutive differences: from above to below,
    or from below to above. *)
Definition crossed (prev cur : Q) : bool :=
  (Js.gt prev 0 && Js.lt cur 0) || (Js.lt prev 0 && Js.gt cur 0).

(** The number of crossings along a list of differences. *)
Fixpoint signChanges (differences : list Q) : Z :=
  match differences with
  | prev :: (cur :: _) as rest =>
      ((if crossed prev cur then 1 else 0) + signChanges rest)%Z
  | _ => 0%Z
  end.

(** The differences of two series, position by position. *)
Fixpoint differencesOf (closes vwapSeries : list Q) : list Q :=
  match closes, vwapSeries with
  | c :: closes', v :: vwapSeries' => (c - v) :: differencesOf closes' vwapSeries'
  | _, _ => []
  end.

(** The volumes of a list of candles added up in doubles from the first
    candle on, starting from 0; a null volume adds 0. *)
Definition sumOfVolumes (candles : list MainDoubles.Candle) : PrimFloat.float :=
  fold_left
    (fun total c =>
       PrimFloat.add total
         match MainDoubles.volume c with Some v => v | None => PrimFloat.zero end)
    candles PrimFloat.zero.

(** The series that starts at [a] and rises by [d] from one element to the
    next, [n] elements long. *)
Definition risingSeries (a d : Q) (n : nat) : list Q :=
  map (fun i => a + inject_Z (Z.of_nat i) * d) (seq 0 n).

(** The decimal numeral of a natural number. *)
Definition numeral (n : nat) : string :=
  NilZero.string_of_uint (Nat.to_uint n).

(** A number below 100 in two decimal digits. *)
Definition twoDigits (n : Z) : string :=
  String (Js.digitChar (n / 10)) (String (Js.digitChar (n mod 10)) EmptyString).

End StatedMore.

(** * Properties *)

Import EdgeKalshi Stated StatedMore.

(** ** The comparison operators *)

Section Comparisons.

Variables x y : Q.

Lemma lt_true : Js.lt x y = true <-> x < y.
Proof.
  unfold Js.lt. rewrite negb_true_iff, <- not_true_iff_false, Qle_bool_iff.
  split; [apply Qnot_le_lt | apply Qlt_not_le].
Qed.

Lemma lt_false : Js.lt x y = false <-> y <= x.
Proof.
  unfold Js.lt. rewrite negb_false_iff. apply Qle_bool_iff.
Qed.

Lemma ge_true : Js.ge x y = true <-> y <= x.
Proof. apply Qle_bool_iff. Qed.

Lemma ge_false : Js.ge x y = false <-> x < y.
Proof.
  unfold Js.ge. rewrite <- not_true_iff_false, Qle_bool_iff.
  split; [apply Qnot_le_lt | apply Qlt_not_le].
Qed.

End Comparisons.

Lemma gt_true (x y : Q) : Js.gt x y = true <-> y < x.
Proof. apply lt_true. Qed.

Lemma gt_false (x y : Q) : Js.gt x y = false <-> x <= y.
Proof. apply lt_false. Qed.

(** Decide a comparison of the code, leaving its meaning as a hypothesis. *)
Ltac by_cases_on b :=
  let E := fresh "E" in
  destruct b eqn:E;
  [ first [ apply lt_true in E | apply ge_true in E ]
  | first [ apply lt_false in E | apply ge_false in E ] ].

(** ** [clamp] *)

Lemma clamp_in_range (x lo hi : Q) :
  lo <= x <= hi -> Utils.clamp x lo hi = x.
Proof.
  intros [Hlo Hhi]. unfold Utils.clamp, Js.gt.
  by_cases_on (Js.lt x lo); [lra|].
  by_cases_on (Js.lt hi x); [lra|reflexivity].
Qed.

Lemma clamp_bounds (x lo hi : Q) :
  lo <= hi -> lo <= Utils.clamp x lo hi <= hi.
Proof.
  intros H. unfold Utils.clamp, Js.gt.
  by_cases_on (Js.lt x lo); [lra|].
  by_cases_on (Js.lt hi x); lra.
Qed.

(** ** [computeEdge] *)

(** C1, as the code has it.  [computeEdge] returns the all-null object
    exactly when [marketYes] or [marketNo] is null.  Otherwise the returned
    [marketUp] and [marketDown] are the quotes clamped to [0,1], while the
    edges are taken from the quotes before clamping:
    [edgeUp = modelUp - marketYes] and [edgeDown = modelDown - marketNo].
    For a quote within [0,1] the clamp changes nothing, so there
    [edgeUp = modelUp - marketUp] and [edgeDown = modelDown - marketDown]
    for the returned market values. *)
Theorem computeEdge_contract (modelUp modelDown : Q) (marketYes marketNo : option Q) :
  let e := computeEdge modelUp modelDown marketYes marketNo in
  (e = allNull <-> marketYes = None \/ marketNo = None) /\
  (forall yes no, marketYes = Some yes -> marketNo = Some no ->
     Edge.marketUp e = Some (Utils.clamp yes 0 1) /\
     Edge.marketDown e = Some (Utils.clamp no 0 1) /\
     0 <= Utils.clamp yes 0 1 <= 1 /\
     0 <= Utils.clamp no 0 1 <= 1 /\
     Edge.edgeUp e = Some (modelUp - yes) /\
     Edge.edgeDown e = Some (modelDown - no) /\
     (0 <= yes <= 1 ->
        exists mUp, Edge.marketUp e = Some mUp /\ mUp = yes /\
                    Edge.edgeUp e = Some (modelUp - mUp)) /\
     (0 <= no <= 1 ->
        exists mDown, Edge.marketDown e = Some mDown /\ mDown = no /\
                      Edge.edgeDown e = Some (modelDown - mDown))).
Proof.
  intros e. subst e. split.
  - destruct marketYes as [yes|], marketNo as [no|]; simpl; split;
      try discriminate; try (intros [H|H]; discriminate);
      try reflexivity; auto.
  - intros yes no -> ->. simpl.
    repeat split; try (apply clamp_bounds; lra).
    + intros H. exists yes. now rewrite clamp_in_range.
    + intros H. exists no. now rewrite clamp_in_range.
Qed.

Lemma computeEdge_contract_witness :
  let e := computeEdge 0.68 0.32 (Some 0.5) (Some 0.47) in
  Edge.marketUp e = Some 0.5 /\ Edge.edgeUp e = Some (0.68 - 0.5) /\
  Edge.marketDown e = Some 0.47 /\ Edge.edgeDown e = Some (0.32 - 0.47).
Proof.
  intros e.
  destruct (computeEdge_contract 0.68 0.32 (Some 0.5) (Some 0.47)) as [_ H].
  destruct (H 0.5 0.47 eq_refl eq_refl)
    as (_ & _ & _ & _ & _ & _ & HUp & HDown).
  destruct HUp as (mUp & H1 & -> & H2); [split; discriminate|].
  destruct HDown as (mDown & H3 & -> & H4); [split; discriminate|].
  repeat split; assumption.
Defined.

(** C1 as stated fails for a quote outside [0,1]: with [marketYes = 2] and
    [modelUp = 0.5] the returned [marketUp] is 1 and the returned [edgeUp]
    is [0.5 - 2], which is not [modelUp - marketUp]. *)
Lemma computeEdge_edge_uses_unclamped_quote :
  let e := computeEdge 0.5 0.5 (Some 2) (Some 0.5) in
  ~ (exists mUp eUp, Edge.marketUp e = Some mUp /\ Edge.edgeUp e = Some eUp /\
                     eUp == 0.5 - mUp).
Proof.
  intros e (mUp & eUp & H1 & H2 & H3).
  vm_compute in H1, H2.
  injection H1 as <-. injection H2 as <-.
  vm_compute in H3. discriminate.
Qed.

(** ** [decide] *)

Lemma phaseOf_EARLY (r : Q) : phaseOf r = EARLY <-> 40 < r.
Proof.
  unfold phaseOf, Js.gt.
  by_cases_on (Js.lt 40 r); [tauto|].
  by_cases_on (Js.lt 20 r); split; try discriminate; lra.
Qed.

Lemma phaseOf_MID (r : Q) : phaseOf r = MID <-> 20 < r /\ r <= 40.
Proof.
  unfold phaseOf, Js.gt.
  by_cases_on (Js.lt 40 r); [split; [discriminate | lra]|].
  by_cases_on (Js.lt 20 r); split; try discriminate; try tauto; lra.
Qed.

Lemma phaseOf_LATE (r : Q) : phaseOf r = LATE <-> r <= 20.
Proof.
  unfold phaseOf, Js.gt.
  by_cases_on (Js.lt 40 r); [split; [discriminate | lra]|].
  by_cases_on (Js.lt 20 r); split; try discriminate; try tauto; lra.
Qed.

Lemma phase_of_decide (r : Q) (eu ed mu md : option Q) :
  Decision.phase (decide r eu ed mu md) = phaseOf r.
Proof.
  unfold decide.
  destruct eu as [eu|], ed as [ed|]; try reflexivity.
  destruct (Js.lt _ _); [reflexivity|].
  destruct (match pick _ mu md with Some m => _ | None => _ end); reflexivity.
Qed.

(** The thresholds only rise as the phase tightens. *)
Lemma thresholdOf_le_LATE (p : Phase) : thresholdOf p <= thresholdOf LATE.
Proof. destruct p; simpl; lra. Qed.

Lemma minProbOf_le_LATE (p : Phase) : minProbOf p <= minProbOf LATE.
Proof. destruct p; simpl; lra. Qed.

(** What an ENTER says about the inputs of [decide]. *)
Lemma decide_ENTER_inv (r : Q) (eu ed mu md : option Q) :
  Decision.action (decide r eu ed mu md) = ENTER ->
  exists eUp eDown,
    eu = Some eUp /\ ed = Some eDown /\
    let bestSide := bestSideOf eUp eDown in
    thresholdOf (phaseOf r) <= pick bestSide eUp eDown /\
    (forall m, pick bestSide mu md = Some m -> minProbOf (phaseOf r) <= m) /\
    decide r eu ed mu md =
      {| Decision.action := ENTER; Decision.side := Some bestSide;
         Decision.phase := phaseOf r; Decision.reason := None;
         Decision.strength := Some (strengthOf (pick bestSide eUp eDown));
         Decision.edge := Some (pick bestSide eUp eDown);
         Decision.edgeUp := Some eUp; Decision.edgeDown := Some eDown |}.
Proof.
  unfold decide.
  destruct eu as [eUp|], ed as [eDown|]; try discriminate.
  by_cases_on (Js.lt (pick (bestSideOf eUp eDown) eUp eDown)
                     (thresholdOf (phaseOf r))); [discriminate|].
  destruct (pick (bestSideOf eUp eDown) mu md) as [m|] eqn:Em.
  - by_cases_on (Js.lt m (minProbOf (phaseOf r))); [discriminate|].
    intros _. exists eUp, eDown. cbv zeta. rewrite Em.
    repeat split; try assumption.
    intros m' [= <-]. assumption.
  - intros _. exists eUp, eDown. cbv zeta. rewrite Em.
    repeat split; try assumption.
    discriminate.
Qed.

(** The converse: an edge at the threshold and a model probability that is
    unknown or at the floor give an ENTER. *)
Lemma decide_ENTER_intro (r eUp eDown : Q) (mu md : option Q) :
  let bestSide := bestSideOf eUp eDown in
  thresholdOf (phaseOf r) <= pick bestSide eUp eDown ->
  (forall m, pick bestSide mu md = Some m -> minProbOf (phaseOf r) <= m) ->
  decide r (Some eUp) (Some eDown) mu md =
    {| Decision.action := ENTER; Decision.side := Some bestSide;
       Decision.phase := phaseOf r; Decision.reason := None;
       Decision.strength := Some (strengthOf (pick bestSide eUp eDown));
       Decision.edge := Some (pick bestSide eUp eDown);
       Decision.edgeUp := Some eUp; Decision.edgeDown := Some eDown |}.
Proof.
  intros bestSide Hedge Hprob. unfold decide. fold bestSide.
  apply lt_false in Hedge. rewrite Hedge.
  destruct (pick bestSide mu md) as [m|]; [|reflexivity].
  specialize (Hprob m eq_refl). apply lt_false in Hprob.
  now rewrite Hprob.
Qed.

(** C2.  With both edges known, the best side is UP when [edgeUp > edgeDown]
    and DOWN otherwise, ties included.  The thresholds are 0.05, 0.10, 0.20
    and the floors 0.55, 0.60, 0.65 for EARLY, MID, LATE.  A best edge below
    the threshold of the phase gives NO_TRADE with the reason
    [edge_below_<threshold>]; otherwise a known best model probability below
    the floor of the phase gives NO_TRADE with the reason
    [prob_below_<floor>]; otherwise the action is ENTER on the best side. *)
Theorem decide_gate (remainingMinutes eUp eDown : Q) (modelUp modelDown : option Q) :
  let d := decide remainingMinutes (Some eUp) (Some eDown) modelUp modelDown in
  let phase := phaseOf remainingMinutes in
  let bestSide := bestSideOf eUp eDown in
  let bestEdge := pick bestSide eUp eDown in
  let bestModel := pick bestSide modelUp modelDown in
  (eDown < eUp -> bestSide = UP) /\
  (eUp <= eDown -> bestSide = DOWN) /\
  (thresholdOf EARLY = 0.05 /\ thresholdOf MID = 0.1 /\ thresholdOf LATE = 0.2) /\
  (minProbOf EARLY = 0.55 /\ minProbOf MID = 0.6 /\ minProbOf LATE = 0.65) /\
  (bestEdge < thresholdOf phase ->
     Decision.action d = NO_TRADE /\
     Decision.reason d = Some (edgeReason phase)) /\
  (thresholdOf phase <= bestEdge ->
   forall m, bestModel = Some m -> m < minProbOf phase ->
     Decision.action d = NO_TRADE /\
     Decision.reason d = Some (probReason phase)) /\
  (thresholdOf phase <= bestEdge ->
   bestModel = None \/ (exists m, bestModel = Some m /\ minProbOf phase <= m) ->
     Decision.action d = ENTER /\ Decision.side d = Some bestSide).
Proof.
  intros d phase bestSide bestEdge bestModel.
  repeat match goal with |- _ /\ _ => split end; try reflexivity.
  - intros H. subst bestSide. unfold bestSideOf.
    apply gt_true in H. now rewrite H.
  - intros H. subst bestSide. unfold bestSideOf.
    apply gt_false in H. now rewrite H.
  - intros H. apply lt_true in H. subst d. unfold decide.
    fold phase bestSide bestEdge. rewrite H. simpl.
    split; [reflexivity|]. now destruct phase.
  - intros H m Hm Hlow. apply lt_false in H. apply lt_true in Hlow.
    subst d. unfold decide. fold phase bestSide bestEdge bestModel.
    rewrite H, Hm, Hlow. simpl.
    split; [reflexivity|]. now destruct phase.
  - intros H Hmodel. subst d.
    rewrite decide_ENTER_intro; [split; reflexivity | exact H |].
    fold bestSide bestModel phase. intros m Hm.
    destruct Hmodel as [Hnone | (m' & Hsome & Hfloor)]; [congruence|].
    congruence.
Qed.

Lemma decide_gate_witness :
  (let d := decide 10 (Some 0.18) (Some 0.02) (Some 0.62) None in
   Decision.action d = NO_TRADE /\ Decision.reason d = Some "edge_below_0.2"%string) /\
  (let d := decide 30 (Some 0.18) (Some 0.02) (Some 0.52) None in
   Decision.action d = NO_TRADE /\ Decision.reason d = Some "prob_below_0.6"%string) /\
  (let d := decide 45 (Some 0.02) (Some 0.07) None None in
   Decision.action d = ENTER /\ Decision.side d = Some DOWN).
Proof.
  split; [|split].
  - apply (decide_gate 10 0.18 0.02 (Some 0.62) None). reflexivity.
  - apply (decide_gate 30 0.18 0.02 (Some 0.52) None) with (m := 0.52);
      [discriminate | reflexivity | reflexivity].
  - apply (decide_gate 45 0.02 0.07 None None);
      [discriminate | left; reflexivity].
Defined.

(** C3.  The phase of a decision is EARLY exactly when
    [remainingMinutes > 40], MID exactly when [20 < remainingMinutes <= 40]
    and LATE exactly when [remainingMinutes <= 20]; at 40 it is MID and at
    20 it is LATE. *)
Theorem decide_phase (remainingMinutes : Q) (edgeUp edgeDown modelUp modelDown : option Q) :
  let phase :=
    Decision.phase (decide remainingMinutes edgeUp edgeDown modelUp modelDown) in
  (phase = EARLY <-> 40 < remainingMinutes) /\
  (phase = MID <-> 20 < remainingMinutes /\ remainingMinutes <= 40) /\
  (phase = LATE <-> remainingMinutes <= 20) /\
  (remainingMinutes == 40 -> phase = MID /\ phase <> EARLY) /\
  (remainingMinutes == 20 -> phase = LATE /\ phase <> MID).
Proof.
  intros phase. subst phase. rewrite phase_of_decide.
  pose proof (phaseOf_EARLY remainingMinutes) as HE.
  pose proof (phaseOf_MID remainingMinutes) as HM.
  pose proof (phaseOf_LATE remainingMinutes) as HL.
  repeat split; try tauto.
  - apply HM. lra.
  - intros Heq. apply HE in Heq. lra.
  - apply HL. lra.
  - intros Heq. apply HM in Heq. lra.
Qed.

Lemma decide_phase_witness :
  Decision.phase (decide 40 (Some 0.3) (Some 0.1) (Some 0.7) (Some 0.3)) = MID /\
  Decision.phase (decide 20 None None None None) = LATE /\
  Decision.phase (decide 40.5 None (Some 0.1) None None) = EARLY.
Proof.
  split; [|split].
  - apply (decide_phase 40 (Some 0.3) (Some 0.1) (Some 0.7) (Some 0.3)).
    reflexivity.
  - apply (decide_phase 20 None None None None). reflexivity.
  - apply (decide_phase 40.5 None (Some 0.1) None None). reflexivity.
Defined.

(** C4.  When [edgeUp] or [edgeDown] is null, [decide] returns the decision
    with action NO_TRADE, side null, the phase of [remainingMinutes] and
    the reason [missing_market_data]; [decide] is a total function, it
    returns a decision on every input. *)
Theorem decide_missing_market_data
    (remainingMinutes : Q) (edgeUp edgeDown modelUp modelDown : option Q) :
  edgeUp = None \/ edgeDown = None ->
  decide remainingMinutes edgeUp edgeDown modelUp modelDown =
    {| Decision.action := NO_TRADE; Decision.side := None;
       Decision.phase := phaseOf remainingMinutes;
       Decision.reason := Some "missing_market_data"%string;
       Decision.strength := None; Decision.edge := None;
       Decision.edgeUp := None; Decision.edgeDown := None |}.
Proof.
  unfold decide. intros [-> | ->]; [reflexivity|].
  now destruct edgeUp.
Qed.

Lemma decide_missing_market_data_witness :
  decide 12 (Some 0.4) None (Some 0.9) (Some 0.1) =
    {| Decision.action := NO_TRADE; Decision.side := None;
       Decision.phase := LATE;
       Decision.reason := Some "missing_market_data"%string;
       Decision.strength := None; Decision.edge := None;
       Decision.edgeUp := None; Decision.edgeDown := None |}.
Proof.
  apply (decide_missing_market_data 12 (Some 0.4) None (Some 0.9) (Some 0.1)).
  right. reflexivity.
Defined.

(** C5.  An ENTER decision comes from two known edges.  Its side is the
    best side, UP when [edgeUp > edgeDown] and DOWN otherwise, and its
    strength is STRONG when the edge of that side is at least 0.20, GOOD
    when it is below 0.20 and at least 0.10, OPTIONAL below 0.10. *)
Theorem decide_ENTER_strength
    (remainingMinutes : Q) (edgeUp edgeDown modelUp modelDown : option Q) :
  let d := decide remainingMinutes edgeUp edgeDown modelUp modelDown in
  Decision.action d = ENTER ->
  exists eUp eDown,
    edgeUp = Some eUp /\ edgeDown = Some eDown /\
    (eDown < eUp ->
       Decision.side d = Some UP /\ strengthFor eUp (Decision.strength d)) /\
    (eUp <= eDown ->
       Decision.side d = Some DOWN /\ strengthFor eDown (Decision.strength d)).
Proof.
  intros d H. subst d.
  destruct (decide_ENTER_inv _ _ _ _ _ H) as (eUp & eDown & -> & -> & Hd).
  cbv zeta in Hd. destruct Hd as (_ & _ & ->).
  exists eUp, eDown. split; [reflexivity|]. split; [reflexivity|].
  assert (Hstrength : forall e, strengthFor e (Some (strengthOf e))).
  { intros e. unfold strengthFor, strengthOf. repeat split.
    - intros Hs. apply ge_true in Hs. now rewrite Hs.
    - intros Hs Hg. apply ge_false in Hs. apply ge_true in Hg.
      now rewrite Hs, Hg.
    - intros Ho. assert (Hs : e < 0.2) by lra.
      apply ge_false in Hs. apply ge_false in Ho. now rewrite Hs, Ho. }
  cbn [Decision.side Decision.strength]. unfold bestSideOf. split.
  - intros Hup. apply gt_true in Hup. rewrite Hup. simpl.
    split; [reflexivity | apply Hstrength].
  - intros Hdown. apply gt_false in Hdown. rewrite Hdown. simpl.
    split; [reflexivity | apply Hstrength].
Qed.

Lemma decide_ENTER_strength_witness :
  (let d := decide 30 (Some 0.12) (Some 0.15) (Some 0.3) (Some 0.7) in
   Decision.side d = Some DOWN /\ Decision.strength d = Some GOOD) /\
  (let d := decide 30 (Some 0.25) (Some 0.15) (Some 0.7) (Some 0.3) in
   Decision.side d = Some UP /\ Decision.strength d = Some STRONG) /\
  (let d := decide 50 (Some 0.07) (Some 0.07) (Some 0.3) (Some 0.7) in
   Decision.side d = Some DOWN /\ Decision.strength d = Some OPTIONAL).
Proof.
  split; [|split]; intros d.
  - destruct (decide_ENTER_strength 30 (Some 0.12) (Some 0.15) (Some 0.3)
                (Some 0.7) eq_refl)
      as (eUp & eDown & [= <-] & [= <-] & _ & Hdown).
    destruct Hdown as (Hside & _ & Hgood & _); [discriminate|].
    split; [exact Hside | apply Hgood; [reflexivity | discriminate]].
  - destruct (decide_ENTER_strength 30 (Some 0.25) (Some 0.15) (Some 0.7)
                (Some 0.3) eq_refl)
      as (eUp & eDown & [= <-] & [= <-] & Hup & _).
    destruct Hup as (Hside & Hstrong & _ & _); [reflexivity|].
    split; [exact Hside | apply Hstrong; discriminate].
  - destruct (decide_ENTER_strength 50 (Some 0.07) (Some 0.07) (Some 0.3)
                (Some 0.7) eq_refl)
      as (eUp & eDown & [= <-] & [= <-] & _ & Hdown).
    destruct Hdown as (Hside & _ & _ & Hopt); [discriminate|].
    split; [exact Hside | apply Hopt; reflexivity].
Defined.

(** C6, as the code has it.  With 45 minutes remaining, edges 0.18 and
    -0.15 and model probabilities 0.68 and 0.32, the decision has phase
    EARLY, action ENTER and side UP, and its strength is GOOD: the best
    edge 0.18 is at least 0.10 and below 0.20. *)
Theorem decide_scenario_early :
  let d := decide 45 (Some 0.18) (Some (-0.15)) (Some 0.68) (Some 0.32) in
  Decision.phase d = EARLY /\ Decision.action d = ENTER /\
  Decision.side d = Some UP /\ Decision.strength d = Some GOOD /\
  Decision.edge d = Some 0.18.
Proof. vm_compute. repeat split. Qed.

(** C6 as stated fails: the strength of that decision is not STRONG. *)
Lemma scenario_early_is_not_STRONG :
  let d := decide 45 (Some 0.18) (Some (-0.15)) (Some 0.68) (Some 0.32) in
  ~ (Decision.phase d = EARLY /\ Decision.action d = ENTER /\
     Decision.side d = Some UP /\ Decision.strength d = Some STRONG).
Proof.
  intros d (_ & _ & _ & H). vm_compute in H. discriminate.
Qed.

(** Two more scenarios of section 8: ten minutes before the close an edge
    of 0.18 misses the LATE threshold, and a missing quote gives the
    all-null edge whatever the model says. *)
Example decide_scenario_late :
  let d := decide 10 (Some 0.18) (Some 0.02) (Some 0.62) None in
  Decision.phase d = LATE /\ Decision.action d = NO_TRADE /\
  Decision.side d = None /\ Decision.reason d = Some "edge_below_0.2"%string.
Proof. vm_compute. repeat split. Qed.

Example computeEdge_scenario_null :
  computeEdge 0.7 0.3 None (Some 0.4) = allNull.
Proof. reflexivity. Qed.

(** C7.  The gate is monotonic in the phase: when the decision is ENTER for
    some [remainingMinutes] of the LATE range, it is ENTER, with the same
    edges and model probabilities, for every [remainingMinutes] of the
    EARLY range and of the MID range. *)
Theorem decide_monotonic_in_phase
    (eUp eDown : Q) (modelUp modelDown : option Q) (late : Q) :
  late <= 20 ->
  Decision.action (decide late (Some eUp) (Some eDown) modelUp modelDown) = ENTER ->
  (forall early, 40 < early ->
     Decision.action (decide early (Some eUp) (Some eDown) modelUp modelDown) = ENTER) /\
  (forall mid, 20 < mid -> mid <= 40 ->
     Decision.action (decide mid (Some eUp) (Some eDown) modelUp modelDown) = ENTER).
Proof.
  intros Hlate H.
  destruct (decide_ENTER_inv _ _ _ _ _ H)
    as (eUp' & eDown' & [= <-] & [= <-] & Hedge & Hprob & _).
  apply phaseOf_LATE in Hlate. rewrite Hlate in Hedge, Hprob.
  assert (Hany : forall r,
    Decision.action (decide r (Some eUp) (Some eDown) modelUp modelDown) = ENTER).
  { intros r. rewrite decide_ENTER_intro; [reflexivity | |].
    - pose proof (thresholdOf_le_LATE (phaseOf r)). lra.
    - intros m Hm. specialize (Hprob m Hm).
      pose proof (minProbOf_le_LATE (phaseOf r)). lra. }
  split; intros; apply Hany.
Qed.

Lemma decide_monotonic_in_phase_witness :
  Decision.action (decide 55 (Some 0.25) (Some 0.01) (Some 0.7) (Some 0.3)) = ENTER /\
  Decision.action (decide 33 (Some 0.25) (Some 0.01) (Some 0.7) (Some 0.3)) = ENTER.
Proof.
  destruct (decide_monotonic_in_phase 0.25 0.01 (Some 0.7) (Some 0.3) 15)
    as [Hearly Hmid]; [discriminate | reflexivity |].
  split; [apply Hearly; reflexivity | apply Hmid; [reflexivity | discriminate]].
Defined.

(** ** [summarizeOrderBook] *)

Import Kalshi.

Lemma fold_sizes (levels : list Level) (acc : Q) :
  fold_left
    (fun a x => a + match toNumber (size x) with Some v => v | None => 0 end)
    levels acc
  == acc + sumOfSizes levels.
Proof.
  revert acc. induction levels as [|x rest IH]; intros acc; simpl.
  - lra.
  - rewrite IH. lra.
Qed.

Lemma liquidity_is_sum (bids : list Level) (depthLevels : nat) :
  liquidity bids depthLevels == sumOfSizes (firstn depthLevels bids).
Proof. unfold liquidity. rewrite fold_sizes. lra. Qed.

Lemma liquidity_totalSize (bids : list Level) (depthLevels : nat) :
  liquidity bids depthLevels = totalSize (firstn depthLevels bids).
Proof.
  unfold liquidity, totalSize.
  assert (H : forall levels acc,
             fold_left
               (fun acc x =>
                  acc + match toNumber (size x) with Some v => v | None => 0 end)
               levels acc
             = fold_left (fun total x => total + sizeOrZero x) levels acc).
  { induction levels as [|x rest IH]; intros acc; simpl; [reflexivity|].
    rewrite IH. unfold sizeOrZero, toNumber, Js.finiteOrNull.
    now destruct (size x). }
  apply H.
Qed.

(** C8.  On the yes side and on the no side of the summary, [askLiquidity]
    equals [bidLiquidity], and both are the sum of the sizes of the first
    [depthLevels] entries of the [yes], respectively [no], array of the
    book, a size that is not a number counting as 0; for a book or an array
    that is missing the sum is 0. *)
Theorem summarizeOrderBook_liquidity (book : option Book) (depthLevels : nat) :
  let s := summarizeOrderBook book depthLevels in
  Side.askLiquidity (Summary.yes s) = Side.bidLiquidity (Summary.yes s) /\
  Side.askLiquidity (Summary.no s) = Side.bidLiquidity (Summary.no s) /\
  (forall b levels, book = Some b -> yes b = Some levels ->
     Side.bidLiquidity (Summary.yes s) = totalSize (firstn depthLevels levels)) /\
  (forall b levels, book = Some b -> no b = Some levels ->
     Side.bidLiquidity (Summary.no s) = totalSize (firstn depthLevels levels)) /\
  (book = None \/ (exists b, book = Some b /\ yes b = None) ->
     Side.bidLiquidity (Summary.yes s) = 0) /\
  (book = None \/ (exists b, book = Some b /\ no b = None) ->
     Side.bidLiquidity (Summary.no s) = 0).
Proof.
  cbn [summarizeOrderBook Summary.yes Summary.no Side.bidLiquidity
       Side.askLiquidity].
  split; [reflexivity|]. split; [reflexivity|].
  split; [|split; [|split]].
  - intros b levels -> H. unfold bidsOf. rewrite H.
    apply liquidity_totalSize.
  - intros b levels -> H. unfold bidsOf. rewrite H.
    apply liquidity_totalSize.
  - intros [-> | (b & -> & H)]; unfold bidsOf; rewrite ?H;
      rewrite liquidity_totalSize, firstn_nil; reflexivity.
  - intros [-> | (b & -> & H)]; unfold bidsOf; rewrite ?H;
      rewrite liquidity_totalSize, firstn_nil; reflexivity.
Qed.

(** At depth 5, a book with six yes levels, the second of them with a size
    that is not a number, has a yes liquidity of 10 + 0 + 5 + 1 + 1 under
    both keys, and its one no level gives 7. *)
Lemma summarizeOrderBook_liquidity_witness :
  let lvl p s := mkLevel (Js.Fin p) s in
  let yesLevels := [lvl 40 (Js.Fin 10); lvl 39 Js.NaN; lvl 38 (Js.Fin 5);
                    lvl 37 (Js.Fin 1); lvl 36 (Js.Fin 1); lvl 35 (Js.Fin 100)] in
  let noLevels := [lvl 58 (Js.Fin 7)] in
  let s := summarizeOrderBook (Some (mkBook (Some yesLevels) (Some noLevels))) 5 in
  Side.bidLiquidity (Summary.yes s) = 17 /\
  Side.askLiquidity (Summary.yes s) = 17 /\
  Side.bidLiquidity (Summary.no s) = 7.
Proof.
  intros lvl yesLevels noLevels s.
  destruct (summarizeOrderBook_liquidity
              (Some (mkBook (Some yesLevels) (Some noLevels))) 5)
    as (Hask & _ & Hyes & Hno & _ & _).
  fold s in Hask, Hyes, Hno.
  pose proof (Hyes _ yesLevels eq_refl eq_refl) as Hy.
  pose proof (Hno _ noLevels eq_refl eq_refl) as Hn.
  split; [|split].
  - exact (eq_trans Hy eq_refl).
  - exact (eq_trans Hask (eq_trans Hy eq_refl)).
  - exact (eq_trans Hn eq_refl).
Defined.

(** A book with six yes levels, one of them with a size that is not a
    number, and one no level: at depth 5 the yes liquidity is 10 + 0 + 5 +
    1 + 1 on both keys. *)
Example summarizeOrderBook_example :
  let lvl p s := mkLevel (Js.Fin p) s in
  let book := Some (mkBook
    (Some [lvl 40 (Js.Fin 10); lvl 39 Js.NaN; lvl 38 (Js.Fin 5);
           lvl 37 (Js.Fin 1); lvl 36 (Js.Fin 1); lvl 35 (Js.Fin 100)])
    (Some [lvl 58 (Js.Fin 7)])) in
  let s := summarizeOrderBook book 5 in
  Side.bidLiquidity (Summary.yes s) == 17 /\
  Side.askLiquidity (Summary.yes s) == 17 /\
  Side.bestBid (Summary.yes s) = Some 40 /\
  Side.bestAsk (Summary.yes s) = Some 39 /\
  Side.askLiquidity (Summary.no s) == 7 /\
  Side.bestAsk (Summary.no s) = None.
Proof. vm_compute. repeat split. Qed.

(** ** [countVwapCrosses] *)

Import IndexKalshi.

Section Crosses.

Variables closes vwapSeries : list Js.value.

(** One round of the loop adds at most one cross and reads the indices
    [i - 1] and [i] of both arrays. *)
Lemma body_spec (crosses i : Z) :
  (crosses <= fst (body closes vwapSeries crosses i) <= crosses + 1)%Z /\
  snd (body closes vwapSeries crosses i) =
    [(Closes, i - 1); (VwapSeries, i - 1); (Closes, i); (VwapSeries, i)]%Z.
Proof.
  unfold body, bind, read, ret.
  destruct (Js.isZero _); [simpl; split; [lia | reflexivity]|].
  destruct (_ || _); simpl; split; try lia; reflexivity.
Qed.

Lemma loop_spec (n : nat) :
  forall i crosses : Z,
    (crosses <= fst (loop closes vwapSeries n i crosses)
             <= crosses + Z.of_nat n)%Z /\
    Forall (fun a : Access => (i - 1 <= snd a < i + Z.of_nat n)%Z)
           (snd (loop closes vwapSeries n i crosses)).
Proof.
  induction n as [|n IH]; intros i crosses.
  - simpl. split; [lia | constructor].
  - cbn [loop]. unfold bind.
    destruct (body_spec crosses i) as [Hc Ht].
    destruct (body closes vwapSeries crosses i) as [c t]. simpl in Hc, Ht.
    destruct (IH (i + 1)%Z c) as [Hc' Ht'].
    destruct (loop closes vwapSeries n (i + 1) c) as [c' t']. simpl in *.
    split; [lia|].
    apply Forall_app. split.
    + subst t. repeat constructor; simpl; lia.
    + eapply Forall_impl; [|exact Ht']. simpl. intros a Ha. lia.
Qed.

(** The guard of the first line. *)
Lemma countVwapCrosses_short (lookback : Z) :
  (Js.length closes < lookback \/ Js.length vwapSeries < lookback)%Z ->
  countVwapCrossesTraced closes vwapSeries lookback = (None, []).
Proof.
  intros H. unfold countVwapCrossesTraced.
  destruct (_ || _) eqn:E; [reflexivity|].
  apply orb_false_iff in E. lia.
Qed.

(** Past the guard, the result is a count and the reads lie between
    [closes.length - lookback] and [closes.length - 1]. *)
Lemma countVwapCrosses_long (lookback : Z) :
  (1 <= lookback)%Z ->
  (lookback <= Js.length closes)%Z -> (lookback <= Js.length vwapSeries)%Z ->
  (exists c, countVwapCrosses closes vwapSeries lookback = Some c /\
             (0 <= c <= lookback - 1)%Z) /\
  Forall (fun a : Access =>
            (Js.length closes - lookback <= snd a < Js.length closes)%Z)
         (readsOf closes vwapSeries lookback).
Proof.
  intros H1 Hc Hv. unfold countVwapCrosses, readsOf, countVwapCrossesTraced.
  destruct (_ || _) eqn:E; [apply orb_true_iff in E; lia|].
  unfold bind, ret.
  set (start := (Js.length closes - lookback + 1)%Z).
  set (n := Z.to_nat (Js.length closes - start)).
  destruct (loop_spec n start 0) as [Hcount Hreads].
  destruct (loop closes vwapSeries n start 0) as [c t]. simpl in *.
  assert (Hn : Z.of_nat n = (lookback - 1)%Z) by (subst n start; lia).
  split.
  - exists c. split; [reflexivity | lia].
  - rewrite app_nil_r.
    eapply Forall_impl; [|exact Hreads]. simpl. intros a Ha.
    subst start. lia.
Qed.

End Crosses.

(** C9, as the code has it.  [countVwapCrosses] returns null whenever
    [closes] or [vwapSeries] has fewer than [lookback] elements.  Otherwise,
    for [lookback >= 1], it returns an integer between 0 and [lookback - 1],
    every index it reads in [closes] is within bounds, and every index it
    reads in [vwapSeries] is within bounds when [vwapSeries] is at least as
    long as [closes]: the indices run over the last [lookback] positions of
    [closes]. *)
Theorem countVwapCrosses_safe (closes vwapSeries : list Js.value) (lookback : Z) :
  ((Js.length closes < lookback \/ Js.length vwapSeries < lookback)%Z ->
     countVwapCrosses closes vwapSeries lookback = None) /\
  ((1 <= lookback)%Z ->
   (lookback <= Js.length closes)%Z -> (lookback <= Js.length vwapSeries)%Z ->
     (exists c, countVwapCrosses closes vwapSeries lookback = Some c /\
                (0 <= c <= lookback - 1)%Z) /\
     Forall (fun a : Access => fst a = Closes -> inBounds closes vwapSeries a)
            (readsOf closes vwapSeries lookback) /\
     ((Js.length closes <= Js.length vwapSeries)%Z ->
        Forall (inBounds closes vwapSeries)
               (readsOf closes vwapSeries lookback))).
Proof.
  split.
  - intros H. unfold countVwapCrosses.
    now rewrite countVwapCrosses_short.
  - intros H1 Hc Hv.
    destruct (countVwapCrosses_long closes vwapSeries lookback H1 Hc Hv)
      as [Hcount Hreads].
    split; [exact Hcount|]. split.
    + eapply Forall_impl; [|exact Hreads].
      intros [which i]. simpl. intros Hi ->. lia.
    + intros Hlen. eapply Forall_impl; [|exact Hreads].
      intros [[|] i]; simpl; lia.
Qed.

Lemma countVwapCrosses_safe_witness :
  let num z := Js.Number (Js.Fin (inject_Z z)) in
  let closes := [num 1; num 3; num 1; num 4]%Z in
  let vwapSeries := [num 2; num 2; num 2; num 2]%Z in
  countVwapCrosses closes vwapSeries 5 = None /\
  (exists c, countVwapCrosses closes vwapSeries 4 = Some c /\ (0 <= c <= 4 - 1)%Z) /\
  Forall (inBounds closes vwapSeries) (readsOf closes vwapSeries 4).
Proof.
  intros num closes vwapSeries. split.
  - apply (countVwapCrosses_safe closes vwapSeries 5). left. reflexivity.
  - destruct (countVwapCrosses_safe closes vwapSeries 4) as [_ H].
    destruct H as (Hcount & _ & Hreads); try discriminate.
    split; [exact Hcount | apply Hreads; discriminate].
Defined.

(** C9 as stated fails when [vwapSeries] is shorter than [closes]: with four
    closes, two VWAP values and [lookback = 2] the guard lets the call
    through, the loop runs at index 3 and reads [vwapSeries[2]] and
    [vwapSeries[3]], which do not exist; the call returns 0. *)
Lemma countVwapCrosses_reads_past_vwapSeries :
  let num z := Js.Number (Js.Fin (inject_Z z)) in
  let closes := [num 1; num 2; num 3; num 4]%Z in
  let vwapSeries := [num 1; num 1]%Z in
  (2 <= Js.length closes)%Z /\ (2 <= Js.length vwapSeries)%Z /\
  countVwapCrosses closes vwapSeries 2 = Some 0%Z /\
  In (VwapSeries, 2%Z) (readsOf closes vwapSeries 2) /\
  ~ Forall (inBounds closes vwapSeries) (readsOf closes vwapSeries 2).
Proof.
  intros num closes vwapSeries.
  split; [discriminate|]. split; [discriminate|].
  split; [reflexivity|]. split; [vm_compute; tauto|].
  intros H. rewrite Forall_forall in H.
  specialize (H (VwapSeries, 2%Z)).
  assert (Hin : In (VwapSeries, 2%Z) (readsOf closes vwapSeries 2))
    by (vm_compute; tauto).
  apply H in Hin. vm_compute in Hin. destruct Hin as [_ Hin].
  discriminate.
Qed.

(** ** The candle transform of [fetchKlines] *)

Import Coinbase.

(** Whatever the interval, the granularity is one Coinbase supports. *)
Lemma granularityOf_valid (interval : string) :
  In (granularityOf interval) validGranularities.
Proof.
  unfold granularityOf.
  set (g := match granularityMap interval with
            | Some g => if (g =? 0)%Z then 60%Z else g
            | None => 60%Z
            end).
  destruct (includes validGranularities g) eqn:E; [|simpl; auto].
  unfold includes in E. apply existsb_exists in E.
  destruct E as (v & Hin & Heq). apply Z.eqb_eq in Heq. now subst v.
Qed.

Lemma granularityOf_pos (interval : string) : (0 < granularityOf interval)%Z.
Proof.
  pose proof (granularityOf_valid interval) as H. simpl in H.
  repeat (destruct H as [<- | H]; [reflexivity|]). contradiction.
Qed.

Section Order.

Variable A : Type.
Variable R : A -> A -> Prop.

Lemma StronglySorted_snoc (l : list A) (x : A) :
  StronglySorted R l -> Forall (fun y => R y x) l ->
  StronglySorted R (l ++ [x]).
Proof.
  induction 1 as [|y l Hl IH Hy]; intros Hx; simpl.
  - repeat constructor.
  - inversion Hx as [|? ? Hyx Hlx]; subst. constructor.
    + now apply IH.
    + apply Forall_app. split; [assumption | now constructor].
Qed.

(** Reversing a list sorted for [R] sorts it for the converse of [R]. *)
Lemma StronglySorted_rev (l : list A) :
  StronglySorted (fun a b => R b a) l -> StronglySorted R (rev l).
Proof.
  induction 1 as [|x l Hl IH Hx]; simpl.
  - constructor.
  - apply StronglySorted_snoc; [assumption|].
    apply Forall_rev. exact Hx.
Qed.

End Order.

Lemma newerFirst_trans : Relations_1.Transitive newerFirst.
Proof. intros a b c. unfold newerFirst. lia. Qed.

Lemma toCandle_sorted (g : Z) (data : list Row) :
  StronglySorted newerFirst data ->
  StronglySorted (fun a b => olderFirst b a) (map (toCandle g) data).
Proof.
  induction 1 as [|r data Hd IH Hr]; simpl; constructor.
  - exact IH.
  - apply Forall_map. eapply Forall_impl; [|exact Hr].
    intros r'. unfold newerFirst, olderFirst. simpl. lia.
Qed.

(** C10.  The transform maps a row with timestamp [t] to a candle with
    [openTime = t * 1000] and [closeTime = (t + granularity) * 1000], in the
    reverse of the order of the response.  The granularity is positive, so
    [closeTime > openTime] for every candle.  When the response is sorted
    newest first by timestamp, the returned series has non-decreasing
    [openTime]. *)
Theorem fetchKlines_candles (interval : string) (data : list Row) :
  let granularity := granularityOf interval in
  let candles := fetchKlines interval data in
  (0 < granularity)%Z /\
  map openTime candles = rev (map (fun r => timestamp r * 1000)%Z data) /\
  map closeTime candles =
    rev (map (fun r => (timestamp r + granularity) * 1000)%Z data) /\
  Forall (fun c => (closeTime c > openTime c)%Z) candles /\
  (Sorted newerFirst data -> StronglySorted olderFirst candles).
Proof.
  intros granularity candles. subst candles. unfold fetchKlines.
  fold granularity.
  pose proof (granularityOf_pos interval) as Hpos. fold granularity in Hpos.
  split; [exact Hpos|].
  rewrite !map_rev, !map_map. simpl.
  split; [reflexivity|]. split; [reflexivity|]. split.
  - apply Forall_rev. apply Forall_map. apply Forall_forall.
    intros r _. simpl. lia.
  - intros Hsorted. apply StronglySorted_rev. apply toCandle_sorted.
    apply Sorted_StronglySorted; [exact newerFirst_trans | exact Hsorted].
Qed.

Lemma fetchKlines_candles_witness :
  let row t := mkRow t (Js.Fin 1) (Js.Fin 3) (Js.Fin 2) (Js.Fin 2.5) (Js.Fin 10) in
  let data := [row 1700000600%Z; row 1700000300%Z; row 1700000000%Z] in
  map openTime (fetchKlines "5m" data)
    = [1700000000000; 1700000300000; 1700000600000]%Z /\
  map closeTime (fetchKlines "5m" data)
    = [1700000300000; 1700000600000; 1700000900000]%Z /\
  StronglySorted olderFirst (fetchKlines "5m" data).
Proof.
  intros row data.
  destruct (fetchKlines_candles "5m" data) as (_ & Hopen & Hclose & _ & Hsorted).
  split; [exact Hopen|]. split; [exact Hclose|].
  apply Hsorted.
  repeat constructor; unfold newerFirst; simpl; discriminate.
Defined.

(** * Further properties of the code *)

(** ** [decide]: the shape of a decision *)

(** X1.  The action of a decision tells which of its keys are set: an ENTER has a
    side, a strength and an edge and no reason; a NO_TRADE has a reason and
    neither side, strength nor edge. *)
Theorem decide_keys (remainingMinutes : Q) (edgeUp edgeDown modelUp modelDown : option Q) :
  let d := decide remainingMinutes edgeUp edgeDown modelUp modelDown in
  match Decision.action d with
  | ENTER =>
      Decision.side d <> None /\ Decision.strength d <> None /\
      Decision.edge d <> None /\ Decision.reason d = None
  | NO_TRADE =>
      Decision.side d = None /\ Decision.strength d = None /\
      Decision.edge d = None /\ Decision.reason d <> None
  end.
Proof.
  unfold decide.
  destruct edgeUp as [eUp|], edgeDown as [eDown|]; simpl;
    try (repeat split; discriminate).
  destruct (Js.lt _ _); simpl; [repeat split; discriminate|].
  destruct (match pick _ modelUp modelDown with Some m => _ | None => _ end);
    simpl; repeat split; discriminate.
Qed.

Lemma decide_NO_TRADE_edge (r : Q) (eu ed mu md : option Q) :
  Decision.action (decide r eu ed mu md) = NO_TRADE ->
  Decision.edge (decide r eu ed mu md) = None.
Proof.
  unfold decide.
  destruct eu as [eUp|], ed as [eDown|]; try reflexivity.
  destruct (Js.lt _ _); [reflexivity|].
  destruct (match pick _ mu md with Some m => _ | None => _ end);
    [reflexivity | discriminate].
Qed.

Lemma bestSideOf_max (eUp eDown : Q) :
  let e := pick (bestSideOf eUp eDown) eUp eDown in
  eUp <= e /\ eDown <= e /\ (e = eUp \/ e = eDown).
Proof.
  unfold bestSideOf, Js.gt.
  by_cases_on (Js.lt eDown eUp); simpl; repeat split; auto; lra.
Qed.

(** X2.  With both edges known, a decision repeats them under [edgeUp] and
    [edgeDown], and the [edge] of an ENTER is the larger of the two. *)
Theorem decide_edge_is_larger (remainingMinutes eUp eDown : Q) (modelUp modelDown : option Q) :
  let d := decide remainingMinutes (Some eUp) (Some eDown) modelUp modelDown in
  Decision.edgeUp d = Some eUp /\ Decision.edgeDown d = Some eDown /\
  (Decision.action d = ENTER ->
   exists e, Decision.edge d = Some e /\ eUp <= e /\ eDown <= e /\
             (e = eUp \/ e = eDown)).
Proof.
  intros d. split; [|split].
  - subst d. unfold decide. destruct (Js.lt _ _); [reflexivity|].
    destruct (match pick _ modelUp modelDown with Some m => _ | None => _ end);
      reflexivity.
  - subst d. unfold decide. destruct (Js.lt _ _); [reflexivity|].
    destruct (match pick _ modelUp modelDown with Some m => _ | None => _ end);
      reflexivity.
  - intros H. subst d.
    destruct (decide_ENTER_inv _ _ _ _ _ H)
      as (eUp' & eDown' & [= <-] & [= <-] & _ & _ & ->).
    exists (pick (bestSideOf eUp eDown) eUp eDown).
    split; [reflexivity | apply bestSideOf_max].
Qed.

Lemma decide_edge_is_larger_witness :
  let d := decide 50 (Some 0.07) (Some 0.31) None None in
  exists e, Decision.edge d = Some e /\ 0.07 <= e /\ 0.31 <= e /\
            (e = 0.07 \/ e = 0.31).
Proof.
  intros d.
  apply (decide_edge_is_larger 50 0.07 0.31 None None). reflexivity.
Defined.

(** More time never tightens the gate. *)
Lemma phaseOf_looser (r r' : Q) :
  r <= r' ->
  thresholdOf (phaseOf r') <= thresholdOf (phaseOf r) /\
  minProbOf (phaseOf r') <= minProbOf (phaseOf r).
Proof.
  intros Hle.
  destruct (phaseOf r) eqn:E; destruct (phaseOf r') eqn:E'; simpl;
    try (split; lra);
    first [ apply phaseOf_EARLY in E | apply phaseOf_MID in E
          | apply phaseOf_LATE in E ];
    first [ apply phaseOf_EARLY in E' | apply phaseOf_MID in E'
          | apply phaseOf_LATE in E' ];
    lra.
Qed.

(** X3.  An ENTER stays an ENTER with more time remaining: for the same edges
    and model probabilities, every larger [remainingMinutes] gives an ENTER
    with the same side, strength and edge. *)
Theorem decide_ENTER_with_more_time
    (r r' : Q) (edgeUp edgeDown modelUp modelDown : option Q) :
  let d := decide r edgeUp edgeDown modelUp modelDown in
  let d' := decide r' edgeUp edgeDown modelUp modelDown in
  r <= r' -> Decision.action d = ENTER ->
  Decision.action d' = ENTER /\ Decision.side d' = Decision.side d /\
  Decision.strength d' = Decision.strength d /\
  Decision.edge d' = Decision.edge d.
Proof.
  intros d d' Hle H. subst d d'.
  destruct (decide_ENTER_inv _ _ _ _ _ H)
    as (eUp & eDown & -> & -> & Hedge & Hprob & ->).
  destruct (phaseOf_looser r r' Hle) as [Ht Hp].
  rewrite decide_ENTER_intro; [repeat split | lra |].
  intros m Hm. specialize (Hprob m Hm). lra.
Qed.

Lemma decide_ENTER_with_more_time_witness :
  let d' := decide 52 (Some 0.12) (Some 0.01) (Some 0.7) (Some 0.3) in
  Decision.action d' = ENTER /\ Decision.side d' = Some UP /\
  Decision.strength d' = Some GOOD /\ Decision.edge d' = Some 0.12.
Proof.
  intros d'.
  apply (decide_ENTER_with_more_time 25 52 (Some 0.12) (Some 0.01)
           (Some 0.7) (Some 0.3)); [discriminate | reflexivity].
Defined.

(** X4.  The strength of an ENTER is bound to its phase: in LATE it is always
    STRONG, in MID it is never OPTIONAL, so an OPTIONAL entry only occurs
    with more than 40 minutes remaining. *)
Theorem decide_strength_by_phase
    (remainingMinutes : Q) (edgeUp edgeDown modelUp modelDown : option Q) :
  let d := decide remainingMinutes edgeUp edgeDown modelUp modelDown in
  Decision.action d = ENTER ->
  (Decision.phase d = LATE -> Decision.strength d = Some STRONG) /\
  (Decision.phase d = MID -> Decision.strength d <> Some OPTIONAL) /\
  (Decision.strength d = Some OPTIONAL -> 40 < remainingMinutes).
Proof.
  intros d H. subst d.
  destruct (decide_ENTER_inv _ _ _ _ _ H)
    as (eUp & eDown & -> & -> & Hedge & _ & ->).
  simpl. unfold strengthOf.
  set (e := pick (bestSideOf eUp eDown) eUp eDown) in *.
  split; [|split].
  - intros HL. rewrite HL in Hedge. simpl in Hedge.
    apply ge_true in Hedge. now rewrite Hedge.
  - intros HM. rewrite HM in Hedge. simpl in Hedge.
    by_cases_on (Js.ge e 0.2); [discriminate|].
    apply ge_true in Hedge. rewrite Hedge. discriminate.
  - by_cases_on (Js.ge e 0.2); [discriminate|].
    by_cases_on (Js.ge e 0.1); [discriminate|]. intros _.
    apply phaseOf_EARLY.
    destruct (phaseOf remainingMinutes); [reflexivity | |];
      simpl in Hedge; lra.
Qed.

Lemma decide_strength_by_phase_witness :
  Decision.strength (decide 18 (Some 0.02) (Some 0.25) None (Some 0.8))
    = Some STRONG.
Proof.
  apply (decide_strength_by_phase 18 (Some 0.02) (Some 0.25) None (Some 0.8));
    reflexivity.
Defined.

(** X5.  Whatever the phase, an ENTER has an edge of at least 0.05 on its side,
    and the model probability of that side, when it is known, is at least
    0.55. *)
Theorem decide_ENTER_floor
    (remainingMinutes : Q) (edgeUp edgeDown modelUp modelDown : option Q) :
  let d := decide remainingMinutes edgeUp edgeDown modelUp modelDown in
  Decision.action d = ENTER ->
  exists s e, Decision.side d = Some s /\ Decision.edge d = Some e /\
    pick s edgeUp edgeDown = Some e /\ 0.05 <= e /\
    (forall m, pick s modelUp modelDown = Some m -> 0.55 <= m).
Proof.
  intros d H. subst d.
  destruct (decide_ENTER_inv _ _ _ _ _ H)
    as (eUp & eDown & -> & -> & Hedge & Hprob & ->).
  exists (bestSideOf eUp eDown), (pick (bestSideOf eUp eDown) eUp eDown).
  simpl. repeat split.
  - now destruct (bestSideOf eUp eDown).
  - destruct (phaseOf remainingMinutes); simpl in Hedge; lra.
  - intros m Hm. specialize (Hprob m Hm).
    destruct (phaseOf remainingMinutes); simpl in Hprob; lra.
Qed.

Lemma decide_ENTER_floor_witness :
  let d := decide 30 (Some 0.12) (Some 0.15) (Some 0.3) (Some 0.7) in
  exists s e, Decision.side d = Some s /\ Decision.edge d = Some e /\
    pick s (Some 0.12) (Some 0.15) = Some e /\ 0.05 <= e /\
    (forall m, pick s (Some 0.3) (Some 0.7) = Some m -> 0.55 <= m).
Proof.
  intros d.
  apply (decide_ENTER_floor 30 (Some 0.12) (Some 0.15) (Some 0.3) (Some 0.7)).
  reflexivity.
Defined.

Lemma bestSideOf_swap (eUp eDown : Q) :
  ~ eUp == eDown -> bestSideOf eDown eUp = flipSide (bestSideOf eUp eDown).
Proof.
  intros Hne. unfold bestSideOf, Js.gt.
  by_cases_on (Js.lt eDown eUp); by_cases_on (Js.lt eUp eDown);
    try reflexivity; exfalso; [lra | apply Hne; lra].
Qed.

(** X6.  Exchanging the roles of UP and DOWN exchanges the side of the decision
    and changes nothing else, as long as the two edges differ.  (On equal
    edges both orders choose DOWN.) *)
Theorem decide_swap_sides (remainingMinutes eUp eDown : Q) (modelUp modelDown : option Q) :
  let d := decide remainingMinutes (Some eUp) (Some eDown) modelUp modelDown in
  let d' := decide remainingMinutes (Some eDown) (Some eUp) modelDown modelUp in
  ~ eUp == eDown ->
  Decision.action d' = Decision.action d /\
  Decision.side d' = option_map flipSide (Decision.side d) /\
  Decision.phase d' = Decision.phase d /\
  Decision.reason d' = Decision.reason d /\
  Decision.strength d' = Decision.strength d /\
  Decision.edge d' = Decision.edge d.
Proof.
  intros d d' Hne. subst d d'. unfold decide.
  rewrite (bestSideOf_swap eUp eDown Hne).
  destruct (bestSideOf eUp eDown); simpl;
    destruct (Js.lt _ _); simpl; try (repeat split; reflexivity);
    match goal with
    | |- context [match ?m with Some _ => _ | None => _ end] =>
        destruct m as [p|]; [destruct (Js.lt p _)|]
    end; simpl; repeat split; reflexivity.
Qed.

Lemma decide_swap_sides_witness :
  let d' := decide 30 (Some 0.02) (Some 0.3) (Some 0.25) (Some 0.75) in
  Decision.action d' = ENTER /\ Decision.side d' = Some DOWN /\
  Decision.strength d' = Some STRONG.
Proof.
  intros d'.
  destruct (decide_swap_sides 30 0.3 0.02 (Some 0.75) (Some 0.25))
    as (Ha & Hs & _ & _ & Hst & _); [discriminate|].
  split; [exact Ha|]. split; [exact Hs | exact Hst].
Defined.

(** The tie that the exchange does not cover: on equal edges the decision
    follows the DOWN model probability in both orders. *)
Example decide_tie_goes_DOWN :
  Decision.side (decide 50 (Some 0.1) (Some 0.1) (Some 0.5) (Some 0.9)) = Some DOWN /\
  Decision.action (decide 50 (Some 0.1) (Some 0.1) (Some 0.9) (Some 0.5)) = NO_TRADE.
Proof. split; reflexivity. Qed.

(** ** The snapshot quotes and the order of a round *)

Import KalshiApi Main.

Lemma bid_cents_price (c : Z) :
  c <> 0%Z ->
  priceOfBid (Js.Number (Js.Fin (inject_Z c))) = Some (inject_Z c / 100) /\
  ~ inject_Z c == 0.
Proof.
  intros Hc. unfold priceOfBid, truthy.
  assert (Hne : ~ inject_Z c == 0).
  { unfold Qeq. simpl. lia. }
  destruct (Qeq_bool (inject_Z c) 0) eqn:E.
  - apply Qeq_bool_eq in E. contradiction.
  - split; [reflexivity | exact Hne].
Qed.

(** What holds of every integer from 0 below [n] holds of each of them. *)
Lemma forallb_upto (P : Z -> bool) (n : Z) :
  forallb P (map Z.of_nat (seq 0 (Z.to_nat n))) = true ->
  forall c, (0 <= c < n)%Z -> P c = true.
Proof.
  intros H c Hc. rewrite forallb_forall in H. apply H.
  apply in_map_iff. exists (Z.to_nat c). split; [lia|]. apply in_seq. lia.
Qed.

Section Cents.

Import PrimFloat Double KalshiCents.

Lemma cents_upto_100 :
  forallb
    (fun c =>
       Bool.eqb (truthy (Some (ofZ c))) (negb (c =? 0)%Z)
       && is_finite (ofZ c)
       && match priceCents (priceOfBid (Some (ofZ c))) with
          | Int n => (n =? c)%Z
          | NaN => false
          | Infinity _ => false
          end)
    (map Z.of_nat (seq 0 (Z.to_nat 101))) = true.
Proof. vm_compute. reflexivity. Qed.

(** X7.  In doubles, a bid of 0 to 100 whole cents becomes the price that
    dividing it by 100 gives, except that a bid of 0 gives no price;
    multiplying the price back by 100 and rounding, as the trade path does,
    gives the cents of the bid again. *)
Theorem bid_cents_round_trip (c : Z) :
  (0 <= c <= 100)%Z ->
  let p := priceOfBid (Some (ofZ c)) in
  (p = None <-> c = 0%Z) /\
  (c <> 0%Z -> p = Some (ofZ c / 100)%float) /\
  priceCents p = Int c.
Proof.
  intros Hc p. subst p.
  pose proof (forallb_upto _ 101 cents_upto_100 c ltac:(lia)) as H.
  cbv beta in H. apply andb_true_iff in H. destruct H as [H Hcents].
  apply andb_true_iff in H. destruct H as [Htruthy Hfinite].
  apply Bool.eqb_prop in Htruthy.
  assert (Hp : priceOfBid (Some (ofZ c))
               = if negb (c =? 0)%Z then Some (ofZ c / 100)%float else None).
  { unfold priceOfBid, toNumber. rewrite Htruthy, Hfinite. reflexivity. }
  split; [|split].
  - rewrite Hp. destruct (c =? 0)%Z eqn:E; simpl.
    + apply Z.eqb_eq in E. tauto.
    + apply Z.eqb_neq in E. split; [discriminate | contradiction].
  - intros Hnz. rewrite Hp. apply Z.eqb_neq in Hnz. now rewrite Hnz.
  - destruct (priceCents (priceOfBid (Some (ofZ c)))) as [n| |];
      try discriminate.
    apply Z.eqb_eq in Hcents. now subst n.
Qed.

Lemma bid_cents_round_trip_witness :
  priceOfBid (Some (ofZ 29)) = Some (ofZ 29 / 100)%float /\
  priceCents (priceOfBid (Some (ofZ 29))) = Int 29 /\
  priceOfBid (Some (ofZ 0)) = None.
Proof.
  destruct (bid_cents_round_trip 29) as (_ & Hp & Hr); [lia|].
  destruct (bid_cents_round_trip 0) as (Hz & _ & _); [lia|].
  split; [apply Hp; discriminate|]. split; [exact Hr | now apply Hz].
Defined.

(** The rounding is needed: the price of 29 cents times 100 is below 29.
    And it does not help every integer: a bid of 4 092 648 207 364 638
    comes back as one more. *)
Example bid_cents_rounding :
  (ofZ 29 / 100 * 100 <? 29)%float = true /\
  priceCents (priceOfBid (Some (ofZ 4092648207364638)))
  = Int 4092648207364639.
Proof. split; vm_compute; reflexivity. Qed.

End Cents.

(** A bid that is missing, null, NaN or 0 gives no price, and a snapshot
    has quotes only when both calls returned and a market was found. *)
Theorem fetchKalshiSnapshot_quotes
    (fetchedMarket : Fetched (option Market))
    (fetchedOrderbook : option string -> Fetched (option Kalshi.Book)) :
  let kalshi := fetchKalshiSnapshot fetchedMarket fetchedOrderbook in
  priceOfBid Js.Undefined = None /\ priceOfBid Js.Null = None /\
  priceOfBid (Js.Number Js.NaN) = None /\
  priceOfBid (Js.Number (Js.Fin 0)) = None /\
  (forall p, marketUpOf kalshi = Some p \/ marketDownOf kalshi = Some p ->
     exists market data,
       fetchedMarket = Got (Some market) /\
       fetchedOrderbook (ticker market) = Got data /\
       marketUpOf kalshi = priceOfBid (yes_bid market) /\
       marketDownOf kalshi = priceOfBid (no_bid market)).
Proof.
  intros kalshi. repeat split. intros p Hp. subst kalshi.
  unfold fetchKalshiSnapshot in *.
  destruct fetchedMarket as [msg | [market|]];
    try (simpl in Hp; destruct Hp; discriminate).
  destruct (fetchedOrderbook (ticker market)) as [msg | data] eqn:E;
    try (simpl in Hp; destruct Hp; discriminate).
  exists market, data. repeat split. exact E.
Qed.

Lemma fetchKalshiSnapshot_quotes_witness :
  let market :=
    mkMarket (Some "KXBTCD-26FEB0201-T75000"%string) (Some 1770000000000%Z)
             (Js.Number (Js.Fin 47)) (Js.Number (Js.Fin 51))
             (Some 75000) (Some 120) (Some 1770000000000%Z) in
  let kalshi := fetchKalshiSnapshot (Got (Some market)) (fun _ => Got None) in
  marketUpOf kalshi = priceOfBid (Js.Number (Js.Fin 47)) /\
  marketDownOf kalshi = priceOfBid (Js.Number (Js.Fin 51)).
Proof.
  intros market kalshi.
  destruct (fetchKalshiSnapshot_quotes (Got (Some market)) (fun _ => Got None))
    as (_ & _ & _ & _ & H).
  destruct (H (47 / 100)) as (m & data & [= <-] & _ & Hup & Hdown).
  - left. reflexivity.
  - split; [exact Hup | exact Hdown].
Defined.

Section Rounds.

Variable OrderResult : Type.
Variable send : Order.t -> Fetched OrderResult.
Variable CONFIG : Config.

(** X8.  The state changes only when an order was accepted; a call sends at most
    one order; with auto-trading off nothing happens at all, and without a
    private key nothing is sent. *)
Theorem executeTradeIfNeeded_effects
    (now : Z) (recommendation : Decision.t) (kalshi : Snapshot.t)
    (spotPrice : option Q) (st : TradeState) :
  let o := executeTradeIfNeeded OrderResult send CONFIG now recommendation
             kalshi spotPrice st in
  ((exists order position payload,
      returned _ o = Some (Success _ order position) /\
      sent _ o = [payload] /\ send payload = Got order /\
      state _ o = {| lastTradeTimestamp := now;
                     currentPosition := Some position |})
   \/ (state _ o = st /\ (List.length (sent _ o) <= 1)%nat /\
       forall order position, returned _ o <> Some (Success _ order position))) /\
  (autoTrade CONFIG = false ->
     returned _ o = None /\ state _ o = st /\ sent _ o = []) /\
  (privateKey CONFIG = ""%string -> state _ o = st /\ sent _ o = []) /\
  (Decision.action recommendation = NO_TRADE ->
     returned _ o = None /\ state _ o = st /\ sent _ o = []).
Proof.
  intros o. subst o. unfold executeTradeIfNeeded, placeOrder.
  destruct (autoTrade CONFIG); simpl.
  2:{ repeat split; try discriminate; right; repeat split; auto; discriminate. }
  destruct (Decision.action recommendation); simpl.
  2:{ repeat split; try discriminate; right; repeat split; auto; discriminate. }
  destruct kalshi as [reason err | k]; simpl.
  { repeat split; try discriminate; right; repeat split; auto; discriminate. }
  destruct (String.eqb (privateKey CONFIG) "") eqn:Ekey; simpl.
  { repeat split; try discriminate; right; repeat split; auto; discriminate. }
  apply String.eqb_neq in Ekey.
  match goal with |- context [send ?p] => destruct (send p) as [msg | order] eqn:Es end;
    simpl.
  - repeat split; try discriminate; try contradiction.
    right; repeat split; auto; discriminate.
  - repeat split; try discriminate; try contradiction.
    left. eexists _, _, _. repeat split. exact Es.
Qed.

(** X9.  A round without a quote: when the snapshot lacks the up or the down
    price, the decision is the NO_TRADE for missing market data, no order
    is sent and the trade state stays as it is. *)
Theorem round_without_quote
    (now : Z) (timeLeftMin adjustedUp adjustedDown : Q)
    (kalshi : Snapshot.t) (lastPrice : option Q) (st : TradeState) :
  let r := round_ OrderResult send CONFIG now timeLeftMin adjustedUp
             adjustedDown kalshi lastPrice st in
  marketUpOf kalshi = None \/ marketDownOf kalshi = None ->
  Decision.action (rec _ r) = NO_TRADE /\
  Decision.reason (rec _ r) = Some "missing_market_data"%string /\
  signal (rec _ r) = "NO TRADE"%string /\
  jsonSignal_best_edge (rec _ r) (edge _ r) = None /\
  returned _ (trade _ r) = None /\ state _ (trade _ r) = st /\
  sent _ (trade _ r) = [].
Proof.
  intros r H. subst r. unfold round_. cbn [rec edge trade].
  assert (E : computeEdge adjustedUp adjustedDown (marketUpOf kalshi)
                          (marketDownOf kalshi) = allNull).
  { destruct H as [-> | ->]; [reflexivity|].
    now destruct (marketUpOf kalshi). }
  rewrite E. simpl. unfold executeTradeIfNeeded. simpl.
  destruct (autoTrade CONFIG); simpl; repeat split.
Qed.

(** X10.  The order of a round.  When a round sends an order it sends exactly
    one, the decision is an ENTER, the snapshot has a price for the side of
    the decision, and the order buys [maxPositionSize] contracts of that
    side (yes for UP, no for DOWN) at a limit of that price in cents, which
    goes under [yes_price] for either side. *)
Theorem round_order
    (now : Z) (timeLeftMin adjustedUp adjustedDown : Q)
    (kalshi : Snapshot.t) (lastPrice : option Q) (st : TradeState) :
  let r := round_ OrderResult send CONFIG now timeLeftMin adjustedUp
             adjustedDown kalshi lastPrice st in
  sent _ (trade _ r) <> [] ->
  exists k s quote,
    kalshi = Snapshot.Ok k /\
    Decision.action (rec _ r) = ENTER /\ Decision.side (rec _ r) = Some s /\
    pick s (Prices.up (Snapshot.prices k)) (Prices.down (Snapshot.prices k))
      = Some quote /\
    sent _ (trade _ r) =
      [ {| Order.ticker := Snapshot.ticker k;
           Order.side := pick s yes_side no_side;
           Order.action := "buy";
           Order.count := maxPositionSize CONFIG;
           Order.type := "limit";
           Order.yes_price := Some (round (quote * 100)) |} ].
Proof.
  intros r Hsent. subst r. unfold round_ in *. cbn [rec edge trade] in *.
  set (e := computeEdge adjustedUp adjustedDown (marketUpOf kalshi)
                        (marketDownOf kalshi)) in *.
  set (d := decide timeLeftMin (Edge.edgeUp e) (Edge.edgeDown e)
                   (Some adjustedUp) (Some adjustedDown)) in *.
  destruct (Decision.action d) eqn:Ha.
  2:{ exfalso. apply Hsent. unfold executeTradeIfNeeded. rewrite Ha.
      now destruct (autoTrade CONFIG). }
  destruct (decide_ENTER_inv _ _ _ _ _ Ha)
    as (eUp & eDown & HeUp & HeDown & _ & _ & Hd).
  destruct kalshi as [reason err | k].
  { exfalso. apply Hsent. unfold executeTradeIfNeeded. rewrite Ha.
    now destruct (autoTrade CONFIG). }
  simpl in e. subst e.
  destruct (Prices.up (Snapshot.prices k)) as [up|] eqn:Eup;
    [|discriminate HeUp].
  destruct (Prices.down (Snapshot.prices k)) as [down|] eqn:Edown;
    [|discriminate HeUp].
  set (s := bestSideOf eUp eDown) in *.
  exists k, s, (pick s up down).
  split; [reflexivity|]. split; [reflexivity|].
  subst d.
  split; [now rewrite Hd|]. split; [rewrite Eup, Edown; now destruct s|].
  revert Hsent. rewrite Hd. unfold executeTradeIfNeeded, placeOrder.
  cbn [Decision.action Decision.side].
  destruct (autoTrade CONFIG); [|intros F; now elim F]. simpl.
  destruct (String.eqb (privateKey CONFIG) ""); [intros F; now elim F|].
  intros _. unfold orderPayload, times100.
  destruct s; rewrite ?Eup, ?Edown; simpl;
    match goal with |- context [send ?p] => destruct (send p) end; reflexivity.
Qed.

(** X11.  The [best_edge] the JSON signal recomputes from the side of the decision
    is the [edge] the decision carries. *)
Theorem jsonSignal_best_edge_is_edge
    (now : Z) (timeLeftMin adjustedUp adjustedDown : Q)
    (kalshi : Snapshot.t) (lastPrice : option Q) (st : TradeState) :
  let r := round_ OrderResult send CONFIG now timeLeftMin adjustedUp
             adjustedDown kalshi lastPrice st in
  jsonSignal_best_edge (rec _ r) (edge _ r) = Decision.edge (rec _ r).
Proof.
  intros r. subst r. unfold round_. cbn [rec edge trade].
  set (e := computeEdge adjustedUp adjustedDown (marketUpOf kalshi)
                        (marketDownOf kalshi)).
  unfold jsonSignal_best_edge.
  destruct (Decision.action (decide _ _ _ _ _)) eqn:Ha.
  - destruct (decide_ENTER_inv _ _ _ _ _ Ha)
      as (eUp & eDown & HeUp & HeDown & _ & _ & ->).
    simpl. rewrite HeUp, HeDown. now destruct (bestSideOf eUp eDown).
  - symmetry. now apply decide_NO_TRADE_edge.
Qed.

End Rounds.

Lemma executeTradeIfNeeded_effects_witness :
  let off := {| autoTrade := false; maxPositionSize := 10; privateKey := "key" |} in
  let d := decide 50 (Some 0.3) (Some 0.1) (Some 0.8) (Some 0.2) in
  let o := executeTradeIfNeeded string exampleSend off 1770000000000 d
             exampleSnapshot (Some 75120) initialState in
  returned _ o = None /\ state _ o = initialState /\ sent _ o = [].
Proof.
  intros off d o.
  destruct (executeTradeIfNeeded_effects string exampleSend off 1770000000000 d
              exampleSnapshot (Some 75120) initialState) as (_ & Hoff & _ & _).
  apply Hoff. reflexivity.
Defined.

Lemma round_without_quote_witness :
  let r := round_ string exampleSend exampleConfig 1770000000000 50 0.8 0.2
             (Snapshot.NotOk "market_not_found" None) (Some 75120) initialState in
  Decision.action (rec _ r) = NO_TRADE /\
  Decision.reason (rec _ r) = Some "missing_market_data"%string /\
  signal (rec _ r) = "NO TRADE"%string /\
  jsonSignal_best_edge (rec _ r) (edge _ r) = None /\
  returned _ (trade _ r) = None /\ state _ (trade _ r) = initialState /\
  sent _ (trade _ r) = [].
Proof.
  intros r.
  apply (round_without_quote string exampleSend exampleConfig 1770000000000
           50 0.8 0.2 (Snapshot.NotOk "market_not_found" None) (Some 75120)
           initialState).
  left. reflexivity.
Defined.

Lemma round_order_witness :
  let r := round_ string exampleSend exampleConfig 1770000000000 50 0.8 0.2
             exampleSnapshot (Some 75120) initialState in
  exists k s quote,
    exampleSnapshot = Snapshot.Ok k /\
    Decision.action (rec _ r) = ENTER /\ Decision.side (rec _ r) = Some s /\
    pick s (Prices.up (Snapshot.prices k)) (Prices.down (Snapshot.prices k))
      = Some quote /\
    sent _ (trade _ r) =
      [ {| Order.ticker := Snapshot.ticker k;
           Order.side := pick s yes_side no_side;
           Order.action := "buy";
           Order.count := 10;
           Order.type := "limit";
           Order.yes_price := Some (round (quote * 100)) |} ].
Proof.
  intros r.
  apply (round_order string exampleSend exampleConfig 1770000000000 50 0.8 0.2
           exampleSnapshot (Some 75120) initialState).
  discriminate.
Defined.

(** The round of the examples buys 10 yes contracts at 47 cents. *)
Example round_example :
  let r := round_ string exampleSend exampleConfig 1770000000000 50 0.8 0.2
             exampleSnapshot (Some 75120) initialState in
  map Order.yes_price (sent _ (trade _ r)) = [Some 47%Z] /\
  map Order.side (sent _ (trade _ r)) = [yes_side] /\
  signal (rec _ r) = "BUY YES"%string.
Proof. vm_compute. repeat split. Qed.

(** ** The quotes of a snapshot in [computeEdge] *)

Lemma cents_in_unit_interval (c : Z) :
  (1 <= c <= 100)%Z -> 0 <= inject_Z c / 100 <= 1.
Proof.
  intros [Hlo Hhi].
  assert (H : 1 <= inject_Z c <= 100).
  { split; [change 1 with (inject_Z 1) | change 100 with (inject_Z 100)];
      rewrite <- Zle_Qle; lia. }
  split; [apply Qle_shift_div_l | apply Qle_shift_div_r]; lra.
Qed.

(** X12.  For bids in whole cents from 1 to 100 the quotes lie in [0,1], so the
    [marketUp] and [marketDown] that [computeEdge] reports are the quotes
    themselves and each edge is the model probability minus the reported
    market value. *)
Theorem computeEdge_on_cent_bids (modelUp modelDown : Q) (yesCents noCents : Z) :
  (1 <= yesCents <= 100)%Z -> (1 <= noCents <= 100)%Z ->
  let marketYes := priceOfBid (Js.Number (Js.Fin (inject_Z yesCents))) in
  let marketNo := priceOfBid (Js.Number (Js.Fin (inject_Z noCents))) in
  let e := computeEdge modelUp modelDown marketYes marketNo in
  exists mUp mDown,
    Edge.marketUp e = Some mUp /\ Edge.marketDown e = Some mDown /\
    marketYes = Some mUp /\ marketNo = Some mDown /\
    mUp == inject_Z yesCents / 100 /\ mDown == inject_Z noCents / 100 /\
    Edge.edgeUp e = Some (modelUp - mUp) /\
    Edge.edgeDown e = Some (modelDown - mDown).
Proof.
  intros Hy Hn marketYes marketNo e.
  destruct (bid_cents_price yesCents) as [Hy0 Hyp]; [lia|].
  destruct (bid_cents_price noCents) as [Hn0 Hnp]; [lia|].
  subst e marketYes marketNo. rewrite Hy0, Hn0.
  exists (inject_Z yesCents / 100), (inject_Z noCents / 100).
  assert (Hy1 : 0 <= inject_Z yesCents / 100 <= 1).
  { apply cents_in_unit_interval. lia. }
  assert (Hn1 : 0 <= inject_Z noCents / 100 <= 1).
  { apply cents_in_unit_interval. lia. }
  simpl. rewrite !clamp_in_range by assumption.
  repeat split; reflexivity.
Qed.

Lemma computeEdge_on_cent_bids_witness :
  let e := computeEdge 0.8 0.2 (priceOfBid (Js.Number (Js.Fin 47)))
                       (priceOfBid (Js.Number (Js.Fin 51))) in
  exists mUp mDown,
    Edge.marketUp e = Some mUp /\ Edge.marketDown e = Some mDown /\
    priceOfBid (Js.Number (Js.Fin 47)) = Some mUp /\
    priceOfBid (Js.Number (Js.Fin 51)) = Some mDown /\
    mUp == 47 / 100 /\ mDown == 51 / 100 /\
    Edge.edgeUp e = Some (0.8 - mUp) /\ Edge.edgeDown e = Some (0.2 - mDown).
Proof.
  intros e.
  apply (computeEdge_on_cent_bids 0.8 0.2 47 51); split; discriminate.
Defined.

(** ** [summarizeOrderBook]: prices, spread and depth *)

Section OrderBookSide.

Import Kalshi.

Lemma summarizeOrderBook_sides (book : option Book) (depthLevels : nat) :
  summarizeOrderBook book depthLevels =
    {| Summary.yes := sideOf (bidsOf book yes) depthLevels;
       Summary.no := sideOf (bidsOf book no) depthLevels |}.
Proof. reflexivity. Qed.

(** X13.  A side without levels, because the book is missing, the key is missing
    or not an array, or the array is empty, is summarized by null prices, a
    null spread and a liquidity of 0; the other side is not affected. *)
Theorem summarizeOrderBook_no_levels (book : option Book) (depthLevels : nat) :
  let s := summarizeOrderBook book depthLevels in
  let none := {| Side.bestBid := None; Side.bestAsk := None; Side.spread := None;
                 Side.bidLiquidity := 0; Side.askLiquidity := 0 |} in
  (book = None -> Summary.yes s = none /\ Summary.no s = none) /\
  (forall b, book = Some b -> yes b = None \/ yes b = Some [] ->
     Summary.yes s = none /\
     Summary.no s = sideOf (match no b with Some l => l | None => [] end) depthLevels) /\
  (forall b, book = Some b -> no b = None \/ no b = Some [] ->
     Summary.no s = none /\
     Summary.yes s = sideOf (match yes b with Some l => l | None => [] end) depthLevels).
Proof.
  intros s none. subst s. rewrite summarizeOrderBook_sides. simpl.
  assert (Hnil : sideOf [] depthLevels = none).
  { unfold sideOf, liquidity. now rewrite firstn_nil. }
  split; [|split].
  - intros ->. simpl. now rewrite Hnil.
  - intros b -> [H | H]; simpl; rewrite H; now rewrite Hnil.
  - intros b -> [H | H]; simpl; rewrite H; now rewrite Hnil.
Qed.

Lemma summarizeOrderBook_no_levels_witness :
  let s := summarizeOrderBook
             (Some (mkBook None (Some [mkLevel (Js.Fin 58) (Js.Fin 7)]))) 5 in
  Side.bestBid (Summary.yes s) = None /\ Side.spread (Summary.yes s) = None /\
  Side.bidLiquidity (Summary.yes s) = 0 /\
  Side.bestBid (Summary.no s) = Some 58.
Proof.
  intros s.
  destruct (summarizeOrderBook_no_levels
              (Some (mkBook None (Some [mkLevel (Js.Fin 58) (Js.Fin 7)]))) 5)
    as (_ & H & _).
  destruct (H _ eq_refl (or_introl eq_refl)) as [Hyes Hno].
  subst s. rewrite Hyes, Hno. repeat split.
Defined.

Lemma sideOf_prices (levels : list Level) (depthLevels : nat) :
  pricesOfLevels levels (sideOf levels depthLevels).
Proof.
  unfold pricesOfLevels.
  cbn [sideOf Side.bestBid Side.bestAsk Side.spread].
  unfold priceAt.
  assert (Hnum : forall x, toNumber x = finiteValue x) by now intros [].
  destruct levels as [|first [|second rest]]; simpl.
  - repeat split; try discriminate.
    intros (f & s' & r & b & a & H & _). discriminate.
  - assert (E : spreadOf (toNumber (price first)) None = None)
      by now destruct (toNumber (price first)).
    rewrite E. repeat split; try discriminate; try apply Hnum.
    intros (f & s' & r & b & a & H & _). discriminate.
  - repeat split; try (intros; lia); try apply Hnum.
    + unfold toNumber, Js.finiteOrNull.
      destruct (price first) as [| |b] eqn:Eb; try discriminate;
        destruct (price second) as [| |a] eqn:Ea; try discriminate.
      simpl. intros [= <-]. exists first, second, rest, b, a.
      repeat split; assumption.
    + intros (f & s' & r & b & a & [= <- <- <-] & Hb & Ha & ->).
      now rewrite Hb, Ha.
Qed.

(** X14.  On the yes side and on the no side alike, [bestBid] is the price
    of the first level and [bestAsk] the price of the second level of the
    array of the book.  So a side with a single level has no [bestAsk], and
    the spread is known exactly when the array has two levels whose prices
    are finite numbers; it is the second price minus the first. *)
Theorem summarizeOrderBook_spread (book : option Book) (depthLevels : nat) :
  let s := summarizeOrderBook book depthLevels in
  (forall b levels, book = Some b -> yes b = Some levels ->
     pricesOfLevels levels (Summary.yes s)) /\
  (forall b levels, book = Some b -> no b = Some levels ->
     pricesOfLevels levels (Summary.no s)).
Proof.
  intros s. subst s. rewrite summarizeOrderBook_sides.
  cbn [Summary.yes Summary.no].
  split; intros b levels -> H; unfold bidsOf; rewrite H; apply sideOf_prices.
Qed.

Lemma summarizeOrderBook_spread_witness :
  let lvl p s := mkLevel (Js.Fin p) (Js.Fin s) in
  let yesLevels := [lvl 40 10; lvl 39 4; lvl 38 1] in
  let noLevels := [lvl 58 7; lvl 55 2] in
  let s := summarizeOrderBook (Some (mkBook (Some yesLevels) (Some noLevels))) 5 in
  (Side.bestBid (Summary.yes s) = Some 40 /\
   Side.bestAsk (Summary.yes s) = Some 39 /\
   Side.spread (Summary.yes s) = Some (39 - 40)) /\
  (Side.bestBid (Summary.no s) = Some 58 /\
   Side.bestAsk (Summary.no s) = Some 55 /\
   Side.spread (Summary.no s) = Some (55 - 58)).
Proof.
  intros lvl yesLevels noLevels s.
  destruct (summarizeOrderBook_spread
              (Some (mkBook (Some yesLevels) (Some noLevels))) 5)
    as [Hyes Hno].
  fold s in Hyes, Hno.
  destruct (Hyes _ yesLevels eq_refl eq_refl) as (Hb & Ha & _ & Hs).
  destruct (Hno _ noLevels eq_refl eq_refl) as (Hb' & Ha' & _ & Hs').
  split; (split; [|split]).
  - exact Hb.
  - exact Ha.
  - apply Hs. exists (lvl 40 10), (lvl 39 4), [lvl 38 1], 40, 39.
    repeat split.
  - exact Hb'.
  - exact Ha'.
  - apply Hs'. exists (lvl 58 7), (lvl 55 2), [], 58, 55.
    repeat split.
Defined.

Lemma sumOfSizes_nonneg (levels : list Level) :
  Forall sizeIsNotNegative levels -> 0 <= sumOfSizes levels.
Proof.
  induction 1 as [|x rest Hx _ IH]; simpl; [lra|].
  unfold sizeIsNotNegative in Hx.
  destruct (toNumber (size x)) as [v|]; [specialize (Hx v eq_refl)|]; lra.
Qed.

Lemma sumOfSizes_app (l1 l2 : list Level) :
  sumOfSizes (l1 ++ l2) == sumOfSizes l1 + sumOfSizes l2.
Proof.
  induction l1 as [|x l1 IH]; simpl; [lra | rewrite IH; lra].
Qed.

(** X15.  When no size is negative, the liquidity of a side is not negative, it
    does not decrease when more levels are counted, and from the number of
    levels of the side on it is the sum of all the sizes. *)
Theorem liquidity_depth (bids : list Level) (depth depth' : nat) :
  Forall sizeIsNotNegative bids ->
  (depth <= depth')%nat ->
  0 <= liquidity bids depth /\
  liquidity bids depth <= liquidity bids depth' /\
  ((List.length bids <= depth)%nat -> liquidity bids depth == sumOfSizes bids).
Proof.
  intros Hpos Hle. rewrite !liquidity_is_sum. split; [|split].
  - apply sumOfSizes_nonneg.
    rewrite <- (firstn_skipn depth bids) in Hpos.
    now apply Forall_app in Hpos.
  - assert (E : firstn depth' bids
               = firstn depth bids ++ firstn (depth' - depth) (skipn depth bids)).
    { rewrite <- (firstn_skipn depth (firstn depth' bids)) at 1.
      rewrite firstn_firstn, Nat.min_l by exact Hle.
      rewrite firstn_skipn_comm.
      now replace (depth + (depth' - depth))%nat with depth' by lia. }
    rewrite E, sumOfSizes_app.
    assert (0 <= sumOfSizes (firstn (depth' - depth) (skipn depth bids))).
    { apply sumOfSizes_nonneg.
      rewrite <- (firstn_skipn depth bids) in Hpos.
      apply Forall_app in Hpos. destruct Hpos as [_ Hskip].
      rewrite <- (firstn_skipn (depth' - depth) (skipn depth bids)) in Hskip.
      now apply Forall_app in Hskip. }
    lra.
  - intros Hlen. now rewrite firstn_all2.
Qed.

Lemma liquidity_depth_witness :
  let bids := [mkLevel (Js.Fin 40) (Js.Fin 10); mkLevel (Js.Fin 39) Js.NaN;
               mkLevel (Js.Fin 38) (Js.Fin 5)] in
  0 <= liquidity bids 1 /\ liquidity bids 1 <= liquidity bids 5 /\
  liquidity bids 5 == 15.
Proof.
  intros bids.
  assert (Hpos : Forall sizeIsNotNegative bids).
  { repeat constructor; intros v; simpl; intros [= <-]; discriminate. }
  destruct (liquidity_depth bids 1 5 Hpos) as (H0 & Hmono & _);
    [repeat constructor|].
  destruct (liquidity_depth bids 5 5 Hpos) as (_ & _ & Hall);
    [repeat constructor|].
  split; [exact H0|]. split; [exact Hmono|].
  rewrite Hall; [reflexivity | simpl; repeat constructor].
Defined.

End OrderBookSide.

(** ** [fetchKlines]: the granularity, the request and the candles *)

Import CoinbaseRequest.

(** X16.  The granularity of a request is 300 for "5m", 900 for "15m", 3600 for
    "1h", 86400 for "1d" and 60 for every other interval: "3m" is in the map
    with 180, which Coinbase does not support, and falls back to 60 like an
    unknown interval; 21600 is supported but no interval selects it. *)
Theorem granularityOf_table (interval : string) :
  granularityOf interval =
    (if String.eqb interval "5m" then 300
     else if String.eqb interval "15m" then 900
     else if String.eqb interval "1h" then 3600
     else if String.eqb interval "1d" then 86400
     else 60)%Z /\
  granularityOf interval <> 180%Z /\ granularityOf interval <> 21600%Z.
Proof.
  assert (E : granularityOf interval =
    (if String.eqb interval "5m" then 300
     else if String.eqb interval "15m" then 900
     else if String.eqb interval "1h" then 3600
     else if String.eqb interval "1d" then 86400
     else 60)%Z).
  { unfold granularityOf, granularityMap.
    destruct (String.eqb interval "1m") eqn:E1.
    { apply String.eqb_eq in E1. now subst interval. }
    destruct (String.eqb interval "3m") eqn:E3.
    { apply String.eqb_eq in E3. now subst interval. }
    destruct (String.eqb interval "5m"); [reflexivity|].
    destruct (String.eqb interval "15m"); [reflexivity|].
    destruct (String.eqb interval "1h"); [reflexivity|].
    destruct (String.eqb interval "1d"); reflexivity. }
  split; [exact E|]. rewrite E.
  destruct (String.eqb interval "5m"); [split; discriminate|].
  destruct (String.eqb interval "15m"); [split; discriminate|].
  destruct (String.eqb interval "1h"); [split; discriminate|].
  destruct (String.eqb interval "1d"); split; discriminate.
Qed.

(** X17.  A request never asks for more than 300 candles: for a limit that is not
    negative the range ends at the current second, does not start after it
    ends, and spans the granularity times the smaller of the limit and
    300. *)
Theorem timeRange_at_most_300 (nowMs : Z) (interval : string) (limit : Z) :
  (0 <= limit)%Z ->
  let r := timeRange nowMs interval limit in
  let granularity := granularityOf interval in
  (endTime r * 1000 <= nowMs < (endTime r + 1) * 1000)%Z /\
  (startTime r <= endTime r)%Z /\
  (endTime r - startTime r = granularity * Z.min limit 300)%Z /\
  (endTime r - startTime r <= granularity * 300)%Z /\
  ((limit <= 300)%Z -> (endTime r - startTime r = granularity * limit)%Z).
Proof.
  intros Hlimit r granularity. subst r. unfold timeRange. simpl.
  fold granularity.
  pose proof (granularityOf_pos interval) as Hg. fold granularity in Hg.
  pose proof (Z.div_mod nowMs 1000) as Hdm.
  pose proof (Z.mod_pos_bound nowMs 1000) as Hmod.
  repeat split; nia.
Qed.

Lemma timeRange_at_most_300_witness :
  let r := timeRange 1770000123456 "5m" 200 in
  (endTime r = 1770000123)%Z /\ (endTime r - startTime r = 300 * 200)%Z.
Proof.
  intros r.
  destruct (timeRange_at_most_300 1770000123456 "5m" 200) as (_ & _ & _ & _ & H);
    [discriminate|].
  split; [reflexivity | apply H; discriminate].
Defined.

Lemma spaced_trans (g : Z) :
  (0 <= g)%Z ->
  Relations_1.Transitive (fun a b : Row => (timestamp b + g <= timestamp a)%Z).
Proof. intros Hg a b c. lia. Qed.

(** X18.  The candles do not overlap: when each row of the response is at least
    one granularity older than the row before it, every candle of the
    returned series closes no later than each later candle opens, the open
    times increase strictly, and no row is lost. *)
Theorem fetchKlines_no_overlap (interval : string) (data : list Row) :
  let granularity := granularityOf interval in
  let candles := fetchKlines interval data in
  Sorted (fun a b : Row => (timestamp b + granularity <= timestamp a)%Z) data ->
  List.length candles = List.length data /\
  StronglySorted (fun a b : Candle => (Coinbase.closeTime a <= Coinbase.openTime b)%Z) candles /\
  StronglySorted (fun a b : Candle => (Coinbase.openTime a < Coinbase.openTime b)%Z) candles.
Proof.
  intros granularity candles Hsorted. subst candles. unfold fetchKlines.
  fold granularity.
  pose proof (granularityOf_pos interval) as Hg. fold granularity in Hg.
  apply Sorted_StronglySorted in Hsorted; [|apply spaced_trans; lia].
  split; [now rewrite length_rev, length_map|].
  split; apply StronglySorted_rev.
  - induction Hsorted as [|r rest Hrest IH Hr]; simpl; constructor;
      [exact IH|].
    apply Forall_map. eapply Forall_impl; [|exact Hr]. simpl. intros r'. lia.
  - induction Hsorted as [|r rest Hrest IH Hr]; simpl; constructor;
      [exact IH|].
    apply Forall_map. eapply Forall_impl; [|exact Hr]. simpl. intros r'. lia.
Qed.

Lemma fetchKlines_no_overlap_witness :
  let row t := mkRow t (Js.Fin 1) (Js.Fin 3) (Js.Fin 2) (Js.Fin 2.5) (Js.Fin 10) in
  let data := [row 1700000600%Z; row 1700000300%Z; row 1700000000%Z] in
  StronglySorted (fun a b : Candle => (Coinbase.closeTime a <= Coinbase.openTime b)%Z)
                 (fetchKlines "5m" data).
Proof.
  intros row data.
  apply (fetchKlines_no_overlap "5m" data).
  repeat constructor; simpl; discriminate.
Defined.

(** ** The colour of the time left and the phase of the gate *)

(** X19.  Within the hour the colour of the time left follows the phase of the
    gate except on the two boundaries: green goes with EARLY, yellow with MID
    and red with LATE, but at exactly 40 minutes the display is green while
    the gate is in MID, and at exactly 20 minutes it is yellow while the
    gate is in LATE.  Outside of 0 to 60 minutes the colour is reset. *)
Theorem timeColor_and_phase (timeLeftMin : Q) :
  (0 <= timeLeftMin <= 60 -> ~ timeLeftMin == 40 -> ~ timeLeftMin == 20 ->
     timeColor timeLeftMin =
       match phaseOf timeLeftMin with
       | EARLY => green | MID => yellow | LATE => red
       end) /\
  (timeLeftMin == 40 ->
     timeColor timeLeftMin = green /\ phaseOf timeLeftMin = MID) /\
  (timeLeftMin == 20 ->
     timeColor timeLeftMin = yellow /\ phaseOf timeLeftMin = LATE) /\
  (timeLeftMin < 0 \/ 60 < timeLeftMin -> timeColor timeLeftMin = reset).
Proof.
  unfold timeColor, phaseOf, Js.gt.
  destruct (Qle_bool timeLeftMin 60) eqn:E60;
    [apply Qle_bool_iff in E60
    | assert (60 < timeLeftMin)
        by (apply Qnot_le_lt; rewrite <- Qle_bool_iff; congruence)];
  by_cases_on (Js.ge timeLeftMin 40); by_cases_on (Js.ge timeLeftMin 20);
  by_cases_on (Js.ge timeLeftMin 0);
  by_cases_on (Js.lt timeLeftMin 40); by_cases_on (Js.lt timeLeftMin 20);
  by_cases_on (Js.lt 40 timeLeftMin); by_cases_on (Js.lt 20 timeLeftMin);
  simpl; try (exfalso; lra);
  repeat split; intros; try reflexivity; try (exfalso; lra);
  try (exfalso; intuition lra).
Qed.

Lemma timeColor_and_phase_witness :
  timeColor 40 = green /\ phaseOf 40 = MID /\
  timeColor 20 = yellow /\ phaseOf 20 = LATE /\
  timeColor 12.5 = red /\ timeColor 61 = reset.
Proof.
  destruct (timeColor_and_phase 40) as (_ & H40 & _ & _).
  destruct (timeColor_and_phase 20) as (_ & _ & H20 & _).
  destruct (timeColor_and_phase 12.5) as (Hin & _ & _ & _).
  destruct (timeColor_and_phase 61) as (_ & _ & _ & Hout).
  destruct (H40 (Qeq_refl 40)) as [Ha Hb].
  destruct (H20 (Qeq_refl 20)) as [Hc Hd].
  split; [exact Ha|]. split; [exact Hb|]. split; [exact Hc|].
  split; [exact Hd|]. split.
  - rewrite Hin; [reflexivity | split; discriminate | discriminate | discriminate].
  - apply Hout. right. reflexivity.
Defined.

(** ** [countVwapCrosses]: what is counted *)

Lemma index_finite (l : list Q) (k : nat) :
  (k < List.length l)%nat ->
  Js.index (map finite l) (Z.of_nat k) = finite (nth k l 0).
Proof.
  intros Hk. unfold Js.index.
  destruct (Z.of_nat k <? 0)%Z eqn:E; [lia|].
  rewrite Nat2Z.id.
  rewrite (nth_indep _ Js.Undefined (finite 0)) by now rewrite length_map.
  apply map_nth.
Qed.

Lemma crossed_of_zero (prev cur : Q) :
  Qeq_bool prev 0 = true -> crossed prev cur = false.
Proof.
  intros H. apply Qeq_bool_eq in H. unfold crossed, Js.gt.
  by_cases_on (Js.lt 0 prev); [lra|].
  by_cases_on (Js.lt prev 0); [lra | reflexivity].
Qed.

Lemma skipn_cons_nth (A : Type) (l : list A) (k : nat) (d : A) :
  (k < List.length l)%nat -> skipn k l = nth k l d :: skipn (k + 1) l.
Proof.
  revert k. induction l as [|x l IH]; intros k Hk; simpl in Hk; [lia|].
  destruct k as [|k]; [reflexivity|]. simpl. apply IH. lia.
Qed.

Section Counting.

Variables closes vwapSeries : list Q.
Hypothesis sameLength : List.length closes = List.length vwapSeries.

Let differences := differencesOf closes vwapSeries.

Lemma differencesOf_length : List.length differences = List.length closes.
Proof.
  subst differences. revert vwapSeries sameLength.
  induction closes as [|c cs IH]; intros [|v vs] H; simpl in *;
    try discriminate; [reflexivity|].
  f_equal. apply IH. now injection H.
Qed.

Lemma differencesOf_nth (k : nat) :
  (k < List.length closes)%nat ->
  nth k differences 0 = nth k closes 0 - nth k vwapSeries 0.
Proof.
  subst differences. revert vwapSeries sameLength k.
  induction closes as [|c cs IH]; intros [|v vs] H k Hk; simpl in *;
    try discriminate; [lia|].
  destruct k as [|k]; [reflexivity|].
  apply IH; [now injection H | lia].
Qed.

(** A round of the loop at a position within the two series adds one
    exactly when the differences before and at the position cross. *)
Lemma body_counts (crosses : Z) (k : nat) :
  (k + 1 < List.length closes)%nat ->
  fst (body (map finite closes) (map finite vwapSeries) crosses
            (Z.of_nat (k + 1))) =
  (crosses + if crossed (nth k differences 0%Q) (nth (k + 1) differences 0%Q)
             then 1 else 0)%Z.
Proof.
  intros Hk. unfold body, bind, read, ret.
  replace (Z.of_nat (k + 1) - 1)%Z with (Z.of_nat k) by lia.
  rewrite !index_finite by lia.
  rewrite !differencesOf_nth by lia.
  unfold finite, Js.sub. simpl Js.ToNumber. cbv iota.
  set (prev := nth k closes 0 - nth k vwapSeries 0).
  set (cur := nth (k + 1) closes 0 - nth (k + 1) vwapSeries 0).
  unfold Js.isZero.
  destruct (Qeq_bool prev 0) eqn:E.
  - rewrite (crossed_of_zero prev cur E). simpl. lia.
  - unfold Js.isPos, Js.isNeg. fold (crossed prev cur).
    destruct (crossed prev cur); simpl; lia.
Qed.

Lemma signChanges_skipn (k : nat) :
  (k + 1 < List.length differences)%nat ->
  signChanges (skipn k differences) =
  ((if crossed (nth k differences 0%Q) (nth (k + 1) differences 0%Q)
    then 1 else 0)
   + signChanges (skipn (k + 1) differences))%Z.
Proof.
  intros Hk.
  rewrite (skipn_cons_nth _ differences k 0) by lia.
  rewrite (skipn_cons_nth _ differences (k + 1) 0) by lia.
  reflexivity.
Qed.

Lemma loop_counts (rounds : nat) :
  forall (k : nat) (crosses : Z),
    (k + 1 + rounds = List.length closes)%nat ->
    fst (loop (map finite closes) (map finite vwapSeries) rounds
              (Z.of_nat (k + 1)) crosses) =
    (crosses + signChanges (skipn k differences))%Z.
Proof.
  induction rounds as [|rounds IH]; intros k crosses Hk.
  - simpl. rewrite (skipn_cons_nth _ differences k 0)
      by (rewrite differencesOf_length; lia).
    rewrite skipn_all2 by (rewrite differencesOf_length; lia).
    simpl. lia.
  - cbn [loop]. unfold bind.
    pose proof (body_counts crosses k ltac:(lia)) as Hb.
    destruct (body _ _ crosses (Z.of_nat (k + 1))) as [c t]. simpl in Hb.
    replace (Z.of_nat (k + 1) + 1)%Z with (Z.of_nat (k + 1 + 1)) by lia.
    pose proof (IH (k + 1)%nat c ltac:(lia)) as Hl.
    destruct (loop _ _ rounds (Z.of_nat (k + 1 + 1)) c) as [c' t'].
    simpl in *. subst c' c.
    rewrite (signChanges_skipn k) by (rewrite differencesOf_length; lia).
    lia.
Qed.

Lemma countVwapCrosses_counts (lookback : Z) :
  (1 <= lookback <= Js.length closes)%Z ->
  countVwapCrosses (map finite closes) (map finite vwapSeries) lookback =
  Some (signChanges (JsLib.lastN (Z.to_nat lookback) differences)).
Proof.
  intros [Hlo Hhi]. unfold countVwapCrosses, countVwapCrossesTraced.
  unfold Js.length in *. rewrite !length_map, <- sameLength.
  destruct ((_ <? _)%Z || (_ <? _)%Z) eqn:E;
    [apply orb_true_iff in E; lia|].
  unfold bind, ret.
  set (n := List.length closes) in *.
  replace (Z.of_nat n - lookback + 1)%Z
    with (Z.of_nat (n - Z.to_nat lookback + 1)) by lia.
  pose proof (loop_counts
    (Z.to_nat (Z.of_nat n - Z.of_nat (n - Z.to_nat lookback + 1)))
    (n - Z.to_nat lookback) 0 ltac:(subst n; lia)) as Hl.
  destruct (loop _ _ _ _ 0) as [c t]. simpl in *. subst c.
  unfold JsLib.lastN. rewrite differencesOf_length. reflexivity.
Qed.

End Counting.

(** X20.  For two series of finite numbers of the same length, the count is the
    number of crossings along the differences close minus VWAP of the last
    [lookback] positions: the pairs of consecutive differences of which one
    is above zero and the other below.  A difference of exactly zero never
    takes part in a crossing. *)
Theorem countVwapCrosses_counts_crossings
    (closes vwapSeries : list Q) (lookback : Z) :
  List.length closes = List.length vwapSeries ->
  (1 <= lookback <= Js.length closes)%Z ->
  countVwapCrosses (map finite closes) (map finite vwapSeries) lookback =
  Some (signChanges
          (JsLib.lastN (Z.to_nat lookback) (differencesOf closes vwapSeries))).
Proof. intros Hlen Hlook. now apply countVwapCrosses_counts. Qed.

Lemma countVwapCrosses_counts_crossings_witness :
  countVwapCrosses (map finite [101; 99; 100; 102; 98])
                   (map finite [100; 100; 100; 100; 100]) 5 = Some 2%Z.
Proof.
  apply (countVwapCrosses_counts_crossings [101; 99; 100; 102; 98]
           [100; 100; 100; 100; 100] 5); [reflexivity | split; discriminate].
Defined.

Lemma signChanges_above (differences : list Q) :
  Forall (fun d => 0 < d) differences -> signChanges differences = 0%Z.
Proof.
  induction 1 as [|prev rest Hprev Hrest IH]; [reflexivity|].
  destruct rest as [|cur rest]; [reflexivity|].
  change (signChanges (prev :: cur :: rest))
    with ((if crossed prev cur then 1 else 0) + signChanges (cur :: rest))%Z.
  rewrite IH.
  inversion Hrest as [|? ? Hcur _]; subst.
  unfold crossed, Js.gt.
  by_cases_on (Js.lt cur 0); [lra|].
  by_cases_on (Js.lt prev 0); [lra|].
  now rewrite andb_false_r.
Qed.

(** When every close of the last [lookback] positions is above its VWAP,
    the count is 0. *)
Theorem countVwapCrosses_all_above
    (closes vwapSeries : list Q) (lookback : Z) :
  List.length closes = List.length vwapSeries ->
  (1 <= lookback <= Js.length closes)%Z ->
  Forall (fun d => 0 < d)
         (JsLib.lastN (Z.to_nat lookback) (differencesOf closes vwapSeries)) ->
  countVwapCrosses (map finite closes) (map finite vwapSeries) lookback
    = Some 0%Z.
Proof.
  intros Hlen Hlook Habove.
  rewrite countVwapCrosses_counts by assumption.
  now rewrite signChanges_above.
Qed.

Lemma countVwapCrosses_all_above_witness :
  countVwapCrosses (map finite [99; 101; 103; 102])
                   (map finite [100; 100; 101; 101]) 3 = Some 0%Z.
Proof.
  apply (countVwapCrosses_all_above [99; 101; 103; 102] [100; 100; 101; 101] 3);
    [reflexivity | split; discriminate |].
  repeat constructor.
Defined.

(** ** The volumes and the VWAP slope of a round *)

Import MainValues.

(** The last [n] elements of an array that ends with [n] elements, and of
    an array of at most [n] elements. *)
Lemma lastN_app (A : Type) (older window : list A) (n : nat) :
  List.length window = n -> JsLib.lastN n (older ++ window) = window.
Proof.
  intros <-. unfold JsLib.lastN. rewrite length_app.
  replace (List.length older + List.length window - List.length window)%nat
    with (List.length older + 0)%nat by lia.
  now rewrite skipn_app, Nat.add_0_r, skipn_all, Nat.sub_diag.
Qed.

Lemma lastN_all (A : Type) (l : list A) (n : nat) :
  (List.length l <= n)%nat -> JsLib.lastN n l = l.
Proof.
  intros H. unfold JsLib.lastN.
  now replace (List.length l - n)%nat with 0%nat by lia.
Qed.

Section Volumes.

Import PrimFloat Double MainDoubles.

(** X21.  The recent volume is the sum, in doubles and from the oldest on,
    of the volumes of the last 20 candles, and the average volume is the
    sum of the volumes of the last 120 candles divided by 6; with fewer
    candles the sums are over all of them, and the divisor stays 6.  So
    with at most 20 candles the average is the recent volume divided
    by 6. *)
Theorem volumeRecent_volumeAvg_windows (older window : list Candle) :
  (List.length window = 20%nat ->
     volumeRecentOf (older ++ window) = sumOfVolumes window) /\
  (List.length window = 120%nat ->
     volumeAvgOf (older ++ window) = (sumOfVolumes window / 6)%float) /\
  ((List.length window <= 20)%nat ->
     volumeRecentOf window = sumOfVolumes window /\
     volumeAvgOf window = (volumeRecentOf window / 6)%float) /\
  ((List.length window <= 120)%nat ->
     volumeAvgOf window = (sumOfVolumes window / 6)%float).
Proof.
  unfold volumeRecentOf, volumeAvgOf. repeat split.
  - intros H. now rewrite lastN_app.
  - intros H. now rewrite lastN_app.
  - now rewrite lastN_all.
  - now rewrite !lastN_all by lia.
  - intros H. now rewrite lastN_all.
Qed.

Lemma volumeRecent_volumeAvg_windows_witness :
  let candle v := mkCandle 0 None None None None v 60000 in
  let older := [candle (Some 1000%float); candle None] in
  volumeRecentOf (older ++ repeat (candle (Some 1.5%float)) 20) = 30%float /\
  volumeAvgOf (older ++ repeat (candle (Some 0.5%float)) 120) = 10%float /\
  volumeAvgOf [candle (Some 3%float); candle None; candle (Some 4.5%float)]
  = 1.25%float.
Proof.
  intros candle older.
  destruct (volumeRecent_volumeAvg_windows
              older (repeat (candle (Some 1.5%float)) 20)) as (H20 & _).
  destruct (volumeRecent_volumeAvg_windows
              older (repeat (candle (Some 0.5%float)) 120)) as (_ & H120 & _).
  destruct (volumeRecent_volumeAvg_windows
              [] [candle (Some 3%float); candle None; candle (Some 4.5%float)])
    as (_ & _ & _ & Hfew).
  split; [|split].
  - exact (eq_trans (H20 eq_refl) eq_refl).
  - exact (eq_trans (H120 eq_refl) eq_refl).
  - refine (eq_trans (Hfew _) eq_refl). simpl. lia.
Defined.

(** The quotient is rounded: with the single volume 9/10, six times the
    average is below the recent volume. *)
Example volumeAvg_rounded :
  let candle v := mkCandle 0 None None None None v 60000 in
  let candles := [candle (Some (ofZ 9 / 10)%float)] in
  (6 * volumeAvgOf candles <? volumeRecentOf candles)%float = true.
Proof. vm_compute. reflexivity. Qed.

End Volumes.

Lemma risingSeries_nth (a d : Q) (n k : nat) :
  (k < n)%nat ->
  nth k (risingSeries a d n) 0 = a + inject_Z (Z.of_nat k) * d.
Proof.
  intros Hk. unfold risingSeries.
  set (f := fun i : nat => a + inject_Z (Z.of_nat i) * d).
  rewrite (nth_indep _ 0 (f O)) by now rewrite length_map, length_seq.
  rewrite map_nth, seq_nth by exact Hk. reflexivity.
Qed.

Lemma index_finite_at (l : list Q) (i : Z) :
  (0 <= i < Js.length l)%Z ->
  Js.index (map finite l) i = finite (nth (Z.to_nat i) l 0).
Proof.
  intros Hi. unfold Js.length in Hi.
  rewrite <- (Z2Nat.id i) at 1 by lia.
  apply index_finite. lia.
Qed.

Lemma vwapSlopeOf_null (lookback : Z) (vwapSeries : list Js.value) :
  vwapSlopeOf lookback vwapSeries = None
  <-> (Z.of_nat (List.length vwapSeries) < lookback)%Z.
Proof.
  unfold vwapSlopeOf, Js.length.
  destruct (lookback <=? Z.of_nat (List.length vwapSeries))%Z eqn:E.
  - apply Z.leb_le in E. split; [discriminate | lia].
  - apply Z.leb_gt in E. split; [intros _; exact E | reflexivity].
Qed.

Lemma vwapSlopeOf_finite (lookback : nat) (series : list Q) :
  (1 <= lookback <= List.length series)%nat ->
  vwapSlopeOf (Z.of_nat lookback) (map finite series)
  = Some (Js.Fin ((nth (List.length series - 1) series 0
                   - nth (List.length series - lookback) series 0)
                  / inject_Z (Z.of_nat lookback))).
Proof.
  intros Hl. unfold vwapSlopeOf, vwapNowOf.
  assert (Hlen : Js.length (map finite series) = Z.of_nat (List.length series)).
  { unfold Js.length. now rewrite length_map. }
  rewrite Hlen.
  destruct (Z.of_nat lookback <=? Z.of_nat (List.length series))%Z eqn:E;
    [|apply Z.leb_gt in E; lia].
  rewrite !index_finite_at by (unfold Js.length; lia).
  unfold finite, Js.sub, JsLib.div. simpl Js.ToNumber. cbv iota.
  assert (Hnz : ~ inject_Z (Z.of_nat lookback) == 0).
  { unfold Qeq. simpl. lia. }
  destruct (Qeq_bool (inject_Z (Z.of_nat lookback)) 0) eqn:Ez;
    [apply Qeq_bool_eq in Ez; contradiction|].
  do 4 f_equal; f_equal; lia.
Qed.

(** X22.  The VWAP slope is null exactly when the series has fewer than
    [lookback] elements.  Otherwise, on a series of finite numbers, it is
    the last element minus the element [lookback - 1] places before it,
    divided by [lookback]; the lookback of the configuration is 10. *)
Theorem vwapSlopeOf_last_minus_earlier
    (lookback : nat) (vwapSeries : list Js.value) :
  vwapSlopeLookbackMinutes = 10%Z /\
  (vwapSlopeOf (Z.of_nat lookback) vwapSeries = None
   <-> (List.length vwapSeries < lookback)%nat) /\
  (forall series : list Q,
     vwapSeries = map finite series ->
     (1 <= lookback <= List.length series)%nat ->
     let n := List.length series in
     vwapSlopeOf (Z.of_nat lookback) vwapSeries
     = Some (Js.Fin ((nth (n - 1) series 0 - nth (n - lookback) series 0)
                     / inject_Z (Z.of_nat lookback)))).
Proof.
  split; [reflexivity|]. split.
  - rewrite vwapSlopeOf_null. lia.
  - intros series -> Hl n. now apply vwapSlopeOf_finite.
Qed.

Lemma vwapSlopeOf_last_minus_earlier_witness :
  let series := [100; 101; 103; 106; 110; 115; 121; 128; 136; 145; 155; 166] in
  vwapSlopeOf vwapSlopeLookbackMinutes (map finite series)
  = Some (Js.Fin ((166 - 103) / 10)) /\
  vwapSlopeOf vwapSlopeLookbackMinutes (map finite (firstn 9 series)) = None.
Proof.
  intros series.
  destruct (vwapSlopeOf_last_minus_earlier 10 (map finite series))
    as (Hten & _ & Hslope).
  destruct (vwapSlopeOf_last_minus_earlier 10 (map finite (firstn 9 series)))
    as (_ & Hnull & _).
  rewrite Hten. split.
  - apply (Hslope series eq_refl). simpl. lia.
  - apply Hnull. simpl. lia.
Defined.

(** On a series that rises by [d] from one element to the next the slope is
    [d * (lookback - 1) / lookback], not [d]. *)
Lemma vwapSlopeOf_risingSeries (a d : Q) (n lookback : nat) :
  (1 <= lookback <= n)%nat ->
  exists slope,
    vwapSlopeOf (Z.of_nat lookback) (map finite (risingSeries a d n))
    = Some (Js.Fin slope) /\
    slope == d * (inject_Z (Z.of_nat lookback) - 1) / inject_Z (Z.of_nat lookback).
Proof.
  intros Hl.
  assert (Hlen : List.length (risingSeries a d n) = n).
  { unfold risingSeries. now rewrite length_map, length_seq. }
  rewrite vwapSlopeOf_finite by (rewrite Hlen; exact Hl).
  eexists. split; [reflexivity|].
  rewrite Hlen, !risingSeries_nth by lia.
  assert (Hnz : ~ inject_Z (Z.of_nat lookback) == 0).
  { unfold Qeq. simpl. lia. }
  replace (Z.of_nat (n - 1)) with (Z.of_nat n + - (1))%Z by lia.
  replace (Z.of_nat (n - lookback)) with (Z.of_nat n + - Z.of_nat lookback)%Z
    by lia.
  rewrite !inject_Z_plus, !inject_Z_opp.
  change (inject_Z 1) with 1. field. exact Hnz.
Qed.

(** ** [fmtTimeLeft] *)

Lemma padStart2_decimal (n : nat) :
  (n < 100)%nat ->
  JsLib.padStart2 (JsLib.decimal (Z.of_nat n)) = twoDigits (Z.of_nat n).
Proof.
  intros Hn.
  do 100 (destruct n as [|n]; [reflexivity|]). lia.
Qed.

Section TimeLeft.

Import PrimFloat Double MainDoubles.

Lemma floor_of_value (x : float) (q : Q) :
  value x = Some q -> floor x = Int (Qfloor q).
Proof.
  unfold value, floor, integralOf.
  destruct (FloatOps.Prim2SF x); intros [= <-]; reflexivity.
Qed.

Lemma minutes_upto_6000 :
  forallb
    (fun t =>
       match floor (ofZ t / 60)%float with
       | Int m => (m =? t / 60)%Z
       | NaN => false
       | Infinity _ => false
       end)
    (map Z.of_nat (seq 0 (Z.to_nat 6000))) = true.
Proof. vm_compute. reflexivity. Qed.

Lemma toString_below_100 (n : Z) :
  (0 <= n < 100)%Z ->
  option_map JsLib.padStart2 (toString (Int n)) = Some (twoDigits n).
Proof.
  intros Hn. unfold toString.
  assert (E1 : (Z.abs n <=? 2 ^ 53)%Z = true) by (apply Z.leb_le; lia).
  assert (E2 : (n <? 0)%Z = false) by (apply Z.ltb_ge; lia).
  rewrite E1, E2, Z.abs_eq by lia. simpl.
  rewrite <- (Z2Nat.id n) by lia. now rewrite padStart2_decimal by lia.
Qed.

(** X23.  The time left is shown from the whole seconds of the double
    product [mins * 60]: when they are 0 or negative as 00:00, and up to
    99:59 as the minutes and the seconds below 60, of two digits each. *)
Theorem fmtTimeLeft_minutes_seconds (mins : float) (q : Q) :
  value (mins * 60)%float = Some q ->
  let seconds := Qfloor q in
  ((seconds <= 0)%Z -> fmtTimeLeft mins = Some "00:00"%string) /\
  ((0 <= seconds < 6000)%Z ->
     fmtTimeLeft mins
     = Some (twoDigits (seconds / 60) ++ ":" ++ twoDigits (seconds mod 60))%string).
Proof.
  intros Hq seconds. unfold fmtTimeLeft.
  rewrite (floor_of_value _ _ Hq). fold seconds.
  cbn [max]. split.
  - intros H. rewrite Z.max_l by exact H. vm_compute. reflexivity.
  - intros H. rewrite Z.max_r by lia. cbn [toDouble rem].
    pose proof (forallb_upto _ 6000 minutes_upto_6000 seconds ltac:(lia)) as Hm.
    cbv beta in Hm.
    destruct (floor (ofZ seconds / 60)%float) as [m| |]; try discriminate.
    apply Z.eqb_eq in Hm. subst m.
    rewrite Z.rem_mod_nonneg by lia.
    assert (Hmin : (0 <= seconds / 60 < 100)%Z)
      by (split; [apply Z.div_pos | apply Z.div_lt_upper_bound]; lia).
    assert (Hsec : (0 <= seconds mod 60 < 100)%Z)
      by (pose proof (Z.mod_pos_bound seconds 60); lia).
    pose proof (toString_below_100 _ Hmin) as H1.
    pose proof (toString_below_100 _ Hsec) as H2.
    destruct (toString (Int (seconds / 60))) as [m'|]; [|discriminate].
    destruct (toString (Int (seconds mod 60))) as [s'|]; [|discriminate].
    simpl in H1, H2. injection H1 as ->. injection H2 as ->. reflexivity.
Qed.

(** 8.2 minutes are shown as 08:11, since 8.2 * 60 is below 492 in doubles,
    and 0.15 minutes as 00:09, since 0.15 * 60 is 9 in doubles; minus 3
    minutes and a quarter of a second are shown as 00:00. *)
Lemma fmtTimeLeft_minutes_seconds_witness :
  fmtTimeLeft (ofZ 82 / 10)%float = Some "08:11"%string /\
  fmtTimeLeft (ofZ 15 / 100)%float = Some "00:09"%string /\
  fmtTimeLeft 59.5%float = Some "59:30"%string /\
  fmtTimeLeft (-3)%float = Some "00:00"%string /\
  fmtTimeLeft (1 / 256)%float = Some "00:00"%string.
Proof.
  destruct (fmtTimeLeft_minutes_seconds (ofZ 82 / 10)%float _ eq_refl)
    as [_ H1].
  destruct (fmtTimeLeft_minutes_seconds (ofZ 15 / 100)%float _ eq_refl)
    as [_ H1'].
  destruct (fmtTimeLeft_minutes_seconds 59.5%float _ eq_refl) as [_ H2].
  destruct (fmtTimeLeft_minutes_seconds (-3)%float _ eq_refl) as [H3 _].
  destruct (fmtTimeLeft_minutes_seconds (1 / 256)%float _ eq_refl) as [H4 _].
  split; [|split; [|split; [|split]]].
  - apply H1. vm_compute. split; [discriminate | reflexivity].
  - apply H1'. vm_compute. split; [discriminate | reflexivity].
  - apply H2. vm_compute. split; [discriminate | reflexivity].
  - apply H3. vm_compute. discriminate.
  - apply H4. vm_compute. discriminate.
Defined.

(** What is not a time: [NaN] and the infinities. *)
Example fmtTimeLeft_not_finite :
  fmtTimeLeft nan = Some "NaN:NaN"%string /\
  fmtTimeLeft infinity = Some "Infinity:NaN"%string /\
  fmtTimeLeft neg_infinity = Some "00:00"%string.
Proof. repeat split. Qed.

End TimeLeft.

(** ** [fetchCurrentKxbtcMarket]: the market that is chosen *)

Import KalshiMarkets.

Section SortHead.

Variable A : Type.
Variable compare : A -> A -> option Q.

(** The elements on which the comparison is an order. *)
Variable valid : A -> Prop.

Local Abbreviation greater := (JsLib.greater A compare).

Hypothesis total : forall x y,
  valid x -> valid y -> greater x y = true -> greater y x = false.
Hypothesis transitive : forall x y z,
  valid x -> valid y -> valid z ->
  greater x y = false -> greater y z = false -> greater x z = false.

Lemma insert_In (x y : A) (l : list A) :
  In y (JsLib.insert A compare x l) <-> y = x \/ In y l.
Proof.
  induction l as [|h l IH]; simpl; [intuition congruence|].
  destruct (greater x h); simpl; rewrite ?IH; intuition congruence.
Qed.

Lemma sort_In (y : A) (l : list A) :
  In y (JsLib.sort A compare l) <-> In y l.
Proof.
  induction l as [|x l IH]; simpl; [tauto|].
  rewrite insert_In, IH. intuition congruence.
Qed.

Lemma sort_nil (l : list A) : JsLib.sort A compare l = [] -> l = [].
Proof.
  destruct l as [|x l]; [reflexivity|]. intros H.
  assert (Hin : In x (JsLib.sort A compare (x :: l)))
    by (apply sort_In; now left).
  rewrite H in Hin. destruct Hin.
Qed.

(** The first element of the sorted array is not greater than any
    element. *)
Lemma sort_head (l : list A) (h : A) :
  Forall valid l ->
  hd_error (JsLib.sort A compare l) = Some h ->
  In h l /\ forall y, In y l -> greater h y = false.
Proof.
  intros Hvalid. revert h.
  induction Hvalid as [|x l Hx Hl IH]; intros h; simpl; [discriminate|].
  destruct (JsLib.sort A compare l) as [|h' t] eqn:E; simpl.
  - apply sort_nil in E. subst l. intros [= <-]. split; [now left|].
    intros y [<- | []].
    destruct (greater x x) eqn:G; [|reflexivity].
    now rewrite (total x x Hx Hx G) in G.
  - destruct (IH h' eq_refl) as [Hin Hmin].
    assert (Hh' : valid h') by (rewrite Forall_forall in Hl; now apply Hl).
    destruct (greater x h') eqn:G; simpl; intros [= <-].
    + split; [now right|]. intros y [<- | Hy]; [|now apply Hmin].
      now apply total.
    + split; [now left|]. intros y [<- | Hy].
      * destruct (greater x x) eqn:G'; [|reflexivity].
        now rewrite (total x x Hx Hx G') in G'.
      * apply (transitive x h' y); auto.
        rewrite Forall_forall in Hl. now apply Hl.
Qed.

End SortHead.

Lemma gt_difference (a b : Z) :
  Js.gt (inject_Z (a - b)) 0 = true <-> (b < a)%Z.
Proof.
  rewrite gt_true. change 0 with (inject_Z 0). rewrite <- Zlt_Qlt. lia.
Qed.

Lemma gt_difference_false (a b : Z) :
  Js.gt (inject_Z (a - b)) 0 = false <-> (a <= b)%Z.
Proof.
  rewrite gt_false. change 0 with (inject_Z 0). rewrite <- Zle_Qle. lia.
Qed.

Lemma byCloseTime_greater (a b : Market) (ta tb : Z) :
  close_time a = Some ta -> close_time b = Some tb ->
  JsLib.greater _ byCloseTime a b = Js.gt (inject_Z (ta - tb)) 0.
Proof. intros Ha Hb. unfold JsLib.greater, byCloseTime. now rewrite Ha, Hb. Qed.

Lemma byCloseTime_total (x y : Market) :
  hasCloseTime x -> hasCloseTime y ->
  JsLib.greater _ byCloseTime x y = true ->
  JsLib.greater _ byCloseTime y x = false.
Proof.
  intros [tx Hx] [ty Hy].
  rewrite (byCloseTime_greater x y tx ty), (byCloseTime_greater y x ty tx)
    by assumption.
  rewrite gt_difference, gt_difference_false. lia.
Qed.

Lemma byCloseTime_transitive (x y z : Market) :
  hasCloseTime x -> hasCloseTime y -> hasCloseTime z ->
  JsLib.greater _ byCloseTime x y = false ->
  JsLib.greater _ byCloseTime y z = false ->
  JsLib.greater _ byCloseTime x z = false.
Proof.
  intros [tx Hx] [ty Hy] [tz Hz].
  rewrite (byCloseTime_greater x y tx ty), (byCloseTime_greater y z ty tz),
    (byCloseTime_greater x z tx tz) by assumption.
  rewrite !gt_difference_false. lia.
Qed.

Lemma closesSoon_hasCloseTime (now : Z) (m : Market) :
  closesSoon now m = true -> hasCloseTime m.
Proof.
  unfold closesSoon, hasCloseTime. destruct (close_time m) as [t|];
    [eauto | discriminate].
Qed.

Lemma soonMarkets_valid (now : Z) (markets : list Market) :
  Forall hasCloseTime (filter (closesSoon now) markets).
Proof.
  apply Forall_forall. intros m Hm. apply filter_In in Hm.
  now apply (closesSoon_hasCloseTime now).
Qed.

Lemma closesSoon_window (now : Z) (m : Market) :
  closesSoon now m = true <-> closesWithinTwoHours now m.
Proof.
  unfold closesSoon, closesWithinTwoHours.
  destruct (close_time m) as [t|].
  - rewrite andb_true_iff, Z.ltb_lt, Z.leb_le. split.
    + intros [H1 H2]. exists t. repeat split; lia.
    + intros (t' & [= <-] & H1 & H2). lia.
  - split; [discriminate | intros (t & E & _); discriminate].
Qed.

Lemma noPrice_withoutPrice (currentBtcPrice : option Q) :
  noPrice currentBtcPrice = true <-> withoutPrice currentBtcPrice.
Proof.
  unfold noPrice, withoutPrice. destruct currentBtcPrice as [p|].
  - apply Qeq_bool_iff.
  - tauto.
Qed.

Lemma abs_Qabs (x : Q) : abs x == Qabs x.
Proof.
  unfold abs. destruct (Js.lt x 0) eqn:E.
  - apply lt_true in E. rewrite Qabs_neg by lra. reflexivity.
  - apply lt_false in E. rewrite Qabs_pos by lra. reflexivity.
Qed.

Lemma soonMarkets_none (now : Z) (markets : list Market) :
  filter (closesSoon now) markets = []
  <-> forall m, In m markets -> ~ closesWithinTwoHours now m.
Proof.
  split.
  - intros E m Hm Hsoon. apply closesSoon_window in Hsoon.
    assert (Hin : In m (filter (closesSoon now) markets))
      by (apply filter_In; now split).
    rewrite E in Hin. destruct Hin.
  - intros H. destruct (filter (closesSoon now) markets) as [|m l] eqn:E;
      [reflexivity|].
    assert (Hin : In m (filter (closesSoon now) markets))
      by (rewrite E; now left).
    apply filter_In in Hin. destruct Hin as [Hin C].
    apply closesSoon_window in C. now apply H in C.
Qed.

(** X24.  The call passes on what the request threw, and it returns null
    exactly when no market of the response closes after now and at most
    two hours, 7 200 000 milliseconds, after now (in particular when the
    response has no array of markets). *)
Theorem fetchCurrentKxbtcMarket_null
    (response : Fetched (option (list Market))) (now : Z)
    (currentBtcPrice : option Q) :
  (forall message, response = Threw message ->
     fetchCurrentKxbtcMarket response now currentBtcPrice = Threw message) /\
  (forall data, response = Got data ->
     (fetchCurrentKxbtcMarket response now currentBtcPrice = Got None <->
      forall m t, In m (match data with Some l => l | None => [] end) ->
                  close_time m = Some t ->
                  (t <= now)%Z \/ (now + 7200000 < t)%Z)).
Proof.
  split; [now intros message ->|].
  intros data ->. unfold fetchCurrentKxbtcMarket.
  set (markets := match data with Some l => l | None => [] end).
  assert (Hfilter : filter (closesSoon now) markets = [] <->
                    forall m t, In m markets -> close_time m = Some t ->
                                (t <= now)%Z \/ (now + 7200000 < t)%Z).
  { rewrite soonMarkets_none. unfold closesWithinTwoHours. split.
    - intros H m t Hin Ht.
      destruct (Z_le_gt_dec t now) as [Hle | Hgt]; [now left|].
      destruct (Z_le_gt_dec t (now + 7200000)) as [Hle' | Hgt']; [|right; lia].
      exfalso. apply (H m Hin). exists t. repeat split; [exact Ht | lia | lia].
    - intros H m Hin (t & Ht & H1 & H2).
      destruct (H m t Hin Ht); lia. }
  destruct markets as [|m0 rest] eqn:Em.
  { split; [intros _ m t [] | reflexivity]. }
  rewrite <- Em in *. clear Em.
  destruct (filter (closesSoon now) markets) as [|s soon] eqn:Es.
  { split; [intros _; now apply Hfilter | reflexivity]. }
  split; [|intros H; apply Hfilter in H; discriminate].
  destruct (noPrice currentBtcPrice).
  - destruct (JsLib.sort _ byCloseTime (s :: soon)) eqn:E;
      [apply sort_nil in E|]; discriminate.
  - destruct (JsLib.sort _ byCloseTimeThenDistance
                (map _ (s :: soon))) eqn:E;
      [apply sort_nil in E|]; discriminate.
Qed.

(** At 1000, a market that closes at 1000, one without a valid close time
    and one that closes a millisecond after the two hours give null. *)
Lemma fetchCurrentKxbtcMarket_null_witness :
  let market t :=
    mkMarket (Some "KXBTCD-26FEB0201-T75000"%string) t
             Js.Undefined Js.Undefined None None None in
  fetchCurrentKxbtcMarket
    (Got (Some [market (Some 1000%Z); market None; market (Some 7201001%Z)]))
    1000 (Some 75120) = Got None.
Proof.
  intros market.
  destruct (fetchCurrentKxbtcMarket_null
    (Got (Some [market (Some 1000%Z); market None; market (Some 7201001%Z)]))
    1000 (Some 75120)) as [_ H].
  apply (H _ eq_refl).
  intros m t [<- | [<- | [<- | []]]]; simpl; intros [= <-];
    [left | right]; lia.
Defined.

(** X25.  Without a price the chosen market is one of the response that
    closes after now and at most two hours, 7 200 000 milliseconds, after
    now, and no market of the response that closes in that window closes
    before it. *)
Theorem fetchCurrentKxbtcMarket_soonest
    (markets : list Market) (now : Z) (currentBtcPrice : option Q) (m : Market) :
  withoutPrice currentBtcPrice ->
  fetchCurrentKxbtcMarket (Got (Some markets)) now currentBtcPrice
    = Got (Some m) ->
  In m markets /\
  exists t, close_time m = Some t /\ (now < t)%Z /\ (t <= now + 7200000)%Z /\
    forall m' t', In m' markets -> close_time m' = Some t' ->
                  (now < t')%Z -> (t' <= now + 7200000)%Z -> (t <= t')%Z.
Proof.
  intros Hno. apply noPrice_withoutPrice in Hno.
  unfold fetchCurrentKxbtcMarket. rewrite Hno.
  destruct markets as [|m0 rest] eqn:Em; [discriminate|].
  rewrite <- Em. clear Em.
  destruct (filter (closesSoon now) markets) as [|s soon] eqn:Es;
    [discriminate|].
  rewrite <- Es. intros [= H].
  destruct (sort_head _ byCloseTime hasCloseTime
              byCloseTime_total byCloseTime_transitive _ m
              (soonMarkets_valid now markets) H) as [Hin Hmin].
  apply filter_In in Hin. destruct Hin as [Hin Hsoon].
  split; [exact Hin|].
  destruct (proj1 (closesSoon_window now m) Hsoon) as (t & Ht & H1 & H2).
  exists t. repeat split; try assumption.
  intros m' t' Hin' Ht' H1' H2'.
  assert (Hsoon' : closesSoon now m' = true).
  { apply closesSoon_window. exists t'. repeat split; assumption. }
  assert (G : JsLib.greater _ byCloseTime m m' = false)
    by (apply Hmin; apply filter_In; now split).
  rewrite (byCloseTime_greater m m' t t' Ht Ht') in G.
  now apply gt_difference_false.
Qed.

(** At 1000, of markets that close at 7 201 001, at 7 201 000, at 5000 and
    at 1000, the one that closes at 5000 is chosen; without that one, the
    one that closes at 7 201 000, the last millisecond of the window. *)
Lemma fetchCurrentKxbtcMarket_soonest_witness :
  let market t :=
    mkMarket (Some "KXBTCD-26FEB0201-T75000"%string) (Some t)
             Js.Undefined Js.Undefined None None None in
  let markets := [market 7201001%Z; market 7201000%Z; market 5000%Z;
                  market 1000%Z] in
  let others := [market 7201001%Z; market 7201000%Z; market 1000%Z] in
  (In (market 5000%Z) markets /\
   exists t, close_time (market 5000%Z) = Some t /\
     (1000 < t)%Z /\ (t <= 1000 + 7200000)%Z /\
     forall m' t', In m' markets -> close_time m' = Some t' ->
       (1000 < t')%Z -> (t' <= 1000 + 7200000)%Z -> (t <= t')%Z) /\
  (In (market 7201000%Z) others /\
   exists t, close_time (market 7201000%Z) = Some t /\
     (1000 < t)%Z /\ (t <= 1000 + 7200000)%Z /\
     forall m' t', In m' others -> close_time m' = Some t' ->
       (1000 < t')%Z -> (t' <= 1000 + 7200000)%Z -> (t <= t')%Z).
Proof.
  intros market markets others. split.
  - apply (fetchCurrentKxbtcMarket_soonest markets 1000 None (market 5000%Z));
      [exact I | reflexivity].
  - apply (fetchCurrentKxbtcMarket_soonest others 1000 (Some 0)
             (market 7201000%Z)); reflexivity.
Defined.

Lemma byCloseTimeThenDistance_greater (a b : Market) (ta tb : Z) (da db : Q) :
  closeTime a = Some ta -> distance a = Some da ->
  closeTime b = Some tb -> distance b = Some db ->
  JsLib.greater _ byCloseTimeThenDistance a b =
    if (ta =? tb)%Z then Js.gt (da - db) 0 else Js.gt (inject_Z (ta - tb)) 0.
Proof.
  intros Hta Hda Htb Hdb. unfold JsLib.greater, byCloseTimeThenDistance.
  rewrite Hta, Htb, Hda, Hdb. now destruct (ta =? tb)%Z.
Qed.

Lemma byCloseTimeThenDistance_total (x y : Market) :
  hasStrike x -> hasStrike y ->
  JsLib.greater _ byCloseTimeThenDistance x y = true ->
  JsLib.greater _ byCloseTimeThenDistance y x = false.
Proof.
  intros (tx & dx & Htx & Hdx) (ty & dy & Hty & Hdy).
  rewrite (byCloseTimeThenDistance_greater x y tx ty dx dy),
    (byCloseTimeThenDistance_greater y x ty tx dy dx) by assumption.
  rewrite (Z.eqb_sym ty tx).
  destruct (tx =? ty)%Z.
  - rewrite gt_true, gt_false. lra.
  - rewrite gt_difference, gt_difference_false. lia.
Qed.

Lemma byCloseTimeThenDistance_transitive (x y z : Market) :
  hasStrike x -> hasStrike y -> hasStrike z ->
  JsLib.greater _ byCloseTimeThenDistance x y = false ->
  JsLib.greater _ byCloseTimeThenDistance y z = false ->
  JsLib.greater _ byCloseTimeThenDistance x z = false.
Proof.
  intros (tx & dx & Htx & Hdx) (ty & dy & Hty & Hdy) (tz & dz & Htz & Hdz).
  rewrite (byCloseTimeThenDistance_greater x y tx ty dx dy),
    (byCloseTimeThenDistance_greater y z ty tz dy dz),
    (byCloseTimeThenDistance_greater x z tx tz dx dz) by assumption.
  destruct (tx =? ty)%Z eqn:Exy; destruct (ty =? tz)%Z eqn:Eyz;
    destruct (tx =? tz)%Z eqn:Exz;
    rewrite ?Z.eqb_eq, ?Z.eqb_neq in *;
    rewrite ?gt_difference_false, ?gt_false; try lia; try lra.
Qed.

Lemma withStrike_valid (price : Q) (now : Z) (markets : list Market) :
  Forall hasStrike (map (withStrike price) (filter (closesSoon now) markets)).
Proof.
  apply Forall_forall. intros m Hm. apply in_map_iff in Hm.
  destruct Hm as (m0 & <- & Hm0). apply filter_In in Hm0.
  destruct (closesSoon_hasCloseTime now m0 (proj2 Hm0)) as [t Ht].
  exists t, (abs (strikeOf m0 - price)). split; [exact Ht | reflexivity].
Qed.

(** X26.  With a price the chosen market is a market of the response that
    closes after now and at most two hours, 7 200 000 milliseconds, after
    now, with three keys added: its strike, the distance of the strike to
    the price and its close time.  No market of the response that closes in
    that window closes before it, and among those that close at the same
    time none has a strike nearer to the price. *)
Theorem fetchCurrentKxbtcMarket_nearest
    (markets : list Market) (now : Z) (price : Q) (m : Market) :
  ~ price == 0 ->
  fetchCurrentKxbtcMarket (Got (Some markets)) now (Some price) = Got (Some m) ->
  exists m0 t,
    In m0 markets /\
    close_time m0 = Some t /\ (now < t)%Z /\ (t <= now + 7200000)%Z /\
    (ticker m = ticker m0 /\ close_time m = close_time m0 /\
     yes_bid m = yes_bid m0 /\ no_bid m = no_bid m0) /\
    strikePrice m = Some (strikeOf m0) /\
    (exists d, distance m = Some d /\ d == Qabs (strikeOf m0 - price)) /\
    closeTime m = Some t /\
    forall m' t', In m' markets -> close_time m' = Some t' ->
      (now < t')%Z -> (t' <= now + 7200000)%Z ->
      (t <= t')%Z /\
      (t' = t -> Qabs (strikeOf m0 - price) <= Qabs (strikeOf m' - price)).
Proof.
  intros Hprice.
  assert (Hno : noPrice (Some price) = false).
  { destruct (noPrice (Some price)) eqn:E; [|reflexivity].
    apply noPrice_withoutPrice in E. contradiction. }
  unfold fetchCurrentKxbtcMarket. rewrite Hno.
  destruct markets as [|first rest] eqn:Em; [discriminate|].
  rewrite <- Em. clear Em.
  destruct (filter (closesSoon now) markets) as [|s soon] eqn:Es;
    [discriminate|].
  rewrite <- Es. intros [= H].
  destruct (sort_head _ byCloseTimeThenDistance hasStrike
              byCloseTimeThenDistance_total byCloseTimeThenDistance_transitive
              _ m (withStrike_valid price now markets) H) as [Hin Hmin].
  apply in_map_iff in Hin. destruct Hin as (m0 & <- & Hin).
  apply filter_In in Hin. destruct Hin as [Hin Hsoon].
  destruct (proj1 (closesSoon_window now m0) Hsoon) as (t & Ht & H1 & H2).
  exists m0, t.
  split; [exact Hin|]. split; [exact Ht|]. split; [exact H1|].
  split; [exact H2|]. split; [repeat split|]. split; [reflexivity|].
  split; [eexists; split; [reflexivity | apply abs_Qabs]|].
  split; [exact Ht|].
  intros m' t' Hin' Ht' H1' H2'.
  assert (Hsoon' : closesSoon now m' = true).
  { apply closesSoon_window. exists t'. repeat split; assumption. }
  assert (G : JsLib.greater _ byCloseTimeThenDistance
                (withStrike price m0) (withStrike price m') = false).
  { apply Hmin. apply in_map. apply filter_In. now split. }
  rewrite (byCloseTimeThenDistance_greater _ _ t t'
             (abs (strikeOf m0 - price)) (abs (strikeOf m' - price)))
    in G by (simpl; auto).
  split.
  - destruct (t =? t')%Z eqn:E;
      [apply Z.eqb_eq in E; lia | now apply gt_difference_false].
  - intros ->. rewrite Z.eqb_refl in G. apply gt_false in G.
    rewrite <- !abs_Qabs. lra.
Qed.

(** At 1000 and a price of 75 120, of two markets that close at 3000 with
    strikes 74 500 and 75 000, one that closes at 5000 with the strike
    75 100 and one that closes after the window with the strike 75 120,
    the market with the strike 75 000 is chosen, at a distance of 120. *)
Lemma fetchCurrentKxbtcMarket_nearest_witness :
  let market ticker t :=
    mkMarket (Some ticker) (Some t) Js.Undefined Js.Undefined None None None in
  let markets := [market "KXBTCD-26FEB0201-T74500"%string 3000%Z;
                  market "KXBTCD-26FEB0201-T75000"%string 3000%Z;
                  market "KXBTCD-26FEB0202-T75100"%string 5000%Z;
                  market "KXBTCD-26FEB0203-T75120"%string 7201001%Z] in
  let m := mkMarket (Some "KXBTCD-26FEB0201-T75000"%string) (Some 3000%Z)
                    Js.Undefined Js.Undefined
                    (Some 75000) (Some 120) (Some 3000%Z) in
  fetchCurrentKxbtcMarket (Got (Some markets)) 1000 (Some 75120) = Got (Some m) /\
  exists m0 t,
    In m0 markets /\
    close_time m0 = Some t /\ (1000 < t)%Z /\ (t <= 1000 + 7200000)%Z /\
    (ticker m = ticker m0 /\ close_time m = close_time m0 /\
     yes_bid m = yes_bid m0 /\ no_bid m = no_bid m0) /\
    strikePrice m = Some (strikeOf m0) /\
    (exists d, distance m = Some d /\ d == Qabs (strikeOf m0 - 75120)) /\
    closeTime m = Some t /\
    forall m' t', In m' markets -> close_time m' = Some t' ->
      (1000 < t')%Z -> (t' <= 1000 + 7200000)%Z ->
      (t <= t')%Z /\
      (t' = t -> Qabs (strikeOf m0 - 75120) <= Qabs (strikeOf m' - 75120)).
Proof.
  intros market markets m. split; [reflexivity|].
  apply (fetchCurrentKxbtcMarket_nearest markets 1000 75120 m);
    [discriminate | reflexivity].
Defined.

(** ** The strike of a ticker *)

Lemma digits_of_uint (d : Decimal.uint) :
  digits (NilEmpty.string_of_uint d) = (NilEmpty.string_of_uint d, EmptyString).
Proof.
  induction d; simpl; try reflexivity; now rewrite IHd.
Qed.

Lemma digitsValue_of_uint (d : Decimal.uint) :
  forall acc : Z, (0 <= acc)%Z ->
    digitsValue acc (NilEmpty.string_of_uint d)
    = Z.of_nat (Nat.of_uint_acc d (Z.to_nat acc)).
Proof.
  induction d; intros acc Hacc;
    cbn [NilEmpty.string_of_uint digitsValue Nat.of_uint_acc];
    try (now rewrite Z2Nat.id);
    match goal with
    | |- context [Z.of_nat (nat_of_ascii ?c)] =>
        let v := eval vm_compute in (Z.of_nat (nat_of_ascii c)) in
        change (Z.of_nat (nat_of_ascii c)) with v
    end;
    rewrite IHd by lia; do 2 f_equal;
    rewrite Nat.tail_mul_spec; lia.
Qed.

Lemma to_uint_nonnil (n : nat) : Nat.to_uint n <> Decimal.Nil.
Proof.
  intros E. pose proof (DecimalNat.Unsigned.of_to n) as H.
  rewrite E in H. simpl in H. subst n. discriminate E.
Qed.

Lemma numeral_digits (n : nat) :
  exists c rest,
    numeral n = String c rest /\
    digits (numeral n) = (numeral n, EmptyString) /\
    digitsValue 0 (numeral n) = Z.of_nat n.
Proof.
  unfold numeral. pose proof (to_uint_nonnil n) as Hnil.
  pose proof (DecimalNat.Unsigned.of_to n) as Hof.
  assert (E : NilZero.string_of_uint (Nat.to_uint n)
              = NilEmpty.string_of_uint (Nat.to_uint n)).
  { now destruct (Nat.to_uint n). }
  rewrite E, digits_of_uint, digitsValue_of_uint by lia.
  change (Nat.of_uint_acc (Nat.to_uint n) (Z.to_nat 0)) with
    (Nat.of_uint (Nat.to_uint n)).
  rewrite Hof.
  destruct (Nat.to_uint n); try contradiction; simpl; eauto.
Qed.

(** X27.  The strike is read back from a ticker that ends in [-T] or [-B] and the
    decimal numeral of a number, after a prefix in which the pattern does
    not match; a market without ticker has the strike 0. *)
Theorem strikeOf_numeral (prefix : string) (letter : ascii) (n : nat) (m : Market) :
  (forall rest, matchStrike (prefix ++ rest) = matchStrike rest) ->
  letter = "T"%char \/ letter = "B"%char ->
  (ticker m = Some (prefix ++ String "-" (String letter (numeral n)))%string ->
     strikeOf m = inject_Z (Z.of_nat n)) /\
  (ticker m = None -> strikeOf m = 0).
Proof.
  intros Hprefix Hletter. split.
  - intros Hticker. unfold strikeOf. rewrite Hticker, Hprefix.
    destruct (numeral_digits n) as (c & rest & Hs & Hd & Hv).
    assert (Hm : matchHere (String "-" (String letter (numeral n)))
                 = Some (numeral n)).
    { unfold matchHere.
      assert (Ascii.eqb letter "T" || Ascii.eqb letter "B" = true) as ->.
      { destruct Hletter as [-> | ->]; reflexivity. }
      rewrite Hd, Hs. reflexivity. }
    assert (Hmatch : matchStrike (String "-" (String letter (numeral n)))
                     = Some (numeral n)).
    { cbn [matchStrike]. now rewrite Hm. }
    rewrite Hmatch. unfold parseFloat. now rewrite Hd, Hv.
  - intros Hticker. unfold strikeOf. now rewrite Hticker.
Qed.

Lemma strikeOf_numeral_witness :
  strikeOf (mkMarket (Some "KXBTCD-26FEB0201-B4500"%string) None
                     Js.Undefined Js.Undefined None None None)
  = inject_Z (Z.of_nat 4500).
Proof.
  apply (strikeOf_numeral "KXBTCD-26FEB0201" "B" 4500).
  - intros rest. reflexivity.
  - right. reflexivity.
  - reflexivity.
Defined.

(** ** The MACD label of the screen and of the JSON signal *)

Import MainDisplay.

(** X28.  The JSON signal says "bearish" exactly when the histogram is known and
    negative, which is when the label of the screen starts with "bearish".
    While the MACD is not available the screen shows "-" and the JSON signal
    says "bullish". *)
Theorem macd_signal_and_label (macd : option Macd) :
  (macd = None ->
     macdLabel macd = "-"%string /\
     jsonSignal_macd_signal macd = "bullish"%string) /\
  (jsonSignal_macd_signal macd = "bearish"%string <->
     exists m, macd = Some m /\ hist m < 0) /\
  (jsonSignal_macd_signal macd = "bearish"%string <->
     macdLabel macd = "bearish"%string \/
     macdLabel macd = "bearish (expanding)"%string).
Proof.
  unfold jsonSignal_macd_signal, macdLabel.
  destruct macd as [m|].
  - split; [discriminate|].
    by_cases_on (Js.lt (hist m) 0).
    + split.
      * split; [intros _; now exists m | reflexivity].
      * split; [|reflexivity]. intros _.
        destruct (match histDelta m with Some d => _ | None => _ end); auto.
    + split.
      * split; [discriminate|]. intros (m' & [= <-] & H). lra.
      * split; [discriminate|].
        destruct (match histDelta m with Some d => _ | None => _ end);
          intros [H | H]; discriminate.
  - split; [now split|]. split.
    + split; [discriminate | intros (m & H & _); discriminate].
    + split; [discriminate | intros [H | H]; discriminate].
Qed.

Lemma macd_signal_and_label_witness :
  macdLabel None = "-"%string /\
  jsonSignal_macd_signal None = "bullish"%string /\
  jsonSignal_macd_signal (Some (mkMacd (-0.4) (Some 0.1))) = "bearish"%string.
Proof.
  destruct (macd_signal_and_label None) as [Hnone _].
  destruct (macd_signal_and_label (Some (mkMacd (-0.4) (Some 0.1))))
    as (_ & Hbear & _).
  destruct (Hnone eq_refl) as [Hl Hs].
  split; [exact Hl|]. split; [exact Hs|].
  apply Hbear. eexists. split; reflexivity.
Defined.

(** ** [stripAnsi], [padLabel] and [centerText] *)

Lemma afterParameters_length (s : text) :
  (List.length (afterParameters s) <= List.length s)%nat.
Proof.
  induction s as [|c rest IH]; simpl; [lia|].
  destruct (isParameter c); simpl; lia.
Qed.

Lemma afterEscape_length (s after : text) :
  afterEscape s = Some after -> (List.length after < List.length s)%nat.
Proof.
  unfold afterEscape. destruct s as [|c0 [|c1 rest]]; try discriminate.
  destruct (_ && _)%bool; [|discriminate].
  pose proof (afterParameters_length rest) as H.
  destruct (afterParameters rest) as [|c after']; [discriminate|].
  destruct (c =? 109)%N; [|discriminate]. intros [= <-]. simpl in *. lia.
Qed.

(** Fuel beyond the length of the text changes nothing. *)
Lemma strip_fuel (f1 : nat) :
  forall (f2 : nat) (s : text),
    (List.length s <= f1)%nat -> (List.length s <= f2)%nat ->
    strip f1 s = strip f2 s.
Proof.
  induction f1 as [|f1 IH]; intros f2 s H1 H2.
  - destruct s; [|simpl in H1; lia]. now destruct f2.
  - destruct f2 as [|f2].
    + destruct s; [reflexivity | simpl in H2; lia].
    + simpl. destruct (afterEscape s) as [after|] eqn:E.
      * apply afterEscape_length in E. apply IH; lia.
      * destruct s as [|c rest]; [reflexivity|]. simpl in *.
        f_equal. apply IH; lia.
Qed.

Lemma stripAnsi_escape (s after : text) :
  afterEscape s = Some after -> stripAnsi s = stripAnsi after.
Proof.
  intros E. unfold stripAnsi. pose proof (afterEscape_length s after E) as H.
  destruct s as [|c rest]; [discriminate|].
  cbn [List.length strip]. rewrite E. apply strip_fuel; simpl in H; lia.
Qed.

Lemma stripAnsi_keep (c : N) (rest : text) :
  afterEscape (c :: rest) = None ->
  stripAnsi (c :: rest) = c :: stripAnsi rest.
Proof.
  intros E. unfold stripAnsi. cbn [List.length strip]. now rewrite E.
Qed.

Lemma afterEscape_not_ESC (c : N) (rest : text) :
  c <> ESC -> afterEscape (c :: rest) = None.
Proof.
  intros Hc. unfold afterEscape. destruct rest as [|c1 rest]; [reflexivity|].
  apply N.eqb_neq in Hc. now rewrite Hc.
Qed.

Lemma stripAnsi_plain (s : text) : ~ In ESC s -> stripAnsi s = s.
Proof.
  induction s as [|c rest IH]; intros H; [reflexivity|].
  rewrite stripAnsi_keep.
  - f_equal. apply IH. intros Hin. apply H. now right.
  - apply afterEscape_not_ESC. intros ->. apply H. now left.
Qed.

Lemma afterParameters_all (params rest : text) :
  forallb isParameter params = true ->
  afterParameters (params ++ rest) = afterParameters rest.
Proof.
  induction params as [|c params IH]; simpl; [reflexivity|].
  intros H. apply andb_true_iff in H. destruct H as [Hc H].
  rewrite Hc. now apply IH.
Qed.

(** A text that no escape sequence can begin in is left as it is, and a
    colour code [ESC [ parameters m] in front of it and one behind it are
    both removed, as are codes in the middle: stripping is the identity on
    the visible text and drops the codes around it. *)
Theorem stripAnsi_coloured (parameters parameters' : text) (s : text) :
  forallb isParameter parameters = true ->
  forallb isParameter parameters' = true ->
  ~ In ESC s ->
  stripAnsi s = s /\
  stripAnsi ([ESC; 91%N] ++ parameters ++ [109%N] ++ s
             ++ [ESC; 91%N] ++ parameters' ++ [109%N]) = s.
Proof.
  intros Hp Hp' Hs. split; [now apply stripAnsi_plain|].
  rewrite (stripAnsi_escape _ (s ++ [ESC; 91%N] ++ parameters' ++ [109%N])).
  2:{ cbn [app afterEscape]. simpl andb. cbv iota.
      rewrite afterParameters_all by exact Hp. simpl. reflexivity. }
  induction s as [|c rest IH].
  - rewrite (stripAnsi_escape _ []); [reflexivity|].
    cbn [app afterEscape]. simpl andb. cbv iota.
    rewrite afterParameters_all by exact Hp'. reflexivity.
  - cbn [app]. rewrite stripAnsi_keep.
    + f_equal. apply IH. intros Hin. apply Hs. now right.
    + apply afterEscape_not_ESC. intros ->. apply Hs. now left.
Qed.

Lemma stripAnsi_coloured_witness :
  (* ESC [ 3 2 m  U P  ESC [ 0 m *)
  stripAnsi [27; 91; 51; 50; 109; 85; 80; 27; 91; 48; 109]%N = [85; 80]%N.
Proof.
  apply (stripAnsi_coloured [51; 50]%N [48]%N [85; 80]%N);
    [reflexivity | reflexivity |].
  intros [H | [H | []]]; discriminate.
Defined.

Lemma spaces_no_ESC (k : nat) : ~ In ESC (repeat space k).
Proof. intros H. apply repeat_spec in H. discriminate. Qed.

Lemma afterEscape_spaces (k : nat) (s : text) :
  afterEscape (repeat space (S k) ++ s) = None.
Proof. apply afterEscape_not_ESC. discriminate. Qed.

Lemma stripAnsi_spaces_before (k : nat) (s : text) :
  stripAnsi (repeat space k ++ s) = repeat space k ++ stripAnsi s.
Proof.
  induction k as [|k IH]; [reflexivity|].
  cbn [repeat app]. rewrite stripAnsi_keep; [now rewrite IH|].
  apply (afterEscape_spaces k).
Qed.

Lemma afterParameters_spaces (s : text) (k : nat) :
  afterParameters (s ++ repeat space k) = afterParameters s ++ repeat space k.
Proof.
  induction s as [|c rest IH]; simpl.
  - now destruct k.
  - now destruct (isParameter c).
Qed.

Lemma afterEscape_app_Some (s after : text) (k : nat) :
  afterEscape s = Some after ->
  afterEscape (s ++ repeat space k) = Some (after ++ repeat space k).
Proof.
  unfold afterEscape. destruct s as [|c0 [|c1 rest]]; try discriminate.
  cbn [app]. destruct (_ && _)%bool; [|discriminate].
  rewrite afterParameters_spaces.
  destruct (afterParameters rest) as [|c after']; [discriminate|].
  cbn [app]. destruct (c =? 109)%N; [|discriminate]. now intros [= <-].
Qed.

Lemma afterEscape_app_None (s : text) (k : nat) :
  afterEscape s = None -> afterEscape (s ++ repeat space k) = None.
Proof.
  unfold afterEscape. destruct s as [|c0 [|c1 rest]]; cbn [app].
  - intros _. destruct k as [|[|k]]; reflexivity.
  - intros _. destruct k as [|k]; [reflexivity|]. cbn [repeat].
    now rewrite andb_false_r.
  - destruct (_ && _)%bool; [|reflexivity].
    rewrite afterParameters_spaces.
    destruct (afterParameters rest) as [|c after']; cbn [app].
    + intros _. now destruct k.
    + now destruct (c =? 109)%N.
Qed.

Lemma stripAnsi_spaces_after (k : nat) (s : text) :
  stripAnsi (s ++ repeat space k) = stripAnsi s ++ repeat space k.
Proof.
  remember (List.length s) as n eqn:Hn.
  assert (Hle : (List.length s <= n)%nat) by lia. clear Hn.
  revert s Hle. induction n as [|n IH]; intros s Hle.
  - destruct s; [|simpl in Hle; lia].
    apply stripAnsi_plain, spaces_no_ESC.
  - destruct (afterEscape s) as [after|] eqn:E.
    + pose proof (afterEscape_length s after E) as Hlen.
      rewrite (stripAnsi_escape _ _ (afterEscape_app_Some s after k E)).
      rewrite (stripAnsi_escape _ _ E). apply IH. lia.
    + destruct s as [|c rest].
      * apply stripAnsi_plain, spaces_no_ESC.
      * cbn [app]. rewrite stripAnsi_keep
          by apply (afterEscape_app_None (c :: rest) k E).
        rewrite (stripAnsi_keep c rest E). cbn [app]. f_equal.
        apply IH. simpl in Hle. lia.
Qed.

Lemma spaces_length (n : Z) : (0 <= n)%Z -> Js.length (spaces n) = n.
Proof.
  intros Hn. unfold Js.length, spaces. rewrite repeat_length. lia.
Qed.

(** X29.  [padLabel] fills a label with spaces on the right up to the width,
    counted in visible characters: colour codes in the label do not count.
    A label that is already as wide as that is returned as it is. *)
Theorem padLabel_visible_width (label : text) (width : Z) :
  let visible := Js.length (stripAnsi label) in
  Js.length (stripAnsi (padLabel label width)) = Z.max width visible /\
  stripAnsi (padLabel label width)
    = stripAnsi label ++ spaces (width - visible) /\
  ((width <= visible)%Z -> padLabel label width = label).
Proof.
  intros visible. unfold padLabel. fold visible.
  destruct (width <=? visible)%Z eqn:E.
  - apply Z.leb_le in E. split; [lia|]. split; [|reflexivity].
    unfold spaces. replace (Z.to_nat (width - visible)) with O by lia.
    now rewrite app_nil_r.
  - apply Z.leb_gt in E. unfold spaces.
    rewrite stripAnsi_spaces_after. split; [|split; [reflexivity | lia]].
    unfold Js.length. rewrite length_app, repeat_length.
    subst visible. unfold Js.length in *. lia.
Qed.

Lemma padLabel_visible_width_witness :
  (* "UP" in green, padded to 5 *)
  let label := [27; 91; 51; 50; 109; 85; 80; 27; 91; 48; 109]%N in
  padLabel [85; 80]%N 2 = [85; 80]%N /\
  Js.length (stripAnsi (padLabel label 5)) = 5%Z.
Proof.
  intros label.
  destruct (padLabel_visible_width [85; 80]%N 2) as (_ & _ & Hsame).
  destruct (padLabel_visible_width label 5) as (Hwidth & _ & _).
  split; [apply Hsame; discriminate | exact Hwidth].
Defined.

(** X30.  [centerText] puts a text narrower than the width between spaces so
    that its visible width is the width, with as many spaces on the right
    as on the left or one more; a text that is not narrower is returned as
    it is. *)
Theorem centerText_centred (txt : text) (width : Z) :
  let visible := Js.length (stripAnsi txt) in
  ((width <= visible)%Z -> centerText txt width = txt) /\
  ((visible < width)%Z ->
     exists left right,
       (0 <= left)%Z /\ (left <= right <= left + 1)%Z /\
       (left + visible + right = width)%Z /\
       centerText txt width = spaces left ++ txt ++ spaces right /\
       Js.length (stripAnsi (centerText txt width)) = width).
Proof.
  intros visible. unfold centerText. fold visible.
  destruct (width <=? visible)%Z eqn:E.
  - apply Z.leb_le in E. split; [reflexivity | lia].
  - apply Z.leb_gt in E. split; [lia|]. intros _.
    set (left := ((width - visible) / 2)%Z).
    set (right := (width - visible - left)%Z).
    pose proof (Z.div_mod (width - visible) 2 ltac:(lia)) as Hdm.
    pose proof (Z.mod_pos_bound (width - visible) 2 ltac:(lia)) as Hmod.
    fold left in Hdm.
    exists left, right. repeat split; try (subst right; lia).
    unfold spaces.
    rewrite stripAnsi_spaces_before, stripAnsi_spaces_after.
    unfold Js.length. rewrite !length_app, !repeat_length.
    subst visible right. unfold Js.length in *. lia.
Qed.

Lemma centerText_centred_witness :
  exists left right,
    (0 <= left)%Z /\ (left <= right <= left + 1)%Z /\
    (left + 2 + right = 7)%Z /\
    centerText [85; 80]%N 7 = spaces left ++ [85; 80]%N ++ spaces right /\
    Js.length (stripAnsi (centerText [85; 80]%N 7)) = 7%Z.
Proof.
  apply (centerText_centred [85; 80]%N 7). reflexivity.
Defined.

Example centerText_example :
  centerText [85; 80]%N 7 = spaces 2 ++ [85; 80]%N ++ spaces 3.
Proof. reflexivity. Qed.
